(** * Replication rule module of the PowerStore collection

    A shallow embedding of [plugins/modules/replicationrule.py]: the Python
    values the module handles, the SDK it drives as an opaque transition
    function, the module's methods as computations in a small state and
    failure monad, and the properties of the reconciliation they implement. *)

From Stdlib Require Import String Ascii List ZArith Bool Lia.
Import ListNotations.
Local Open Scope string_scope.
Local Open Scope list_scope.
Set Warnings "-register-all".

(** ** Python values *)

Module Py.

(** The JSON-like values that travel between the playbook, the module and the
    SDK.  A dict keeps its insertion order, as Python's does.  A string holds
    the code points of a [str], one [ascii] for each: the strings of the
    embedding are the [str] values whose code points are below 256, and their
    length, indexing and equality are those of Python. *)
Inductive value : Type :=
| VNone
| VBool (b : bool)
| VInt (z : Z)
| VStr (s : string)
| VList (l : list value)
| VDict (d : list (string * value)).

(** The exceptions the module can see.  [PowerStoreException] carries the two
    attributes the module reads; every other subclass of [Exception] is
    kept by its class name. *)
Inductive exc : Type :=
| PowerStoreException (err_code : value) (status_code : value)
| PyError (cls : string).

Definition TypeError := PyError "TypeError".
Definition KeyError := PyError "KeyError".
Definition IndexError := PyError "IndexError".
Definition AttributeError := PyError "AttributeError".

(** Result of a primitive operation: an exception or a value. *)
Definition res (A : Type) : Type := (exc + A)%type.

Section Dict.
Context {V : Type}.

(** [d[key]] on an association list: the first binding of the key. *)
Fixpoint dict_get (d : list (string * V)) (key : string) : option V :=
  match d with
  | [] => None
  | (k, v) :: d' => if String.eqb k key then Some v else dict_get d' key
  end.

(** [d[key] = v]: replaces the binding in place, or appends a new one. *)
Fixpoint dict_set (d : list (string * V)) (key : string) (v : V)
  : list (string * V) :=
  match d with
  | [] => [(key, v)]
  | (k, w) :: d' =>
      if String.eqb k key then (k, v) :: d' else (k, w) :: dict_set d' key v
  end.

Definition dict_keys (d : list (string * V)) : list string := map fst d.

Definition dict_mem (key : string) (d : list (string * V)) : bool :=
  match dict_get d key with Some _ => true | None => false end.
End Dict.

(** Python's [==]. [True == 1] and [False == 0]; lists compare pointwise;
    dicts compare as sets of bindings. *)
Fixpoint py_eqb (a b : value) {struct a} : bool :=
  match a, b with
  | VNone, VNone => true
  | VBool x, VBool y => Bool.eqb x y
  | VBool x, VInt y => Z.eqb (Z.b2z x) y
  | VInt x, VBool y => Z.eqb x (Z.b2z y)
  | VInt x, VInt y => Z.eqb x y
  | VStr x, VStr y => String.eqb x y
  | VList l1, VList l2 =>
      (fix go (l1 l2 : list value) {struct l1} : bool :=
         match l1, l2 with
         | [], [] => true
         | x :: l1', y :: l2' => py_eqb x y && go l1' l2'
         | _, _ => false
         end) l1 l2
  | VDict d1, VDict d2 =>
      Nat.eqb (length d1) (length d2) &&
      (fix go (d : list (string * value)) : bool :=
         match d with
         | [] => true
         | (k, v) :: d' =>
             match dict_get d2 k with
             | Some w => py_eqb v w
             | None => false
             end && go d'
         end) d1
  | _, _ => false
  end.

(** Python's [!=]. *)
Definition py_neb (a b : value) : bool := negb (py_eqb a b).

(** [x is None] and [x is not None]. *)
Definition is_none (v : value) : bool :=
  match v with VNone => true | _ => false end.
Definition is_not_none (v : value) : bool := negb (is_none v).

(** Truth value of an object, as [if x:] and [not x] test it. *)
Definition truthy (v : value) : bool :=
  match v with
  | VNone => false
  | VBool b => b
  | VInt z => negb (Z.eqb z 0)
  | VStr s => negb (String.eqb s "")
  | VList l => match l with [] => false | _ => true end
  | VDict d => match d with [] => false | _ => true end
  end.

(** [len(x)]. *)
Definition py_len (v : value) : res nat :=
  match v with
  | VStr s => inr (String.length s)
  | VList l => inr (length l)
  | VDict d => inr (length d)
  | _ => inl TypeError
  end.

(** [x[i]] for an integer literal [i]. *)
Definition py_index (v : value) (i : nat) : res value :=
  match v with
  | VList l =>
      match nth_error l i with Some x => inr x | None => inl IndexError end
  | VStr s =>
      match String.get i s with
      | Some c => inr (VStr (String c EmptyString))
      | None => inl IndexError
      end
  | VDict _ => inl KeyError
  | _ => inl TypeError
  end.

(** [x[key]] for a string literal [key]. *)
Definition py_item (v : value) (key : string) : res value :=
  match v with
  | VDict d =>
      match dict_get d key with Some x => inr x | None => inl KeyError end
  | _ => inl TypeError
  end.

(** [x.get(key)]. *)
Definition py_get (v : value) (key : string) : res value :=
  match v with
  | VDict d =>
      match dict_get d key with Some x => inr x | None => inr VNone end
  | _ => inl AttributeError
  end.

(** [x[key] = w] for a string literal [key]; the dict is updated in place, the
    embedding returns the updated dict. *)
Definition py_setitem (v : value) (key : string) (w : value) : res value :=
  match v with
  | VDict d => inr (VDict (dict_set d key w))
  | _ => inl TypeError
  end.

(** Whitespace as [str.strip()] sees it: the code points for which
    [str.isspace()] holds.  A [str] is held as the sequence of its code
    points, one [ascii] for each, so the strings of the embedding are those
    with code points below 256; among these the whitespace is U+0009 to
    U+000D, U+001C to U+0020, U+0085 and U+00A0. *)
Definition is_space (c : ascii) : bool :=
  let n := nat_of_ascii c in
  ((9 <=? n) && (n <=? 13) || (28 <=? n) && (n <=? 32)
   || (n =? 133) || (n =? 160))%nat.

Fixpoint lstrip (s : string) : string :=
  match s with
  | EmptyString => EmptyString
  | String c s' => if is_space c then lstrip s' else s
  end.

Fixpoint rstrip (s : string) : string :=
  match s with
  | EmptyString => EmptyString
  | String c s' =>
      match rstrip s' with
      | EmptyString => if is_space c then EmptyString else String c EmptyString
      | r => String c r
      end
  end.

Definition strip (s : string) : string := rstrip (lstrip s).

(** [x.strip()]. *)
Definition py_strip (v : value) : res value :=
  match v with
  | VStr s => inr (VStr (strip s))
  | _ => inl AttributeError
  end.

(** [x and len(x) > n], [x and len(x) == n]: [len] is evaluated only when
    [x] is true. *)
Definition and_len (test : nat -> bool) (v : value) : res bool :=
  if truthy v then
    match py_len v with inr n => inr (test n) | inl e => inl e end
  else inr false.

End Py.
Export Py.

(** ** The SDK seen from the module *)

(** The methods of [conn.provisioning] and [conn.protection] the module calls,
    with the arguments it passes.  [get_remote_system_by_name] is called with
    one or with two positional arguments. *)
Inductive call : Type :=
| GetClusterList
| GetRemoteSystemByName (name : value) (address : option value)
| GetRemoteSystemDetails (remote_system_id : value)
| GetReplicationRuleByName (name : value)
| GetReplicationRuleDetails (rule_id : value)
| CreateReplicationRule (name rpo remote_system_id alert_threshold : value)
| ModifyReplicationRule
    (rule_id name rpo remote_system_id alert_threshold : value)
| DeleteReplicationRule (rule_id : value).

(** What a call comes back with. *)
Inductive result : Type :=
| Returns (v : value)
| Raises (e : exc).

(** One entry of the record of SDK calls of an invocation. *)
Definition event : Type := (call * result)%type.

(** The calls that change the array. *)
Definition is_mutating (c : call) : bool :=
  match c with
  | CreateReplicationRule _ _ _ _ => true
  | ModifyReplicationRule _ _ _ _ _ => true
  | DeleteReplicationRule _ => true
  | _ => false
  end.

Definition is_create (c : call) : bool :=
  match c with CreateReplicationRule _ _ _ _ => true | _ => false end.

Definition calls (l : list event) : list call := map fst l.

Definition mutating_calls (l : list event) : list call :=
  filter is_mutating (calls l).

(** Text of a message: the literal parts of the format string and the objects
    [format] renders into it. *)
Inductive frag : Type :=
| Lit (s : string)
| Fmt (v : value)
| FmtExc (e : exc).

Definition message : Type := list frag.

(** The module parameters, [module.params]. *)
Record params : Type := {
  replication_rule_id : value;
  replication_rule_name : value;
  new_name : value;
  rpo : value;
  alert_threshold : value;
  remote_system : value;
  remote_system_address : value;
  state : value
}.

(** The keyword arguments of [exit_json]. *)
Record exit_result : Type := {
  changed : bool;
  replication_rule_details : value
}.

(** ** Arrays to run the module against *)

(** An SDK that answers from a table and keeps no state. *)
Definition scripted (answers : call -> result) : call -> unit -> result * unit :=
  fun c _ => (answers c, tt).

(** Modelled from the spec: [utils.name_or_id], which lives in the collection's
    [module_utils] and not in this file.  The spec gives its policy: a token
    in the format of an id (here the 8-4-4-4-12 hexadecimal form) is an id,
    any other token is a name. *)
Definition is_hex (c : ascii) : bool :=
  let n := nat_of_ascii c in
  ((48 <=? n) && (n <=? 57) || (65 <=? n) && (n <=? 70)
   || (97 <=? n) && (n <=? 102))%nat.

Fixpoint uuid_like_from (i : nat) (s : string) : bool :=
  match s with
  | EmptyString => Nat.eqb i 36
  | String c s' =>
      (if (Nat.eqb i 8 || Nat.eqb i 13 || Nat.eqb i 18 || Nat.eqb i 23)%bool
       then Ascii.eqb c "-" else is_hex c)
      && uuid_like_from (S i) s'
  end.

Definition name_or_id_of_format (v : value) : value :=
  match v with
  | VStr s => if uuid_like_from 0 s then VStr "ID" else VStr "NAME"
  | _ => VStr "NAME"
  end.

(** An array in memory: what the SDK's calls read and write, as far as this
    module can tell. *)
Module Array.

Record remote_sys : Type := {
  rs_id : string;
  rs_name : string;
  rs_address : string
}.

Record rule : Type := {
  rule_id : string;
  rule_name : string;
  rule_rpo : string;
  rule_threshold : Z;
  rule_remote : string
}.

Record array : Type := {
  clusters : list (string * string);
  remote_systems : list remote_sys;
  rules : list rule
}.

Definition cluster_json (c : string * string) : value :=
  VDict [("id", VStr (fst c)); ("name", VStr (snd c))].

Definition remote_system_json (r : remote_sys) : value :=
  VDict [("id", VStr (rs_id r)); ("name", VStr (rs_name r));
         ("management_address", VStr (rs_address r))].

Definition rule_json (r : rule) : value :=
  VDict [("id", VStr (rule_id r)); ("name", VStr (rule_name r));
         ("rpo", VStr (rule_rpo r));
         ("alert_threshold", VInt (rule_threshold r));
         ("remote_system_id", VStr (rule_remote r));
         ("is_replica", VBool false); ("policies", VList [])].

Definition rule_brief (r : rule) : value :=
  VDict [("id", VStr (rule_id r)); ("name", VStr (rule_name r))].

(** The recovery point objectives and their length in minutes, the default
    of the alert threshold. *)
Definition rpo_minutes (rpo : string) : option Z :=
  if String.eqb rpo "Five_Minutes" then Some 5%Z
  else if String.eqb rpo "Fifteen_Minutes" then Some 15%Z
  else if String.eqb rpo "Thirty_Minutes" then Some 30%Z
  else if String.eqb rpo "One_Hour" then Some 60%Z
  else if String.eqb rpo "Six_Hours" then Some 360%Z
  else if String.eqb rpo "Twelve_Hours" then Some 720%Z
  else if String.eqb rpo "One_Day" then Some 1440%Z
  else None.

Definition threshold_ok (z : Z) : bool := ((0 <=? z) && (z <=? 1440))%Z.

(** An id no rule of the list has: it is longer than each of them. *)
Fixpoint fresh_id (l : list rule) : string :=
  match l with
  | [] => "0"
  | r :: l' => String "0" (rule_id r ++ fresh_id l')%string
  end.

Definition has_id (i : value) (r : rule) : bool := py_eqb i (VStr (rule_id r)).
Definition has_name (n : value) (r : rule) : bool :=
  py_eqb n (VStr (rule_name r)).

(** The rule with the attributes a modify call gives replaced; [None] on an
    attribute the array refuses.  An attribute left at [None] is kept. *)
Definition modified (r : rule) (name rpo remote_system_id threshold : value)
  : option rule :=
  match
    (match name with
     | VNone => Some (rule_name r) | VStr s => Some s | _ => None end),
    (match rpo with
     | VNone => Some (rule_rpo r)
     | VStr s => match rpo_minutes s with Some _ => Some s | None => None end
     | _ => None end),
    (match remote_system_id with
     | VNone => Some (rule_remote r) | VStr s => Some s | _ => None end),
    (match threshold with
     | VNone => Some (rule_threshold r)
     | VInt z => if threshold_ok z then Some z else None
     | _ => None end)
  with
  | Some n, Some o, Some s, Some z =>
      Some {| rule_id := rule_id r; rule_name := n; rule_rpo := o;
              rule_threshold := z; rule_remote := s |}
  | _, _, _, _ => None
  end.

(** The rule a create call describes; [None] when the array refuses it. *)
Definition created (i : string) (name rpo remote_system_id threshold : value)
  : option rule :=
  match name, rpo, remote_system_id with
  | VStr n, VStr o, VStr s =>
      match rpo_minutes o with
      | Some minutes =>
          match threshold with
          | VNone =>
              Some {| rule_id := i; rule_name := n; rule_rpo := o;
                      rule_threshold := minutes; rule_remote := s |}
          | VInt z =>
              if threshold_ok z
              then Some {| rule_id := i; rule_name := n; rule_rpo := o;
                           rule_threshold := z; rule_remote := s |}
              else None
          | _ => None
          end
      | None => None
      end
  | _, _, _ => None
  end.

(** The first rule with the id replaced. *)
Fixpoint replace_rule (i : value) (r' : rule) (l : list rule) : list rule :=
  match l with
  | [] => []
  | r :: l' => if has_id i r then r' :: l' else r :: replace_rule i r' l'
  end.

(** The first rule with the id removed. *)
Fixpoint remove_rule (i : value) (l : list rule) : list rule :=
  match l with
  | [] => []
  | r :: l' => if has_id i r then l' else r :: remove_rule i l'
  end.

Definition with_rules (a : array) (l : list rule) : array :=
  {| clusters := clusters a; remote_systems := remote_systems a; rules := l |}.

Section Sdk.

(** The value of [PowerStoreException.HTTP_ERR]. *)
Variable http_err : value.

Definition not_found : exc := PowerStoreException http_err (VStr "404").
Definition bad_request : exc := PowerStoreException http_err (VStr "400").

(** The SDK in front of the array. *)
Definition sdk (c : call) (a : array) : result * array :=
  match c with
  | GetClusterList => (Returns (VList (map cluster_json (clusters a))), a)
  | GetRemoteSystemByName n address =>
      let matches r :=
        py_eqb n (VStr (rs_name r)) &&
        match address with
        | None => true
        | Some ad => py_eqb ad (VStr (rs_address r))
        end in
      (Returns (VList (map remote_system_json
                         (filter matches (remote_systems a)))), a)
  | GetRemoteSystemDetails i =>
      match find (fun r => py_eqb i (VStr (rs_id r))) (remote_systems a) with
      | Some r => (Returns (remote_system_json r), a)
      | None => (Raises not_found, a)
      end
  | GetReplicationRuleByName n =>
      (Returns (VList (map rule_brief (filter (has_name n) (rules a)))), a)
  | GetReplicationRuleDetails i =>
      match find (has_id i) (rules a) with
      | Some r => (Returns (rule_json r), a)
      | None => (Raises not_found, a)
      end
  | CreateReplicationRule n rpo rs threshold =>
      let i := fresh_id (rules a) in
      match created i n rpo rs threshold with
      | Some r =>
          (Returns (VDict [("id", VStr i)]), with_rules a (rules a ++ [r]))
      | None => (Raises bad_request, a)
      end
  | ModifyReplicationRule i n rpo rs threshold =>
      match find (has_id i) (rules a) with
      | Some r =>
          match modified r n rpo rs threshold with
          | Some r' =>
              (Returns (rule_json r'), with_rules a (replace_rule i r' (rules a)))
          | None => (Raises bad_request, a)
          end
      | None => (Raises not_found, a)
      end
  | DeleteReplicationRule i =>
      match find (has_id i) (rules a) with
      | Some _ => (Returns VNone, with_rules a (remove_rule i (rules a)))
      | None => (Raises not_found, a)
      end
  end.

End Sdk.

End Array.

(** ** Sample arrays and requests *)

Module Sample.
Import Array.

(** A value for [PowerStoreException.HTTP_ERR]. *)
Definition http_err : value := VStr "1".

Definition rs1_first : remote_sys :=
  {| rs_id := "aaaaaaaa-0000-4000-8000-000000000001"; rs_name := "RS1";
     rs_address := "10.0.0.1" |}.

Definition rs1_second : remote_sys :=
  {| rs_id := "aaaaaaaa-0000-4000-8000-000000000002"; rs_name := "RS1";
     rs_address := "10.0.0.2" |}.

Definition rs2 : remote_sys :=
  {| rs_id := "aaaaaaaa-0000-4000-8000-000000000003"; rs_name := "RS2";
     rs_address := "10.0.0.3" |}.

Definition rule_a : rule :=
  {| rule_id := "bbbbbbbb-0000-4000-8000-000000000001"; rule_name := "A";
     rule_rpo := "One_Hour"; rule_threshold := 60;
     rule_remote := rs_id rs2 |}.

(** An array with one cluster, three remote systems of which two share the
    name RS1, and one rule named A. *)
Definition array0 : array :=
  {| clusters := [("0", "WN-D8977")];
     remote_systems := [rs1_first; rs1_second; rs2];
     rules := [rule_a] |}.

(** An array that reports no cluster. *)
Definition no_cluster : array :=
  {| clusters := []; remote_systems := [rs2]; rules := [rule_a] |}.

(** A request that names a rule and nothing else. *)
Definition by_name (rule_name state : string) : params :=
  {| replication_rule_id := VNone; replication_rule_name := VStr rule_name;
     new_name := VNone; rpo := VNone; alert_threshold := VNone;
     remote_system := VNone; remote_system_address := VNone;
     state := VStr state |}.

(** A request for a rule with a recovery point objective and a remote
    system. *)
Definition with_rpo (rule_name rpo remote : string) : params :=
  {| replication_rule_id := VNone; replication_rule_name := VStr rule_name;
     new_name := VNone; rpo := VStr rpo; alert_threshold := VNone;
     remote_system := VStr remote; remote_system_address := VNone;
     state := VStr "present" |}.

(** A request to rename the rule named [rule_name]. *)
Definition rename (rule_name new remote : string) : params :=
  {| replication_rule_id := VNone; replication_rule_name := VStr rule_name;
     new_name := VStr new; rpo := VNone; alert_threshold := VNone;
     remote_system := VStr remote; remote_system_address := VNone;
     state := VStr "present" |}.

(** An SDK whose every rule lookup fails with the given HTTP status. *)
Definition failing_lookup (status : string) (c : call) : result :=
  match c with
  | GetReplicationRuleByName _ | GetReplicationRuleDetails _ =>
      Raises (PowerStoreException http_err (VStr status))
  | _ => Returns VNone
  end.

(** The id of a remote system the sample array does not hold. *)
Definition unknown_remote : string := "cccccccc-0000-4000-8000-000000000009".

End Sample.

(** ** Vocabulary of the properties *)

(** The failures the module reports about its own input. *)
Definition validation_texts : list string :=
  ["To create a replication rule rpo is required";
   ("To create a replication rule name is required."
      ++ " replication_rule_id is passed.")%string;
   ("Invalid rep_rule_name provided. "
      ++ "Please enter a valid replication rule name.")%string;
   "To create a replication rule remote_system is required.";
   ("new_name parameter passed. Renaming a replication "
      ++ "rule is invalid during creation.")%string].

Definition validation_msg (m : message) : bool :=
  match m with
  | [Lit s] => existsb (String.eqb s) validation_texts
  | _ => false
  end.

(** The calls one resolution of a remote system makes: none, one lookup by
    name, a second one scoped by address, or one fetch by id. *)
Definition remote_system_calls (t : list call) : bool :=
  match t with
  | [] => true
  | [GetRemoteSystemByName _ None] => true
  | [GetRemoteSystemByName _ None; GetRemoteSystemByName _ (Some _)] => true
  | [GetRemoteSystemDetails _] => true
  | _ => false
  end.

(** The calls one lookup of a rule makes: by name and then by the id found,
    or by id. *)
Definition rule_lookup_calls (t : list call) : bool :=
  match t with
  | [GetReplicationRuleByName _] => true
  | [GetReplicationRuleByName _; GetReplicationRuleDetails _] => true
  | [GetReplicationRuleDetails _] => true
  | _ => false
  end.

Definition no_mutation (t : list call) : bool :=
  forallb (fun c => negb (is_mutating c)) t.

(** The rule lookup of an invocation, when it got that far. *)
Definition rule_phase_calls (t : list call) : bool :=
  match t with
  | [] => true
  | _ => rule_lookup_calls t
  end.

(** The calls of the acting blocks: a create with the read of the created
    rule, possibly followed by a modify; or a delete; or a modify. *)
Definition mutation_phase_calls (t : list call) : bool :=
  match t with
  | [] => true
  | [CreateReplicationRule _ _ _ _] => true
  | [CreateReplicationRule _ _ _ _; GetReplicationRuleDetails _] => true
  | [CreateReplicationRule _ _ _ _; GetReplicationRuleDetails _;
     ModifyReplicationRule _ _ _ _ _] => true
  | [DeleteReplicationRule _] => true
  | [ModifyReplicationRule _ _ _ _ _] => true
  | _ => false
  end.

(** The calls that show the rule: the rule by id, then its remote system. *)
Definition output_phase_calls (t : list call) : bool :=
  match t with
  | [] => true
  | GetReplicationRuleDetails _ :: t' => remote_system_calls t'
  | _ => false
  end.

(** ** The module *)

(** [modify_replication_rule_required(rep_rule_details, passed_args)], the
    loop over [rep_rule_details.keys()] with its early [return True]. *)
Fixpoint modify_required_loop (keys : list string)
    (rep_rule_details passed_args : list (string * value)) : bool :=
  match keys with
  | [] => false
  | key :: keys' =>
      if match dict_get passed_args key, dict_get rep_rule_details key with
         | Some passed, Some current =>
             is_not_none passed && py_neb current passed
         | _, _ => false
         end
      then true
      else modify_required_loop keys' rep_rule_details passed_args
  end.

Definition modify_replication_rule_required
    (rep_rule_details : value) (passed_args : list (string * value))
  : res bool :=
  match rep_rule_details with
  | VDict d => inr (modify_required_loop (dict_keys d) d passed_args)
  | _ => inl AttributeError
  end.

Section ReplicationRule.

(** The array behind the SDK: a state and the effect of each call on it. *)
Variable B : Type.
Variable sdk : call -> B -> result * B.

(** [utils.name_or_id]: the string 'NAME' or 'ID' for a token. *)
Variable name_or_id : value -> value.

(** [utils.PowerStoreException.HTTP_ERR]. *)
Variable HTTP_ERR : value.

(** *** State and control *)

(** What an invocation carries: the array, the two instance attributes and
    the record of SDK calls made so far. *)
Record mstate : Type := {
  backend : B;
  cluster_name : value;
  cluster_global_id : value;
  log : list event
}.

(** How a piece of the module ends: it returns, an exception propagates, or
    [fail_json] ends the process ([SystemExit] is no [Exception], so no
    handler of the module catches it). *)
Inductive outcome (A : Type) : Type :=
| Return (a : A)
| Raise (e : exc)
| FailJson (msg : message) (codes : option exc).
Arguments Return {A} a.
Arguments Raise {A} e.
Arguments FailJson {A} msg codes.

Definition M (A : Type) : Type := mstate -> outcome A * mstate.

Definition ret {A} (a : A) : M A := fun st => (Return a, st).

Definition bind {A C} (m : M A) (f : A -> M C) : M C :=
  fun st =>
    match m st with
    | (Return a, st') => f a st'
    | (Raise e, st') => (Raise e, st')
    | (FailJson msg codes, st') => (FailJson msg codes, st')
    end.

Definition raise {A} (e : exc) : M A := fun st => (Raise e, st).

(** [self.module.fail_json(msg=msg)] and
    [self.module.fail_json(msg=msg, **utils.failure_codes(e))]. *)
Definition fail_json {A} (msg : message) (codes : option exc) : M A :=
  fun st => (FailJson msg codes, st).

(** A primitive operation that may raise. *)
Definition lift {A} (r : res A) : M A :=
  fun st => match r with inr a => (Return a, st) | inl e => (Raise e, st) end.

(** [try: body except Exception as e: handler]. *)
Definition try_except {A} (body : M A) (handler : exc -> M A) : M A :=
  fun st =>
    match body st with
    | (Raise e, st') => handler e st'
    | r => r
    end.

(** A call of an SDK method: the array moves, the call is recorded, and an
    exception of the SDK propagates. *)
Definition sdk_call (c : call) : M value :=
  fun st =>
    let (r, b') := sdk c (backend st) in
    let st' := {| backend := b';
                  cluster_name := cluster_name st;
                  cluster_global_id := cluster_global_id st;
                  log := log st ++ [(c, r)] |} in
    match r with
    | Returns v => (Return v, st')
    | Raises e => (Raise e, st')
    end.

Definition get_cluster_name : M value := fun st => (Return (cluster_name st), st).
Definition get_cluster_global_id : M value :=
  fun st => (Return (cluster_global_id st), st).

Definition set_cluster_name (v : value) : M unit :=
  fun st => (Return tt, {| backend := backend st;
                           cluster_name := v;
                           cluster_global_id := cluster_global_id st;
                           log := log st |}).

Definition set_cluster_global_id (v : value) : M unit :=
  fun st => (Return tt, {| backend := backend st;
                           cluster_name := cluster_name st;
                           cluster_global_id := v;
                           log := log st |}).

Notation "x <- m ;; k" := (bind m (fun x => k))
  (at level 61, m at next level, right associativity).
Notation "' p <- m ;; k" := (bind m (fun p => k))
  (at level 61, p pattern, m at next level, right associativity).
Notation "m ;;; k" := (bind m (fun _ => k))
  (at level 61, right associativity).

(** [if c: m], with nothing to do otherwise. *)
Definition when (c : bool) (m : M unit) : M unit := if c then m else ret tt.

(** *** Messages *)

Definition msg_get_rule_failed (rep_rule_name rep_rule_id cname : value)
    (e : exc) : message :=
  [Lit "Get details of replication rule name: "; Fmt rep_rule_name;
   Lit " or ID "; Fmt rep_rule_id; Lit " on array name : "; Fmt cname;
   Lit " failed with error : "; FmtExc e; Lit " "].

Definition msg_create_failed (cname cid : value) (e : exc) : message :=
  [Lit "create replication rule on PowerStore array name: "; Fmt cname;
   Lit " , global id : "; Fmt cid; Lit " failed with error "; FmtExc e].

Definition msg_modify_failed (rep_rule_id cname cid : value) (e : exc)
  : message :=
  [Lit "Modify replication rule id: "; Fmt rep_rule_id;
   Lit " on PowerStore array name: "; Fmt cname; Lit ", global id:";
   Fmt cid; Lit " failed with error "; FmtExc e].

Definition msg_delete_failed (rep_rule_id cname cid : value) (e : exc)
  : message :=
  [Lit "Delete replication rule id "; Fmt rep_rule_id;
   Lit " for PowerStore array name : "; Fmt cname; Lit " , global id : ";
   Fmt cid; Lit " failed with error "; FmtExc e; Lit " "].

Definition msg_clusters_failed (e : exc) : message :=
  [Lit "Failed to get the clusters with error "; FmtExc e].

Definition msg_remote_system_failed (e : exc) : message :=
  [Lit "Failed to get the remote system with error "; FmtExc e].

Definition msg_rpo_required : message :=
  [Lit "To create a replication rule rpo is required"].

Definition msg_ambiguous_remote_system : message :=
  [Lit ("There are more than one instance with the same remote system name."
        ++ " Please enter the remote_system_address to uniquely fetch the"
        ++ " remote system instance.")].

Definition msg_remote_system_not_found (rs_name address : value) : message :=
  [Lit "Remote system with name "; Fmt rs_name; Lit " and address ";
   Fmt address; Lit " not found. Please enter a valid remote system."].

Definition msg_no_cluster : message :=
  [Lit "Unable to find any active cluster on this array"].

Definition msg_name_required : message :=
  [Lit ("To create a replication rule name is required."
        ++ " replication_rule_id is passed.")].

Definition msg_invalid_name : message :=
  [Lit ("Invalid rep_rule_name provided. "
        ++ "Please enter a valid replication rule name.")].

Definition msg_remote_system_required : message :=
  [Lit "To create a replication rule remote_system is required."].

Definition msg_new_name_at_creation : message :=
  [Lit ("new_name parameter passed. Renaming a replication "
        ++ "rule is invalid during creation.")].

(** *** Methods of [PowerstoreReplicationRule] *)

(** The test of the handler of [get_replication_rule_details]:
    [isinstance(e, utils.PowerStoreException) and
     e.err_code == utils.PowerStoreException.HTTP_ERR and
     e.status_code == "404"]. *)
Definition is_not_found (e : exc) : bool :=
  match e with
  | PowerStoreException err_code status_code =>
      py_eqb err_code HTTP_ERR && py_eqb status_code (VStr "404")
  | PyError _ => false
  end.

Definition get_replication_rule_details (rep_rule_name rep_rule_id : value)
  : M value :=
  try_except
    (if truthy rep_rule_name then
       resp <- sdk_call (GetReplicationRuleByName rep_rule_name) ;;
       found <- lift (and_len (Nat.ltb 0) resp) ;;
       if found then
         r0 <- lift (py_index resp 0) ;;
         i <- lift (py_item r0 "id") ;;
         detail_resp <- sdk_call (GetReplicationRuleDetails i) ;;
         ret detail_resp
       else ret VNone
     else
       detail_resp <- sdk_call (GetReplicationRuleDetails rep_rule_id) ;;
       found <- lift (and_len (Nat.ltb 0) detail_resp) ;;
       if found then ret detail_resp else ret detail_resp)
    (fun e =>
       cname <- get_cluster_name ;;
       let msg := msg_get_rule_failed rep_rule_name rep_rule_id cname e in
       if is_not_found e then ret VNone else fail_json msg (Some e)).

Definition create_replication_rule
    (rep_rule_name rpo remote_system_id alert_threshold : value)
  : M (bool * value) :=
  try_except
    (when (negb (truthy rpo)) (fail_json msg_rpo_required None) ;;;
     resp <- sdk_call (CreateReplicationRule rep_rule_name rpo
                         remote_system_id alert_threshold) ;;
     i <- lift (py_get resp "id") ;;
     rep_rule_details <- sdk_call (GetReplicationRuleDetails i) ;;
     ret (true, rep_rule_details))
    (fun e =>
       cname <- get_cluster_name ;;
       cid <- get_cluster_global_id ;;
       fail_json (msg_create_failed cname cid e) (Some e)).

Definition modify_replication_rule
    (rep_rule_id new_name rpo remote_system_id alert_threshold : value)
  : M (bool * value) :=
  try_except
    (resp <- sdk_call (ModifyReplicationRule rep_rule_id new_name rpo
                         remote_system_id alert_threshold) ;;
     ret (true, resp))
    (fun e =>
       cname <- get_cluster_name ;;
       cid <- get_cluster_global_id ;;
       fail_json (msg_modify_failed rep_rule_id cname cid e) (Some e)).

Definition delete_replication_rule (rep_rule_id : value) : M bool :=
  try_except
    (sdk_call (DeleteReplicationRule rep_rule_id) ;;;
     ret true)
    (fun e =>
       cname <- get_cluster_name ;;
       cid <- get_cluster_global_id ;;
       fail_json (msg_delete_failed rep_rule_id cname cid e) (Some e)).

Definition get_clusters : M value :=
  try_except
    (clusters <- sdk_call GetClusterList ;;
     ret clusters)
    (fun e => fail_json (msg_clusters_failed e) (Some e)).

Definition get_remote_system_details
    (remote_system remote_system_address : value) : M value :=
  try_except
    (let is_name := py_eqb (name_or_id remote_system) (VStr "NAME") in
     let remote_system_name :=
       if is_not_none remote_system && is_name
       then remote_system else VNone in
     let remote_system_id :=
       if is_not_none remote_system && negb is_name
       then remote_system else VNone in
     if truthy remote_system_name then
       resp <- sdk_call (GetRemoteSystemByName remote_system_name None) ;;
       one <- lift (and_len (Nat.eqb 1) resp) ;;
       if one then lift (py_index resp 0)
       else
         many <- lift (and_len (Nat.ltb 1) resp) ;;
         let not_found :=
           fail_json (msg_remote_system_not_found remote_system_name
                        remote_system_address) None in
         if many then
           when (negb (truthy remote_system_address))
             (fail_json msg_ambiguous_remote_system None) ;;;
           resp <- sdk_call (GetRemoteSystemByName remote_system_name
                               (Some remote_system_address)) ;;
           n <- lift (py_len resp) ;;
           if Nat.eqb n 1 then lift (py_index resp 0) else not_found
         else not_found
     else if truthy remote_system_id then
       resp <- sdk_call (GetRemoteSystemDetails remote_system_id) ;;
       ret resp
     else ret VNone)
    (fun e => fail_json (msg_remote_system_failed e) (Some e)).

(** [show_output]: the rule as it is reported. *)
Definition show_output (rep_rule_id remote_system_address : value)
  : M value :=
  rep_rule_details <- get_replication_rule_details VNone rep_rule_id ;;
  rem_sys_id <- lift (py_item rep_rule_details "remote_system_id") ;;
  rem_sys <- get_remote_system_details rem_sys_id remote_system_address ;;
  rem_sys_name <- lift (py_item rem_sys "name") ;;
  lift (py_setitem rep_rule_details "remote_system_name" rem_sys_name).

(** *** [perform_module_operation], block by block *)

Definition is_present (p : params) : bool := py_eqb (state p) (VStr "present").
Definition is_absent (p : params) : bool := py_eqb (state p) (VStr "absent").

(** "Get the cluster details". *)
Definition cluster_block : M unit :=
  clusters <- get_clusters ;;
  n <- lift (py_len clusters) ;;
  if Nat.ltb 0 n then
    c0 <- lift (py_index clusters 0) ;;
    cname <- lift (py_item c0 "name") ;;
    set_cluster_name cname ;;;
    c0 <- lift (py_index clusters 0) ;;
    cid <- lift (py_item c0 "id") ;;
    set_cluster_global_id cid
  else fail_json msg_no_cluster None.

(** "Fetch remote system id if passed": the value of [remote_system_id]. *)
Definition remote_system_block (p : params) : M value :=
  if truthy (remote_system p) then
    remote_system_details <-
      get_remote_system_details (remote_system p) (remote_system_address p) ;;
    if truthy remote_system_details
    then lift (py_item remote_system_details "id")
    else ret VNone
  else ret VNone.

(** "Get the details of the replication rule", and the two assignments
    that complete [rep_rule_id] and [rep_rule_name] from it: the values of
    [rep_rule_details], [rep_rule_id] and [rep_rule_name]. *)
Definition lookup_block (p : params) : M (value * value * value) :=
  rep_rule_details <-
    get_replication_rule_details (replication_rule_name p)
      (replication_rule_id p) ;;
  rep_rule_id <-
    (if truthy rep_rule_details && negb (truthy (replication_rule_id p))
     then lift (py_item rep_rule_details "id")
     else ret (replication_rule_id p)) ;;
  rep_rule_name <-
    (if truthy rep_rule_details && negb (truthy (replication_rule_name p))
     then lift (py_item rep_rule_details "name")
     else ret (replication_rule_name p)) ;;
  ret (rep_rule_details, rep_rule_id, rep_rule_name).

(** "Create a replication rule": the values of [changed],
    [rep_rule_details] and [rep_rule_id] after the block. *)
Definition create_block (p : params)
    (remote_system_id rep_rule_details rep_rule_id rep_rule_name : value)
  : M (bool * value * value) :=
  if negb (truthy rep_rule_details) && is_present p then
    when (truthy rep_rule_id) (fail_json msg_name_required None) ;;;
    blank <-
      (if is_none rep_rule_name then ret true
       else
         stripped <- lift (py_strip rep_rule_name) ;;
         ret (py_eqb stripped (VStr ""))) ;;
    when blank (fail_json msg_invalid_name None) ;;;
    when (negb (truthy (remote_system p)))
      (fail_json msg_remote_system_required None) ;;;
    when (is_not_none (new_name p))
      (fail_json msg_new_name_at_creation None) ;;;
    ' (changed, rep_rule_details) <-
      create_replication_rule rep_rule_name (rpo p) remote_system_id
        (alert_threshold p) ;;
    rep_rule_id <- lift (py_item rep_rule_details "id") ;;
    ret (changed, rep_rule_details, rep_rule_id)
  else ret (false, rep_rule_details, rep_rule_id).

(** "Delete a replication rule". *)
Definition delete_block (p : params) (changed : bool)
    (rep_rule_details rep_rule_id : value) : M (bool * value) :=
  if truthy rep_rule_details && is_absent p then
    changed <- delete_replication_rule rep_rule_id ;;
    ret (changed, VNone)
  else ret (changed, rep_rule_details).

(** The dict [new_rep_rule_dict] the current rule is compared with. *)
Definition new_rep_rule_dict (name rpo remote_system_id alert_threshold : value)
  : list (string * value) :=
  [("name", name); ("rpo", rpo); ("remote_system_id", remote_system_id);
   ("alert_threshold", alert_threshold)].

(** "Update the details of replication rule". *)
Definition update_block (p : params) (remote_system_id : value)
    (changed : bool) (rep_rule_details rep_rule_id : value)
  : M (bool * value) :=
  if truthy rep_rule_details && is_present p then
    name <-
      (if is_not_none (new_name p) then ret (new_name p)
       else lift (py_item rep_rule_details "name")) ;;
    let passed :=
      new_rep_rule_dict name (rpo p) remote_system_id (alert_threshold p) in
    to_modify <-
      lift (modify_replication_rule_required rep_rule_details passed) ;;
    if to_modify
    then modify_replication_rule rep_rule_id (new_name p) (rpo p)
           remote_system_id (alert_threshold p)
    else ret (changed, rep_rule_details)
  else ret (changed, rep_rule_details).

(** The end of the method: the rule is shown when there is one. *)
Definition output_block (p : params) (changed : bool)
    (rep_rule_details rep_rule_id : value) : M exit_result :=
  rep_rule_details <-
    (if is_present p && truthy rep_rule_details
     then show_output rep_rule_id (remote_system_address p)
     else ret rep_rule_details) ;;
  ret {| changed := changed; replication_rule_details := rep_rule_details |}.

(** The blocks that only read the array: everything up to the decision. *)
Definition resolve (p : params) : M (value * value * value * value) :=
  cluster_block ;;;
  remote_system_id <- remote_system_block p ;;
  ' (rep_rule_details, rep_rule_id, rep_rule_name) <- lookup_block p ;;
  ret (remote_system_id, rep_rule_details, rep_rule_id, rep_rule_name).

(** The blocks that act on the decision. *)
Definition reconcile (p : params)
    (remote_system_id rep_rule_details rep_rule_id rep_rule_name : value)
  : M exit_result :=
  ' (changed, rep_rule_details, rep_rule_id) <-
    create_block p remote_system_id rep_rule_details rep_rule_id
      rep_rule_name ;;
  ' (changed, rep_rule_details) <-
    delete_block p changed rep_rule_details rep_rule_id ;;
  ' (changed, rep_rule_details) <-
    update_block p remote_system_id changed rep_rule_details rep_rule_id ;;
  output_block p changed rep_rule_details rep_rule_id.

(** [perform_module_operation]; [Return r] is the call of [exit_json] with
    the entries of [result]: the invocation succeeded. *)
Definition perform_module_operation (p : params) : M exit_result :=
  ' (remote_system_id, rep_rule_details, rep_rule_id, rep_rule_name) <-
    resolve p ;;
  reconcile p remote_system_id rep_rule_details rep_rule_id rep_rule_name.

(** A fresh object: the class attributes [cluster_name] and
    [cluster_global_id] hold a blank, and no call was made. *)
Definition initial (b : B) : mstate :=
  {| backend := b; cluster_name := VStr " "; cluster_global_id := VStr " ";
     log := [] |}.

(** [main]: the outcome of an invocation and the state it ends in. *)
Definition main (p : params) (b : B) : outcome exit_result * mstate :=
  perform_module_operation p (initial b).

(** *** Vocabulary for runs *)

(** An outcome that is a failure on one of the module's own checks of its
    input. *)
Definition validation_failure {A} (o : outcome A) : bool :=
  match o with
  | FailJson m None => validation_msg m
  | _ => false
  end.

(** The desired name of the update block: [new_name] when it is given, the
    current name otherwise. *)
Definition desired_name (p : params) (rep_rule_details name : value) : Prop :=
  (is_not_none (new_name p) = true /\ name = new_name p) \/
  (is_not_none (new_name p) = false /\
   py_item rep_rule_details "name" = inr name).

(** What the acting blocks add to the record: the calls of the decision, then
    the calls that show the rule. *)
Definition reconcile_shape (p : params)
    (o : outcome exit_result) (t : list event) : Prop :=
  exists t3 t4,
    t = t3 ++ t4 /\
    mutation_phase_calls (calls t3) = true /\
    output_phase_calls (calls t4) = true /\
    (validation_failure o = true -> t = []) /\
    (forall c r i rd rid' name' rpo' rsid threshold' rm,
        t3 = [(c, r); (GetReplicationRuleDetails i, rd);
              (ModifyReplicationRule rid' name' rpo' rsid threshold', rm)] ->
        exists d name,
          rd = Returns d /\ py_item d "name" = inr name /\
          modify_replication_rule_required d
            (new_rep_rule_dict name (rpo p) rsid (alert_threshold p))
          = inr true).


(** The state after one more recorded call. *)
Definition after_call (st : mstate) (b' : B) (c : call) (r : result)
  : mstate :=
  {| backend := b'; cluster_name := cluster_name st;
     cluster_global_id := cluster_global_id st;
     log := log st ++ [(c, r)] |}.

(** The attributes of the current rule a desired set differs on. *)
Definition differs_on (d passed : list (string * value)) (key : string)
  : Prop :=
  exists current new,
    dict_get d key = Some current /\ dict_get passed key = Some new /\
    new <> VNone /\ py_neb current new = true.

(** The id the module holds for the rule: the one it was given, or the one of
    an object the SDK returned. *)
Definition rule_id_in_hand (p : params) (l : list event) (rid : value) : Prop :=
  (truthy (replication_rule_id p) = true /\ rid = replication_rule_id p) \/
  (exists c obj, In (c, Returns obj) l /\ py_item obj "id" = inr rid).

(** What the create block checks before it calls the SDK. *)
Definition create_inputs_ok (p : params) : Prop :=
  truthy (replication_rule_id p) = false /\
  (exists s, replication_rule_name p = VStr s /\ strip s <> "") /\
  truthy (remote_system p) = true /\
  new_name p = VNone /\
  truthy (rpo p) = true.

(** *** Reasoning about runs *)

(** What a computation adds to the record of calls, and how it ends. *)
Definition appends {A} (L : outcome A -> list event -> Prop) (m : M A)
  : Prop :=
  forall st, exists t, log (snd (m st)) = log st ++ t /\ L (fst (m st)) t.

Lemma appends_weaken {A} (L L' : outcome A -> list event -> Prop) m :
  appends L m -> (forall o t, L o t -> L' o t) -> appends L' m.
Proof.
  intros H HL st. destruct (H st) as (t & E & Ht). exists t. auto.
Qed.

Lemma appends_ret {A} (L : outcome A -> list event -> Prop) (a : A) :
  L (Return a) [] -> appends L (ret a).
Proof.
  intros H st. exists []. simpl. rewrite app_nil_r. auto.
Qed.

Lemma appends_bind {A C} (m : M A) (f : A -> M C)
    (L1 : outcome A -> list event -> Prop)
    (L2 : A -> outcome C -> list event -> Prop)
    (L : outcome C -> list event -> Prop) :
  appends L1 m ->
  (forall a, appends (L2 a) (f a)) ->
  (forall a t1 o t2, L1 (Return a) t1 -> L2 a o t2 -> L o (t1 ++ t2)) ->
  (forall e t, L1 (Raise e) t -> L (Raise e) t) ->
  (forall msg codes t, L1 (FailJson msg codes) t -> L (FailJson msg codes) t) ->
  appends L (bind m f).
Proof.
  intros Hm Hf Hret Hraise Hfail st.
  destruct (Hm st) as (t1 & E1 & H1). unfold bind.
  destruct (m st) as [[a | e | msg codes] st1]; simpl in *.
  - destruct (Hf a st1) as (t2 & E2 & H2).
    exists (t1 ++ t2). rewrite E2, E1, app_assoc. split; [reflexivity|].
    apply (Hret a); assumption.
  - exists t1. auto.
  - exists t1. auto.
Qed.

Lemma bind_Return {A C} (m : M A) (f : A -> M C) st c st' :
  bind m f st = (Return c, st') ->
  exists a st1, m st = (Return a, st1) /\ f a st1 = (Return c, st').
Proof.
  unfold bind. destruct (m st) as [[a | e | msg codes] st1]; intros H.
  - exists a, st1. auto.
  - discriminate.
  - discriminate.
Qed.

Lemma bind_eq_Return {A C} (m : M A) (f : A -> M C) st a st1 :
  m st = (Return a, st1) -> bind m f st = f a st1.
Proof. unfold bind. intros ->. reflexivity. Qed.

(** One step of symbolic execution: split on what the next test or call
    depends on, innermost first. *)
Ltac run_step :=
  match goal with
  | |- context [match ?x with _ => _ end] =>
      lazymatch x with
      | context [match _ with _ => _ end] => fail
      | _ => destruct x eqn:?
      end
  end.

Ltac run_all :=
  unfold try_except, bind, when, sdk_call, lift, ret, raise, fail_json,
    get_cluster_name, get_cluster_global_id, set_cluster_name,
    set_cluster_global_id;
  repeat (cbn [fst snd log backend cluster_name cluster_global_id]; run_step).

Ltac run_done :=
  cbn; rewrite <- ?app_assoc; cbn [app];
  first [ eexists; split; [reflexivity | cbn; auto]
        | exists []; rewrite app_nil_r; split; [reflexivity | cbn; auto] ].

Lemma get_clusters_calls :
  appends
    (fun o t => calls t = [GetClusterList] /\ validation_failure o = false)
    get_clusters.
Proof.
  intros st. unfold get_clusters.
  run_all; solve [run_done].
Qed.

Lemma get_remote_system_details_calls remote_system address :
  appends
    (fun o t =>
       remote_system_calls (calls t) = true /\ validation_failure o = false)
    (get_remote_system_details remote_system address).
Proof.
  intros st. unfold get_remote_system_details.
  run_all; solve [run_done].
Qed.

Lemma get_replication_rule_details_calls rep_rule_name rep_rule_id :
  appends
    (fun o t =>
       rule_lookup_calls (calls t) = true /\ validation_failure o = false)
    (get_replication_rule_details rep_rule_name rep_rule_id).
Proof.
  intros st. unfold get_replication_rule_details.
  run_all; solve [run_done].
Qed.


Lemma modify_replication_rule_calls rid name rpo remote_system_id threshold :
  appends
    (fun o t =>
       calls t =
         [ModifyReplicationRule rid name rpo remote_system_id threshold] /\
       validation_failure o = false)
    (modify_replication_rule rid name rpo remote_system_id threshold).
Proof.
  intros st. unfold modify_replication_rule. run_all; solve [run_done].
Qed.

Lemma delete_replication_rule_calls rid :
  appends
    (fun o t =>
       calls t = [DeleteReplicationRule rid] /\ validation_failure o = false)
    (delete_replication_rule rid).
Proof.
  intros st. unfold delete_replication_rule. run_all; solve [run_done].
Qed.

Ltac run_solve :=
  cbn; rewrite <- ?app_assoc; cbn [app];
  first [ exists []; rewrite app_nil_r; split; [reflexivity | cbn]
        | eexists; split; [reflexivity | cbn] ].

Lemma cluster_block_calls :
  appends
    (fun o t => calls t = [GetClusterList] /\ validation_failure o = false)
    cluster_block.
Proof.
  intros st. unfold cluster_block, get_clusters.
  run_all; solve [run_done].
Qed.

Lemma remote_system_block_calls p :
  appends
    (fun o t =>
       remote_system_calls (calls t) = true /\ validation_failure o = false)
    (remote_system_block p).
Proof.
  intros st. unfold remote_system_block, get_remote_system_details.
  run_all; solve [run_done].
Qed.

Lemma lookup_block_calls p :
  appends
    (fun o t =>
       rule_lookup_calls (calls t) = true /\ validation_failure o = false)
    (lookup_block p).
Proof.
  intros st. unfold lookup_block, get_replication_rule_details.
  run_all; solve [run_done].
Qed.

Lemma create_block_calls p rsid d rid rname :
  appends
    (fun o t =>
       (t = [] /\
        ((exists e, o = Raise e) \/ validation_failure o = true \/
         o = Return (false, d, rid))) \/
       (validation_failure o = false /\ is_present p = true /\
        is_none (new_name p) = true /\
        exists r,
          let c := CreateReplicationRule rname (rpo p) rsid (alert_threshold p)
          in
          (t = [(c, r)] /\ forall x, o <> Return x) \/
          (exists i rd,
             t = [(c, r); (GetReplicationRuleDetails i, rd)] /\
             forall ch d' rid',
               o = Return (ch, d', rid') ->
               rd = Returns d' /\ py_item d' "id" = inr rid')))
    (create_block p rsid d rid rname).
Proof.
  intros st. unfold create_block, create_replication_rule.
  run_all; run_solve.
  all: try (left; split; [reflexivity|]; eauto; fail).
  all: try (left; split; [reflexivity|]; right; left; reflexivity).
  all: right; rewrite ?andb_true_iff, ?negb_false_iff, ?negb_true_iff in *.
  all: unfold is_not_none in *; rewrite ?negb_false_iff in *.
  all: repeat match goal with H : _ /\ _ |- _ => destruct H end.
  all: (split; [reflexivity|]); (split; [assumption|]); (split; [assumption|]).
  all: eexists;
    first [ left; split; [reflexivity | congruence]
          | right; do 2 eexists; split; [reflexivity|];
            intros ch d' rid' Hx; inversion Hx; subst; auto
          | right; do 2 eexists; split; [reflexivity|];
            intros ch d' rid' Hx; discriminate ].
Qed.

Lemma delete_block_calls p changed d rid :
  appends
    (fun o t =>
       (t = [] /\ o = Return (changed, d)) \/
       (is_absent p = true /\ validation_failure o = false /\
        calls t = [DeleteReplicationRule rid] /\
        forall x, o = Return x -> snd x = VNone))
    (delete_block p changed d rid).
Proof.
  intros st. unfold delete_block, delete_replication_rule.
  run_all; run_solve.
  all: try (left; auto; fail).
  all: right; rewrite ?andb_true_iff in *;
    repeat match goal with H : _ /\ _ |- _ => destruct H end;
    repeat split; auto; intros x Hx; inversion Hx; reflexivity.
Qed.

Lemma update_block_calls p rsid changed d rid :
  appends
    (fun o t =>
       (t = [] /\ (o = Return (changed, d) \/ exists e, o = Raise e)) \/
       (validation_failure o = false /\ is_present p = true /\
        truthy d = true /\
        exists name,
          desired_name p d name /\
          modify_replication_rule_required d
            (new_rep_rule_dict name (rpo p) rsid (alert_threshold p))
          = inr true /\
          calls t =
            [ModifyReplicationRule rid (new_name p) (rpo p) rsid
               (alert_threshold p)]))
    (update_block p rsid changed d rid).
Proof.
  intros st. unfold update_block, modify_replication_rule.
  run_all; run_solve.
  all: try (left; eauto; fail).
  all: right; rewrite ?andb_true_iff in *;
    repeat match goal with H : _ /\ _ |- _ => destruct H end;
    (split; [reflexivity|]); (split; [assumption|]); (split; [assumption|]);
    eexists; (split; [|split; [eassumption | reflexivity]]);
    unfold desired_name; auto.
Qed.

Lemma output_block_calls p changed d rid :
  appends
    (fun o t =>
       output_phase_calls (calls t) = true /\ validation_failure o = false)
    (output_block p changed d rid).
Proof.
  intros st.
  unfold output_block, show_output, get_replication_rule_details,
    get_remote_system_details.
  run_all; solve [run_done].
Qed.

Lemma bind_run {A C} (m : M A) (f : A -> M C) st :
  bind m f st =
  match m st with
  | (Return a, st1) => f a st1
  | (Raise e, st1) => (Raise e, st1)
  | (FailJson msg codes, st1) => (FailJson msg codes, st1)
  end.
Proof. reflexivity. Qed.

Lemma calls_singleton t c : calls t = [c] -> exists r, t = [(c, r)].
Proof.
  destruct t as [|[c' r] [|]]; cbn; intros H; inversion H. eauto.
Qed.

Lemma remote_system_calls_no_mutation t :
  remote_system_calls t = true -> no_mutation t = true.
Proof.
  destruct t as [|[] [|[] [|]]]; cbn; try discriminate; auto;
    destruct address; try discriminate; auto.
  destruct address0; try discriminate; auto.
Qed.

Lemma rule_lookup_calls_no_mutation t :
  rule_lookup_calls t = true -> no_mutation t = true.
Proof.
  destruct t as [|[] [|[] [|]]]; cbn; try discriminate; auto.
Qed.

Lemma no_mutation_app t1 t2 :
  no_mutation (t1 ++ t2) = no_mutation t1 && no_mutation t2.
Proof. apply forallb_app. Qed.

Lemma resolve_calls p :
  appends
    (fun o t =>
       exists r0 t1 t2,
         t = (GetClusterList, r0) :: t1 ++ t2 /\
         remote_system_calls (calls t1) = true /\
         rule_phase_calls (calls t2) = true /\
         validation_failure o = false /\
         (forall x, o = Return x -> rule_lookup_calls (calls t2) = true))
    (resolve p).
Proof.
  intros st. unfold resolve. rewrite bind_run.
  destruct (cluster_block_calls st) as (t0 & E0 & H0 & V0).
  apply calls_singleton in H0 as [r0 ->].
  destruct (cluster_block st) as [[[] | e | m c] st0]; cbn [fst snd] in *.
  2,3: exists [(GetClusterList, r0)]; split; [assumption|];
       exists r0, [], []; repeat split; auto; discriminate.
  rewrite bind_run.
  destruct (remote_system_block_calls p st0) as (t1 & E1 & H1 & V1).
  destruct (remote_system_block p st0) as [[rsid | e | m c] st1];
    cbn [fst snd] in *.
  2,3: exists ((GetClusterList, r0) :: t1); rewrite E1, E0, <- app_assoc;
       split; [reflexivity|]; exists r0, t1, []; rewrite app_nil_r;
       repeat split; auto; discriminate.
  rewrite bind_run.
  destruct (lookup_block_calls p st1) as (t2 & E2 & H2 & V2).
  assert (rule_phase_calls (calls t2) = true) as H2'.
  { unfold rule_phase_calls. destruct (calls t2); auto. }
  destruct (lookup_block p st1) as [[[[d rid] rn] | e | m c] st2];
    cbn [fst snd] in *.
  all: unfold ret; cbn [fst snd];
    exists ((GetClusterList, r0) :: t1 ++ t2);
    rewrite E2, E1, E0, <- !app_assoc; (split; [reflexivity|]);
    exists r0, t1, t2; repeat split; auto.
Qed.

Lemma py_item_truthy d key v : py_item d key = inr v -> truthy d = true.
Proof.
  destruct d; cbn; try discriminate. destruct d; cbn; [discriminate | auto].
Qed.

Lemma py_eqb_VStr v s : py_eqb v (VStr s) = true -> v = VStr s.
Proof.
  destruct v; cbn; try discriminate. intros H.
  apply String.eqb_eq in H. congruence.
Qed.

Lemma present_not_absent p : is_present p = true -> is_absent p = false.
Proof.
  unfold is_present, is_absent. intros H. apply py_eqb_VStr in H.
  rewrite H. reflexivity.
Qed.

Lemma calls_app t1 t2 : calls (t1 ++ t2) = calls t1 ++ calls t2.
Proof. apply map_app. Qed.

(** The blocks after the create block. *)
Lemma after_create_calls p rsid ch d1 rid1 :
  appends
    (fun o t =>
       exists t3 t4,
         t = t3 ++ t4 /\
         output_phase_calls (calls t4) = true /\
         validation_failure o = false /\
         (t3 = [] \/
          (is_absent p = true /\ calls t3 = [DeleteReplicationRule rid1]) \/
          (is_present p = true /\ truthy d1 = true /\
           exists name,
             desired_name p d1 name /\
             modify_replication_rule_required d1
               (new_rep_rule_dict name (rpo p) rsid (alert_threshold p))
             = inr true /\
             calls t3 =
               [ModifyReplicationRule rid1 (new_name p) (rpo p) rsid
                  (alert_threshold p)])))
    (' (changed0, rep_rule_details) <- delete_block p ch d1 rid1 ;;
     ' (changed1, rep_rule_details0) <-
       update_block p rsid changed0 rep_rule_details rid1 ;;
     output_block p changed1 rep_rule_details0 rid1).
Proof.
  intros st. rewrite bind_run.
  destruct (delete_block_calls p ch d1 rid1 st) as (t1 & E1 & H1).
  destruct (delete_block p ch d1 rid1 st) as [[[ch2 d2] | e | m c] st1];
    cbn [fst snd] in *.
  - rewrite bind_run.
    destruct (update_block_calls p rsid ch2 d2 rid1 st1) as (t2 & E2 & H2).
    destruct (update_block p rsid ch2 d2 rid1 st1)
      as [[[ch3 d3] | e | m c] st2]; cbn [fst snd] in *.
    + destruct (output_block_calls p ch3 d3 rid1 st2) as (t4 & E4 & H4 & V4).
      exists ((t1 ++ t2) ++ t4). rewrite E4, E2, E1, <- !app_assoc.
      split; [reflexivity|]. exists (t1 ++ t2), t4.
      rewrite <- !app_assoc. repeat split; auto.
      destruct H1 as [[-> H1] | (Ha & _ & Hc & Hx)].
      * inversion H1; subst ch2 d2. cbn [app].
        destruct H2 as [[-> _] | (_ & Hp & Ht & name & Hn & Hm & Hc)]; auto.
        right; right. repeat split; auto. exists name. auto.
      * specialize (Hx _ eq_refl). cbn in Hx. subst d2.
        destruct H2 as [[-> _] | (_ & _ & Ht & _)]; [|discriminate].
        rewrite app_nil_r. auto.
    + exists (t1 ++ t2). rewrite E2, E1, <- !app_assoc.
      split; [reflexivity|]. exists (t1 ++ t2), []. rewrite app_nil_r.
      repeat split; auto.
      destruct H1 as [[-> H1] | (Ha & _ & Hc & Hx)].
      * inversion H1; subst ch2 d2. cbn [app].
        destruct H2 as [[-> _] | (_ & Hp & Ht & name & Hn & Hm & Hc)]; auto.
        right; right. repeat split; auto. exists name. auto.
      * specialize (Hx _ eq_refl). cbn in Hx. subst d2.
        destruct H2 as [[-> _] | (_ & _ & Ht & _)]; [|discriminate].
        rewrite app_nil_r. auto.
    + exists (t1 ++ t2). rewrite E2, E1, <- !app_assoc.
      split; [reflexivity|]. exists (t1 ++ t2), []. rewrite app_nil_r.
      destruct H1 as [[-> H1] | (Ha & _ & Hc & Hx)].
      * inversion H1; subst ch2 d2. cbn [app].
        destruct H2 as [[-> [H2 | [e H2]]] | (V & Hp & Ht & name & Hn & Hm & Hc)];
          try discriminate.
        repeat split; auto. right; right. repeat split; auto.
        exists name. auto.
      * specialize (Hx _ eq_refl). cbn in Hx. subst d2.
        destruct H2 as [[-> [H2 | [e H2]]] | (_ & _ & Ht & _)];
          discriminate.
  - exists t1. split; [assumption|]. exists t1, []. rewrite app_nil_r.
    destruct H1 as [[-> H1] | (Ha & V & Hc & Hx)]; [discriminate|].
    repeat split; auto.
  - exists t1. split; [assumption|]. exists t1, []. rewrite app_nil_r.
    destruct H1 as [[-> H1] | (Ha & V & Hc & Hx)]; [discriminate|].
    repeat split; auto.
Qed.

Lemma reconcile_calls p rsid d rid rname :
  appends (reconcile_shape p) (reconcile p rsid d rid rname).
Proof.
  intros st. unfold reconcile. rewrite bind_run.
  destruct (create_block_calls p rsid d rid rname st) as (t1 & E1 & H1).
  destruct (create_block p rsid d rid rname st)
    as [[[[ch d1] rid1] | e | m c] st1]; cbn [fst snd] in *.
  - destruct (after_create_calls p rsid ch d1 rid1 st1)
      as (t & E & t3 & t4 & -> & H4 & V & H3).
    exists (t1 ++ t3 ++ t4). rewrite E, E1, <- !app_assoc.
    split; [reflexivity|]. exists (t1 ++ t3), t4. rewrite <- !app_assoc.
    split; [reflexivity|].
    destruct H1 as [[-> H1] | (_ & Hp & Hn & r & [[_ Hx] | (i & rd & -> & Hx)])].
    + cbn [app].
      destruct H3 as [-> | [(_ & Hc) | (_ & _ & name & _ & _ & Hc)]];
        try rewrite Hc; repeat split; auto; try (rewrite V; discriminate).
        all: intros; subst; discriminate.
    + exfalso. eapply Hx. reflexivity.
    + destruct (Hx _ _ _ eq_refl) as [-> Hid].
      destruct H3 as [-> | [(Ha & _) | (_ & _ & name & Hd & Hm & Hc)]].
      * repeat split; auto; try (rewrite V; discriminate).
        intros; discriminate.
      * rewrite (present_not_absent _ Hp) in Ha. discriminate.
      * apply calls_singleton in Hc as [rm ->]. cbn [app calls map fst].
        repeat split; auto; try (rewrite V; discriminate).
        intros c0 r0 i0 rd0 rid' name' rpo' rsid' threshold' rm0 Heq.
        inversion Heq; subst.
        exists d1, name. repeat split; auto.
        destruct Hd as [[Hd _] | [_ Hd]]; auto.
        unfold is_not_none in Hd. rewrite Hn in Hd. discriminate.
  - exists t1. split; [assumption|]. exists t1, []. rewrite app_nil_r.
    split; [reflexivity|].
    destruct H1 as [[-> H1] | (_ & Hp & Hn & r & [[-> Hx] | (i & rd & -> & Hx)])];
      repeat split; auto; intros; discriminate.
  - exists t1. split; [assumption|]. exists t1, []. rewrite app_nil_r.
    split; [reflexivity|].
    destruct H1 as [[-> H1] | (V & Hp & Hn & r & [[-> Hx] | (i & rd & -> & Hx)])];
      repeat split; auto; try (rewrite V; discriminate).
    all: try (intros; discriminate).
    all: cbn in *; intros Hv; congruence.
Qed.


Lemma rule_phase_calls_no_mutation t :
  rule_phase_calls t = true -> no_mutation t = true.
Proof.
  destruct t; [reflexivity|]. apply rule_lookup_calls_no_mutation.
Qed.

Lemma output_phase_calls_no_mutation t :
  output_phase_calls t = true -> no_mutation t = true.
Proof.
  destruct t as [|[] t]; cbn; try discriminate; auto.
  apply remote_system_calls_no_mutation.
Qed.

Lemma resolve_no_mutation p st :
  exists t, log (snd (resolve p st)) = log st ++ t /\
            no_mutation (calls t) = true.
Proof.
  destruct (resolve_calls p st) as (t & E & r0 & t1 & t2 & -> & H1 & H2 & _).
  eexists. split; [eassumption|].
  cbn. rewrite calls_app, no_mutation_app.
  rewrite (remote_system_calls_no_mutation _ H1).
  rewrite (rule_phase_calls_no_mutation _ H2). reflexivity.
Qed.

Lemma mutating_calls_app t1 t2 :
  mutating_calls (t1 ++ t2) = mutating_calls t1 ++ mutating_calls t2.
Proof. unfold mutating_calls. rewrite calls_app. apply filter_app. Qed.

Lemma no_mutation_mutating_calls t :
  no_mutation (calls t) = true -> mutating_calls t = [].
Proof.
  unfold mutating_calls, no_mutation. induction (calls t) as [|c l IH]; cbn.
  - reflexivity.
  - destruct (is_mutating c); cbn; [discriminate | exact IH].
Qed.

(** ** Properties of an invocation *)

(** C10: when the SDK's cluster list is empty the module fails with "Unable
    to find any active cluster on this array" and the cluster lookup is the
    only call made: no remote system, no rule is looked up, nothing is
    changed. *)
Theorem empty_cluster_list_fails_first p b b' :
  sdk GetClusterList b = (Returns (VList []), b') ->
  main p b =
    (FailJson msg_no_cluster None,
     {| backend := b'; cluster_name := VStr " ";
        cluster_global_id := VStr " ";
        log := [(GetClusterList, Returns (VList []))] |}).
Proof.
  intros H.
  unfold main, perform_module_operation, resolve, cluster_block, get_clusters,
    try_except, bind, sdk_call, initial.
  cbn [backend]. rewrite H. reflexivity.
Qed.

(** C3: with state absent and a rule lookup that comes back empty, the
    invocation succeeds with changed false and ends in the state the lookups
    left: it makes no further call, and none of its calls is a create, a
    modify or a delete. *)
Theorem absent_rule_stays_absent p b rsid d rid rname st1 :
  state p = VStr "absent" ->
  resolve p (initial b) = (Return (rsid, d, rid, rname), st1) ->
  truthy d = false ->
  main p b =
    (Return {| changed := false; replication_rule_details := d |}, st1) /\
  mutating_calls (log st1) = [].
Proof.
  intros Hs Hr Hd. split.
  - unfold main, perform_module_operation.
    rewrite (bind_eq_Return _ _ _ _ _ Hr).
    assert (is_present p = false) as Hp
      by (unfold is_present; rewrite Hs; reflexivity).
    unfold reconcile, create_block, delete_block, update_block, output_block.
    unfold bind, ret.
    repeat first [rewrite Hd | rewrite Hp | progress cbn [negb andb]].
    reflexivity.
  - destruct (resolve_no_mutation p (initial b)) as (t & E & Ht).
    rewrite Hr in E. cbn in E. subst t.
    apply no_mutation_mutating_calls. assumption.
Qed.

Lemma get_replication_rule_details_raise rep_rule_name rep_rule_id st :
  forall t c e,
    log (snd (get_replication_rule_details rep_rule_name rep_rule_id st))
    = log st ++ t ->
    In (c, Raises e) t ->
    fst (get_replication_rule_details rep_rule_name rep_rule_id st) =
      if is_not_found e then Return VNone
      else FailJson
             (msg_get_rule_failed rep_rule_name rep_rule_id (cluster_name st) e)
             (Some e).
Proof.
  unfold get_replication_rule_details.
  run_all; cbn; rewrite <- ?app_assoc; cbn [app]; intros t c0 e0 E Hin.
  all: match type of E with
       | log ?s = _ => rewrite <- (app_nil_r (log s)) in E at 1
       | _ => idtac
       end.
  all: apply app_inv_head in E; subst t; cbn in Hin.
  all: repeat match goal with
         | H : _ \/ _ |- _ => destruct H
         | H : False |- _ => destruct H
         | H : (_, _) = (_, _) |- _ => inversion H; clear H; subst
         end.
  all: try discriminate.
  all: match goal with H : is_not_found _ = _ |- _ => rewrite H end;
    reflexivity.
Qed.

(** C4: when a call of the SDK raises during the lookup of a rule, the lookup
    returns None if the error is a PowerStoreException with the HTTP error
    code and status "404".  Otherwise the module fails, with the failure
    codes of the error and the message "Get details of replication rule
    name: {0} or ID {1} on array name : {2} failed with error : {3} ", in
    which the rule name, the rule id, the cluster name the module holds and
    the error are rendered, in this order. *)
Theorem lookup_not_found_is_empty rep_rule_name rep_rule_id st o st' t c e :
  get_replication_rule_details rep_rule_name rep_rule_id st = (o, st') ->
  log st' = log st ++ t ->
  In (c, Raises e) t ->
  (is_not_found e = true -> o = Return VNone) /\
  (is_not_found e = false ->
   o = FailJson
         [Lit "Get details of replication rule name: "; Fmt rep_rule_name;
          Lit " or ID "; Fmt rep_rule_id; Lit " on array name : ";
          Fmt (cluster_name st); Lit " failed with error : "; FmtExc e;
          Lit " "]
         (Some e)).
Proof.
  intros Hrun E Hin.
  pose proof (get_replication_rule_details_raise rep_rule_name rep_rule_id st
                t c e) as H.
  rewrite Hrun in H. cbn [fst snd] in H. specialize (H E Hin).
  split; intros Hnf; rewrite Hnf in H; exact H.
Qed.

(** C8: resolution of a remote system given by name.  One match is the
    remote system; no match fails asking for a valid remote system; several
    matches fail with the ambiguity message when no address is given, and
    with an address the lookup is repeated with it: exactly one match is the
    remote system, anything else fails with the "name and address not found"
    message. *)
Theorem remote_system_by_name rs_name address st l b1 :
  truthy rs_name = true ->
  name_or_id rs_name = VStr "NAME" ->
  sdk (GetRemoteSystemByName rs_name None) (backend st)
  = (Returns (VList l), b1) ->
  let c1 := GetRemoteSystemByName rs_name None in
  let c2 := GetRemoteSystemByName rs_name (Some address) in
  let st1 := after_call st b1 c1 (Returns (VList l)) in
  let not_found := FailJson (msg_remote_system_not_found rs_name address) None in
  (forall x, l = [x] ->
     get_remote_system_details rs_name address st = (Return x, st1)) /\
  (l = [] -> get_remote_system_details rs_name address st = (not_found, st1)) /\
  ((1 < length l)%nat -> truthy address = false ->
     get_remote_system_details rs_name address st
     = (FailJson msg_ambiguous_remote_system None, st1)) /\
  ((1 < length l)%nat -> truthy address = true ->
     forall l2 b2,
       sdk c2 b1 = (Returns (VList l2), b2) ->
       let st2 := after_call st1 b2 c2 (Returns (VList l2)) in
       (forall x, l2 = [x] ->
          get_remote_system_details rs_name address st = (Return x, st2)) /\
       (length l2 <> 1%nat ->
          get_remote_system_details rs_name address st = (not_found, st2))).
Proof.
  intros Ht Hn H1 c1 c2 st1 not_found.
  assert (is_not_none rs_name = true) as Hnn by (destruct rs_name; auto; discriminate).
  unfold get_remote_system_details, try_except, bind, sdk_call, lift, when,
    fail_json, ret.
  rewrite Hn, Hnn. cbn [py_eqb String.eqb Ascii.eqb Bool.eqb andb negb].
  rewrite Ht, H1.
  split; [|split; [|split]].
  - intros x ->. reflexivity.
  - intros ->. reflexivity.
  - intros Hl Ha. destruct l as [|x [|y l]]; cbn in Hl; try lia.
    cbn. rewrite Ha. reflexivity.
  - intros Hl Ha l2 b2 H2.
    destruct l as [|x0 [|y l]]; cbn in Hl; try lia.
    cbn. rewrite Ha. cbn. unfold c2 in H2. rewrite H2.
    split.
    + intros x ->. reflexivity.
    + intros Hl2. destruct l2 as [|x2 [|y2 l2]]; cbn in Hl2 |- *;
        try reflexivity.
      congruence.
Qed.

Lemma dict_get_In_keys {V} (d : list (string * V)) key v :
  dict_get d key = Some v -> In key (dict_keys d).
Proof.
  induction d as [|[k w] d IH]; cbn; [discriminate|].
  destruct (String.eqb k key) eqn:E.
  - apply String.eqb_eq in E. auto.
  - auto.
Qed.

Lemma is_not_none_true v : is_not_none v = true <-> v <> VNone.
Proof.
  destruct v; cbn; split; intros; congruence.
Qed.

Lemma modify_required_loop_true keys d passed :
  modify_required_loop keys d passed = true <->
  exists key, In key keys /\ differs_on d passed key.
Proof.
  induction keys as [|k keys IH]; cbn.
  - split; [discriminate | intros (key & [] & _)].
  - destruct (dict_get passed k) as [new|] eqn:Hp;
      [destruct (dict_get d k) as [cur|] eqn:Hd|].
    + destruct (is_not_none new && py_neb cur new) eqn:Hc.
      * split; [intros _ | reflexivity].
        apply andb_true_iff in Hc as [Hn Hneq].
        exists k. split; [auto|]. exists cur, new.
        rewrite is_not_none_true in Hn. auto.
      * rewrite IH. split.
        -- intros (key & Hin & H). exists key. auto.
        -- intros (key & [<- | Hin] & H); [|exists key; auto].
           destruct H as (c & n & Hc' & Hn' & Hnn & Hneq).
           rewrite Hd in Hc'. rewrite Hp in Hn'.
           inversion Hc'; inversion Hn'; subst.
           apply is_not_none_true in Hnn. rewrite Hnn, Hneq in Hc.
           discriminate.
    + rewrite IH. split.
      * intros (key & Hin & H). exists key. auto.
      * intros (key & [<- | Hin] & H); [|exists key; auto].
        destruct H as (c & n & Hc' & _). congruence.
    + rewrite IH. split.
      * intros (key & Hin & H). exists key. auto.
      * intros (key & [<- | Hin] & H); [|exists key; auto].
        destruct H as (c & n & _ & Hn' & _). congruence.
Qed.

Lemma modify_required_iff d passed :
  modify_replication_rule_required (VDict d) passed = inr true <->
  exists key, differs_on d passed key.
Proof.
  unfold modify_replication_rule_required. split.
  - intros H. inversion H as [H'].
    apply modify_required_loop_true in H' as (key & _ & Hk). eauto.
  - intros (key & Hk). f_equal. apply modify_required_loop_true.
    exists key. split; [|assumption].
    destruct Hk as (c & n & Hc & _). eapply dict_get_In_keys. eassumption.
Qed.

(** The acting blocks when the lookup found a rule and the state is
    present: the rule is compared, modified if it differs, and shown. *)
Lemma reconcile_existing p rsid d rid rname name st :
  truthy d = true -> state p = VStr "present" -> desired_name p d name ->
  reconcile p rsid d rid rname st =
  match modify_replication_rule_required d
          (new_rep_rule_dict name (rpo p) rsid (alert_threshold p)) with
  | inr true =>
      (' (changed, rep_rule_details) <-
         modify_replication_rule rid (new_name p) (rpo p) rsid
           (alert_threshold p) ;;
       output_block p changed rep_rule_details rid) st
  | inr false => output_block p false d rid st
  | inl e => (Raise e, st)
  end.
Proof.
  intros Hd Hs Hn.
  assert (is_present p = true) as Hp
    by (unfold is_present; rewrite Hs; reflexivity).
  assert (is_absent p = false) as Ha by (apply present_not_absent; exact Hp).
  unfold reconcile, create_block, delete_block, update_block, bind, lift, ret.
  repeat first [rewrite Hd | rewrite Hp | rewrite Ha | progress cbn [negb andb]].
  destruct Hn as [[Hnn ->] | [Hnn Hi]]; rewrite Hnn; [|rewrite Hi].
  - destruct (modify_replication_rule_required _ _) as [e | []]; reflexivity.
  - destruct (modify_replication_rule_required _ _) as [e | []]; reflexivity.
Qed.

Lemma output_block_Return p ch d rid st r st' :
  output_block p ch d rid st = (Return r, st') ->
  changed r = ch /\
  (if is_present p && truthy d
   then show_output rid (remote_system_address p) st
        = (Return (replication_rule_details r), st')
   else replication_rule_details r = d /\ st' = st).
Proof.
  unfold output_block. intros H.
  apply bind_Return in H as (d' & st1 & H1 & H2).
  unfold ret in H2. inversion H2; subst. cbn. split; [reflexivity|].
  destruct (is_present p && truthy d).
  - exact H1.
  - unfold ret in H1. inversion H1. auto.
Qed.

(** C1: for a rule the lookup found and state present, the reconciler finds
    a modification necessary exactly when some key of the current rule has
    an entry in the desired set that is not None and differs from the current
    value.  When there is no such key the update block makes no call and
    leaves changed false and the current rule as it is, the invocation goes
    on to show that rule, none of its calls is a create, a modify or a
    delete, and it reports changed false.  When there is one, the update
    block is the modify call. *)
Theorem reconciler_modifies_iff_differs p b rsid d rid rname st1 name :
  resolve p (initial b) = (Return (rsid, VDict d, rid, rname), st1) ->
  d <> [] ->
  state p = VStr "present" ->
  desired_name p (VDict d) name ->
  let passed := new_rep_rule_dict name (rpo p) rsid (alert_threshold p) in
  let differs := exists key, differs_on d passed key in
  (modify_replication_rule_required (VDict d) passed = inr true <-> differs) /\
  (~ differs ->
   update_block p rsid false (VDict d) rid st1
   = (Return (false, VDict d), st1) /\
   main p b = output_block p false (VDict d) rid st1 /\
   mutating_calls (log (snd (main p b))) = [] /\
   forall r, fst (main p b) = Return r -> changed r = false) /\
  (differs ->
   update_block p rsid false (VDict d) rid st1
   = modify_replication_rule rid (new_name p) (rpo p) rsid (alert_threshold p)
       st1).
Proof.
  intros Hr Hd Hs Hn passed differs.
  assert (truthy (VDict d) = true) as Ht by (destruct d; [congruence | reflexivity]).
  assert (is_present p = true) as Hp
    by (unfold is_present; rewrite Hs; reflexivity).
  pose proof (modify_required_iff d passed) as Hiff.
  assert (forall x, update_block p rsid false (VDict d) rid st1 =
            match modify_replication_rule_required (VDict d) passed with
            | inr true =>
                modify_replication_rule rid (new_name p) (rpo p) rsid
                  (alert_threshold p) st1
            | inr false => (Return (false, VDict d), st1)
            | inl e => (Raise e, x)
            end) as Hu.
  { intros x. unfold update_block, bind, lift, ret. rewrite Ht, Hp.
    cbn [andb]. fold passed.
    destruct Hn as [[Hnn Hname] | [Hnn Hi]]; rewrite Hnn.
    - subst name. fold passed. cbn [modify_replication_rule_required].
      destruct (modify_required_loop _ _ _); reflexivity.
    - rewrite Hi. fold passed. cbn [modify_replication_rule_required].
      destruct (modify_required_loop _ _ _); reflexivity. }
  split; [exact Hiff|]. split.
  - intros Hnd.
    assert (modify_replication_rule_required (VDict d) passed = inr false) as Hf.
    { cbn. destruct (modify_required_loop _ _ _) eqn:E; [|reflexivity].
      exfalso. apply Hnd, Hiff. cbn. rewrite E. reflexivity. }
    assert (main p b = output_block p false (VDict d) rid st1) as Hm.
    { unfold main, perform_module_operation.
      rewrite (bind_eq_Return _ _ _ _ _ Hr).
      rewrite (reconcile_existing p rsid (VDict d) rid rname name st1 Ht Hs Hn).
      fold passed. rewrite Hf. reflexivity. }
    split; [rewrite (Hu st1), Hf; reflexivity|].
    split; [exact Hm|]. split.
    + rewrite Hm.
      destruct (output_block_calls p false (VDict d) rid st1) as (t & E & Ho & _).
      destruct (resolve_no_mutation p (initial b)) as (t0 & E0 & H0).
      rewrite Hr in E0. cbn in E0. rewrite E, E0.
      rewrite mutating_calls_app.
      rewrite (no_mutation_mutating_calls _ H0).
      apply no_mutation_mutating_calls.
      apply output_phase_calls_no_mutation. exact Ho.
    + intros r Hret. rewrite Hm in Hret.
      destruct (output_block p false (VDict d) rid st1) as [o st'] eqn:E.
      cbn in Hret. subst o.
      apply output_block_Return in E as [E _]. exact E.
  - intros Hdiff. apply Hiff in Hdiff. rewrite (Hu st1), Hdiff. reflexivity.
Qed.

Lemma lookup_block_Return p st :
  forall d rid rn,
    fst (lookup_block p st) = Return (d, rid, rn) ->
    (truthy d = false /\ rid = replication_rule_id p /\
     rn = replication_rule_name p) \/
    (truthy d = true /\ rule_id_in_hand p (log (snd (lookup_block p st))) rid).
Proof.
  unfold lookup_block, get_replication_rule_details, rule_id_in_hand.
  run_all; cbn; intros d0 rid0 rn0 Heq; inversion Heq; subst; clear Heq.
  all: rewrite ?andb_true_iff, ?andb_false_iff, ?negb_true_iff,
         ?negb_false_iff in *.
  all: repeat match goal with
         | H : _ /\ _ |- _ => destruct H
         | H : _ \/ _ |- _ => destruct H
         end.
  all: try match goal with
         | |- (truthy ?d = false /\ _) \/ _ =>
             lazymatch goal with
             | H : truthy d = _ |- _ => idtac
             | _ => destruct (truthy d) eqn:?
             end
         end.
  all: cbn [truthy] in *; try discriminate; try congruence.
  all: first
    [ left; split; [assumption || reflexivity|]; split; congruence
    | right; split; [assumption || reflexivity|];
      first [ left; split; [assumption | reflexivity]
            | right; do 2 eexists; split; [|eassumption];
              apply in_or_app; right; left; reflexivity ] ].
Qed.

Lemma refetch_Return rid st :
  forall v, fst (get_replication_rule_details VNone rid st) = Return v ->
    v = VNone \/
    exists b1,
      sdk (GetReplicationRuleDetails rid) (backend st) = (Returns v, b1) /\
      snd (get_replication_rule_details VNone rid st)
      = after_call st b1 (GetReplicationRuleDetails rid) (Returns v).
Proof.
  unfold get_replication_rule_details, after_call. cbn [truthy].
  run_all; cbn; intros vv Heq; inversion Heq; subst; auto.
  all: right; eexists; split; reflexivity.
Qed.

Lemma show_output_Return rid address st v st' :
  show_output rid address st = (Return v, st') ->
  exists d b1 rs_id rs nm,
    sdk (GetReplicationRuleDetails rid) (backend st)
    = (Returns (VDict d), b1) /\
    dict_get d "remote_system_id" = Some rs_id /\
    get_remote_system_details rs_id address
      (after_call st b1 (GetReplicationRuleDetails rid) (Returns (VDict d)))
    = (Return rs, st') /\
    py_item rs "name" = inr nm /\
    v = VDict (dict_set d "remote_system_name" nm).
Proof.
  unfold show_output. intros H.
  apply bind_Return in H as (dv & st1 & H1 & H).
  apply bind_Return in H as (rs_id & st2 & H2 & H).
  apply bind_Return in H as (rs & st3 & H3 & H).
  apply bind_Return in H as (nm & st4 & H4 & H5).
  unfold lift in H2, H4, H5.
  destruct (py_item dv "remote_system_id") as [|x] eqn:E2; inversion H2; subst.
  destruct (py_item rs "name") as [|y] eqn:E4; inversion H4; subst.
  destruct (py_setitem dv "remote_system_name" nm) as [|z] eqn:E5;
    inversion H5; subst.
  destruct dv as [| | | | |d]; try discriminate.
  pose proof (refetch_Return rid st (VDict d)) as Hf.
  rewrite H1 in Hf. cbn [fst snd] in Hf.
  destruct (Hf eq_refl) as [Hn | (b1 & Hs & Hst)]; [discriminate|]. subst st2.
  cbn in E2. destruct (dict_get d "remote_system_id") eqn:Eg; inversion E2; subst.
  cbn in E5. inversion E5; subst.
  exists d, b1, rs_id, rs, nm. repeat split; auto.
Qed.

(** The rule [show_output] reports: when an invocation with state present
    reports a rule that is not empty, that rule is the answer of a fetch of
    the rule by the id the module holds for it, made after every other call
    about rules, with one more entry: the name of the remote system that the
    rule's own [remote_system_id] resolves to. *)
Lemma reported_rule_is_refetched p b r st' :
  main p b = (Return r, st') ->
  state p = VStr "present" ->
  truthy (replication_rule_details r) = true ->
  exists st0 rid d b1 rs_id rs nm t_rs,
    let refetch := (GetReplicationRuleDetails rid, Returns (VDict d)) in
    rule_id_in_hand p (log st0) rid /\
    sdk (GetReplicationRuleDetails rid) (backend st0)
    = (Returns (VDict d), b1) /\
    dict_get d "remote_system_id" = Some rs_id /\
    get_remote_system_details rs_id (remote_system_address p)
      (after_call st0 b1 (fst refetch) (snd refetch))
    = (Return rs, st') /\
    py_item rs "name" = inr nm /\
    replication_rule_details r = VDict (dict_set d "remote_system_name" nm) /\
    log st' = log st0 ++ refetch :: t_rs /\
    remote_system_calls (calls t_rs) = true.
Proof.
  intros Hm Hs Ht.
  assert (is_present p = true) as Hp
    by (unfold is_present; rewrite Hs; reflexivity).
  unfold main, perform_module_operation in Hm.
  apply bind_Return in Hm as ([[[rsid d] rid] rn] & st1 & Hres & Hrec).
  unfold resolve in Hres.
  apply bind_Return in Hres as ([] & sta & _ & Hres).
  apply bind_Return in Hres as (rsid' & stb & _ & Hres).
  apply bind_Return in Hres as ([[d' rid'] rn'] & stc & Hlk & Hres).
  unfold ret in Hres. inversion Hres; subst; clear Hres.
  pose proof (lookup_block_Return p stb d rid rn) as Hid.
  rewrite Hlk in Hid. cbn [fst snd] in Hid. specialize (Hid eq_refl).
  unfold reconcile in Hrec.
  apply bind_Return in Hrec as ([[ch1 d1] rid1] & st2 & Hc & Hrec).
  apply bind_Return in Hrec as ([ch2 d2] & st3 & Hd & Hrec).
  apply bind_Return in Hrec as ([ch3 d3] & st4 & Hu & Hout).
  (* delete does not run *)
  destruct (delete_block_calls p ch1 d1 rid1 st2) as (t2 & E2 & H2).
  rewrite Hd in E2, H2. cbn [fst snd] in E2, H2.
  destruct H2 as [[-> H2] | (Ha & _)];
    [|rewrite (present_not_absent _ Hp) in Ha; discriminate].
  injection H2 as -> ->. rewrite app_nil_r in E2.
  (* the update block keeps the id *)
  destruct (update_block_calls p rsid ch1 d1 rid1 st3) as (t3 & E3 & H3).
  rewrite Hu in E3, H3. cbn [fst snd] in E3, H3.
  assert (truthy d1 = false -> truthy d3 = false) as Hkeep.
  { intros Hf.
    destruct H3 as [[_ [H3 | [e H3]]] | (_ & _ & Ht1 & _)];
      try discriminate; [|congruence].
    injection H3 as _ ->. exact Hf. }
  (* the rule is shown *)
  apply output_block_Return in Hout as [_ Hout]. rewrite Hp in Hout.
  cbn [andb] in Hout.
  destruct (truthy d3) eqn:Ht3;
    [|destruct Hout as [Hout _]; rewrite Hout in Ht; congruence].
  (* the id after the create block *)
  assert (rule_id_in_hand p (log st2) rid1) as Hid1.
  { destruct (create_block_calls p rsid d rid rn st1) as (t & E & H).
    rewrite Hc in E, H. cbn [fst snd] in E, H.
    destruct H as [[-> [[e He] | [Hv | He]]]
                  | (_ & _ & _ & r0 & [[_ Hx] | (i & rd & -> & Hx)])];
      try discriminate.
    - injection He as -> -> ->. rewrite app_nil_r in E. rewrite E.
      destruct Hid as [(Hf & _) | [Ht0 Hid]]; [|exact Hid].
      specialize (Hkeep Hf). congruence.
    - exfalso. eapply Hx. reflexivity.
    - destruct (Hx _ _ _ eq_refl) as [-> Hi].
      right. exists (GetReplicationRuleDetails i), d1. split; [|assumption].
      rewrite E. apply in_or_app. right. right. left. reflexivity. }
  apply show_output_Return in Hout
    as (dd & b1 & rs_id & rs & nm & Hsdk & Hrs & Hget & Hnm & Hv).
  destruct (get_remote_system_details_calls rs_id (remote_system_address p)
              (after_call st4 b1 (GetReplicationRuleDetails rid1)
                 (Returns (VDict dd)))) as (t_rs & Ers & Hshape & _).
  rewrite Hget in Ers. cbn [fst snd] in Ers.
  exists st4, rid1, dd, b1, rs_id, rs, nm, t_rs. cbn zeta. cbn [fst snd].
  repeat split; auto.
  - destruct Hid1 as [Hid1 | (c & obj & Hin & Hob)]; [left; exact Hid1|].
    right. exists c, obj. split; [|assumption].
    rewrite E3, E2. apply in_or_app. left. exact Hin.
  - rewrite Ers. cbn [after_call log]. rewrite <- app_assoc. reflexivity.
Qed.

(** *** The order of the calls *)

(** The calls that resolve the remote system [rs]: one lookup by name, a
    second one scoped by the address, or one fetch by id. *)
Definition remote_system_lookup (rs address : value) (t : list call) : Prop :=
  t = [GetRemoteSystemByName rs None] \/
  t = [GetRemoteSystemByName rs None;
       GetRemoteSystemByName rs (Some address)] \/
  t = [GetRemoteSystemDetails rs].

(** The remote-system phase of a request: the resolution of [remote_system]
    when it is given, and no call otherwise. *)
Definition remote_system_phase (p : params) (t : list call) : Prop :=
  if truthy (remote_system p)
  then remote_system_lookup (remote_system p) (remote_system_address p) t
  else t = [].

(** The calls that look the rule up: by the name given and then by the id of
    the first match, or by the id given. *)
Definition rule_lookup (p : params) (t : list call) : Prop :=
  if truthy (replication_rule_name p)
  then t = [GetReplicationRuleByName (replication_rule_name p)] \/
       exists i,
         t = [GetReplicationRuleByName (replication_rule_name p);
              GetReplicationRuleDetails i]
  else t = [GetReplicationRuleDetails (replication_rule_id p)].

(** How far an invocation got, after the cluster lookup: it ended there; or
    the remote system was resolved and it ended there; or the rule was looked
    up too, and the decision and the output follow. *)
Definition invocation_order (p : params) (t1 t2 t3 t4 : list event) : Prop :=
  (t1 = [] /\ t2 = [] /\ t3 = [] /\ t4 = []) \/
  (remote_system_phase p (calls t1) /\
   ((t2 = [] /\ t3 = [] /\ t4 = []) \/
    (rule_lookup p (calls t2) /\
     mutation_phase_calls (calls t3) = true /\
     output_phase_calls (calls t4) = true))).

Lemma remote_system_block_order p :
  appends
    (fun o t =>
       remote_system_phase p (calls t) /\ validation_failure o = false)
    (remote_system_block p).
Proof.
  intros st.
  unfold remote_system_block, remote_system_phase, remote_system_lookup.
  destruct (truthy (remote_system p)) eqn:Ht.
  2: { exists []. rewrite app_nil_r. cbn. auto. }
  assert (is_not_none (remote_system p) = true) as Hnn
    by (destruct (remote_system p); auto; discriminate).
  unfold get_remote_system_details. rewrite Hnn. cbn [andb].
  destruct (py_eqb (name_or_id (remote_system p)) (VStr "NAME"));
    cbn [negb truthy]; rewrite Ht.
  - run_all; run_solve; auto.
  - run_all; run_solve; auto.
Qed.

Lemma lookup_block_order p :
  appends
    (fun o t => rule_lookup p (calls t) /\ validation_failure o = false)
    (lookup_block p).
Proof.
  intros st. unfold lookup_block, get_replication_rule_details, rule_lookup.
  destruct (truthy (replication_rule_name p)) eqn:Ht.
  - run_all; run_solve; eauto.
  - run_all; run_solve; eauto.
Qed.

Lemma rule_lookup_not_nil p t : rule_lookup p (calls t) -> t <> [].
Proof.
  unfold rule_lookup. intros H ->. cbn in H.
  destruct (truthy (replication_rule_name p));
    [destruct H as [H | [i H]]|]; discriminate.
Qed.

(** What an invocation adds to the record, with the order of its phases. *)
Lemma perform_module_operation_order p :
  appends
    (fun o t =>
       exists r0 t1 t2 t3 t4,
         t = (GetClusterList, r0) :: t1 ++ t2 ++ t3 ++ t4 /\
         invocation_order p t1 t2 t3 t4 /\
         mutation_phase_calls (calls t3) = true /\
         output_phase_calls (calls t4) = true /\
         (validation_failure o = true ->
          remote_system_phase p (calls t1) /\ rule_lookup p (calls t2) /\
          t3 = [] /\ t4 = []))
    (perform_module_operation p).
Proof.
  intros st. unfold perform_module_operation, resolve.
  rewrite bind_run, bind_run.
  destruct (cluster_block_calls st) as (t0 & E0 & H0 & V0).
  apply calls_singleton in H0 as [r0 ->].
  destruct (cluster_block st) as [[[] | e | m c] st0]; cbn [fst snd] in *.
  2,3: exists [(GetClusterList, r0)]; (split; [assumption|]);
       exists r0, [], [], [], []; (split; [reflexivity|]);
       (split; [left; auto|]); (split; [reflexivity|]);
       (split; [reflexivity|]); intros Hv; cbn in *; congruence.
  rewrite bind_run.
  destruct (remote_system_block_order p st0) as (t1 & E1 & H1 & V1).
  destruct (remote_system_block p st0) as [[rsid | e | m c] st1];
    cbn [fst snd] in *.
  2,3: exists ((GetClusterList, r0) :: t1); rewrite E1, E0, <- app_assoc;
       (split; [reflexivity|]); exists r0, t1, [], [], [];
       rewrite !app_nil_r; (split; [reflexivity|]);
       (split; [right; auto|]); (split; [reflexivity|]);
       (split; [reflexivity|]); intros Hv; cbn in *; congruence.
  rewrite bind_run.
  destruct (lookup_block_order p st1) as (t2 & E2 & H2 & V2).
  destruct (lookup_block p st1) as [[[[d rid] rn] | e | m c] st2];
    cbn [fst snd] in *.
  2,3: exists ((GetClusterList, r0) :: t1 ++ t2);
       rewrite E2, E1, E0, <- !app_assoc;
       (split; [reflexivity|]); exists r0, t1, t2, [], [];
       rewrite !app_nil_r; (split; [reflexivity|]);
       (split; [right; split; [assumption|]; right; auto|]);
       (split; [reflexivity|]); (split; [reflexivity|]);
       intros Hv; cbn in *; congruence.
  unfold ret. cbn [fst snd].
  destruct (reconcile_calls p rsid d rid rn st2)
    as (t' & E' & t3 & t4 & -> & H3 & H4 & Hv & _).
  exists ((GetClusterList, r0) :: t1 ++ t2 ++ t3 ++ t4).
  rewrite E', E2, E1, E0.
  split; [repeat (rewrite <- app_assoc || rewrite <- app_comm_cons);
          reflexivity|].
  exists r0, t1, t2, t3, t4.
  split; [reflexivity|]. split; [right; auto|].
  split; [assumption|]. split; [assumption|].
  intros Hv'. specialize (Hv Hv').
  destruct t3; [|discriminate]. cbn in Hv. subst t4. auto.
Qed.


Lemma remote_system_phase_calls p t :
  remote_system_phase p t -> remote_system_calls t = true.
Proof.
  unfold remote_system_phase, remote_system_lookup.
  destruct (truthy (remote_system p)).
  - intros [-> | [-> | ->]]; reflexivity.
  - intros ->. reflexivity.
Qed.

Lemma rule_lookup_calls_of p t : rule_lookup p t -> rule_lookup_calls t = true.
Proof.
  unfold rule_lookup. destruct (truthy (replication_rule_name p)).
  - intros [-> | [i ->]]; reflexivity.
  - intros ->. reflexivity.
Qed.

(** C6, as the code has it: an invocation that fails on one of the module's
    own checks of its input has made, in this order, the cluster lookup, the
    resolution of the remote system when one is given (and no call for it
    otherwise) and the rule lookup, and nothing else: no create, modify or
    delete precedes the failure. *)
Theorem validation_failure_follows_lookups p b :
  validation_failure (fst (main p b)) = true ->
  exists r0 t1 t2,
    log (snd (main p b)) = (GetClusterList, r0) :: t1 ++ t2 /\
    remote_system_phase p (calls t1) /\
    rule_lookup p (calls t2) /\
    mutating_calls (log (snd (main p b))) = [].
Proof.
  intros V.
  destruct (perform_module_operation_order p (initial b))
    as (t & E & r0 & t1 & t2 & t3 & t4 & -> & _ & _ & _ & Hv).
  fold (main p b) in E, Hv. cbn [initial log app] in E.
  destruct (Hv V) as (H1 & H2 & -> & ->).
  rewrite !app_nil_r in E. rewrite E.
  exists r0, t1, t2. repeat split; auto.
  apply no_mutation_mutating_calls. cbn.
  rewrite calls_app, no_mutation_app.
  rewrite (remote_system_calls_no_mutation _ (remote_system_phase_calls _ _ H1)).
  rewrite (rule_lookup_calls_no_mutation _ (rule_lookup_calls_of _ _ H2)).
  reflexivity.
Qed.

Lemma resolve_Return_falsy p st rsid d rid rname st1 :
  resolve p st = (Return (rsid, d, rid, rname), st1) ->
  truthy d = false ->
  rid = replication_rule_id p /\ rname = replication_rule_name p.
Proof.
  unfold resolve. intros H Hd.
  apply bind_Return in H as ([] & sta & _ & H).
  apply bind_Return in H as (rsid' & stb & _ & H).
  apply bind_Return in H as ([[d' rid'] rn'] & stc & Hlk & H).
  unfold ret in H. inversion H; subst; clear H.
  pose proof (lookup_block_Return p stb d rid rname) as Hid.
  rewrite Hlk in Hid. cbn [fst] in Hid.
  destruct (Hid eq_refl) as [(_ & -> & ->) | [Ht _]]; [auto | congruence].
Qed.

Lemma string_eqb_false_iff (s t : string) : String.eqb s t = false <-> s <> t.
Proof.
  split.
  - intros H E. apply String.eqb_eq in E. congruence.
  - intros H. destruct (String.eqb s t) eqn:E; [|reflexivity].
    apply String.eqb_eq in E. contradiction.
Qed.

Lemma create_block_checks p rsid d rid rname st :
  truthy d = false -> state p = VStr "present" ->
  rid = replication_rule_id p -> rname = replication_rule_name p ->
  (rname = VNone \/ exists s, rname = VStr s) ->
  (~ create_inputs_ok p ->
   exists msg,
     create_block p rsid d rid rname st = (FailJson msg None, st) /\
     validation_msg msg = true) /\
  (create_inputs_ok p ->
   create_block p rsid d rid rname st =
   (' (ch, d1) <- create_replication_rule rname (rpo p) rsid
                    (alert_threshold p) ;;
    rid1 <- lift (py_item d1 "id") ;;
    ret (ch, d1, rid1)) st).
Proof.
  intros Hd Hs -> -> Hty.
  assert (is_present p = true) as Hp
    by (unfold is_present; rewrite Hs; reflexivity).
  unfold create_block, create_inputs_ok. rewrite Hd, Hp. cbn [negb andb].
  unfold bind, when, lift, ret, fail_json.
  destruct (truthy (replication_rule_id p)) eqn:Hid.
  { split; [intros _ | intros (Hx & _); discriminate].
    eexists. split; reflexivity. }
  destruct Hty as [Hn | (s & Hn)]; rewrite Hn.
  { split; [intros _ | intros (_ & (s & Hx & _) & _); discriminate].
    eexists. split; reflexivity. }
  cbn [is_none py_strip py_eqb].
  destruct (String.eqb (strip s) "") eqn:Hb.
  { split; [intros _ | intros (_ & (s' & Hx & Hy) & _)].
    - eexists. split; reflexivity.
    - inversion Hx; subst s'. apply String.eqb_eq in Hb. contradiction. }
  destruct (truthy (remote_system p)) eqn:Hrs; cbn [negb].
  2: { split; [intros _ | intros (_ & _ & Hx & _); discriminate].
       eexists. split; reflexivity. }
  destruct (new_name p) eqn:Hnn; cbn [is_not_none is_none negb].
  2-6: split; [intros _ | intros (_ & _ & _ & Hx & _); discriminate];
       eexists; split; reflexivity.
  destruct (truthy (rpo p)) eqn:Hrpo.
  - split; [|intros _; reflexivity].
    intros Hnot. exfalso. apply Hnot. repeat split; auto.
    exists s. split; [reflexivity|]. apply string_eqb_false_iff. exact Hb.
  - split; [intros _ | intros (_ & _ & _ & _ & Hx); discriminate].
    unfold create_replication_rule, try_except, bind, when, fail_json.
    rewrite Hrpo. cbn. eexists. split; reflexivity.
Qed.




(** *** Runs on related arrays *)

(** Two runs of a computation that start from arrays in a relation the
    calls respect end the same way. *)
Section Related.

Variable Rb : B -> B -> Prop.

Definition sim (st st' : mstate) : Prop :=
  Rb (backend st) (backend st') /\
  cluster_name st = cluster_name st' /\
  cluster_global_id st = cluster_global_id st'.

Definition compatible (c : call) : Prop :=
  forall b b',
    Rb b b' ->
    fst (sdk c b) = fst (sdk c b') /\ Rb (snd (sdk c b)) (snd (sdk c b')).

Definition related {A} (m : M A) : Prop :=
  forall st st',
    sim st st' ->
    fst (m st) = fst (m st') /\ sim (snd (m st)) (snd (m st')).

Lemma related_ret {A} (a : A) : related (ret a).
Proof. intros st st' H. split; [reflexivity | exact H]. Qed.

Lemma related_fail_json {A} msg codes : related (@fail_json A msg codes).
Proof. intros st st' H. split; [reflexivity | exact H]. Qed.

Lemma related_lift {A} (r : res A) : related (lift r).
Proof. intros st st' H. unfold lift. destruct r; split; auto. Qed.

Lemma related_bind {A C} (m : M A) (f : A -> M C) :
  related m -> (forall a, related (f a)) -> related (bind m f).
Proof.
  intros Hm Hf st st' H. unfold bind.
  destruct (Hm st st' H) as [E S].
  destruct (m st) as [o1 s1], (m st') as [o2 s2]. cbn in E, S. subst o2.
  destruct o1 as [a | e | msg codes]; cbn; auto.
  apply Hf. exact S.
Qed.

Lemma related_try_except {A} (body : M A) handler :
  related body -> (forall e, related (handler e)) ->
  related (try_except body handler).
Proof.
  intros Hm Hh st st' H. unfold try_except.
  destruct (Hm st st' H) as [E S].
  destruct (body st) as [o1 s1], (body st') as [o2 s2]. cbn in E, S. subst o2.
  destruct o1 as [a | e | msg codes]; cbn; auto.
  apply Hh. exact S.
Qed.

Lemma related_sdk_call c : compatible c -> related (sdk_call c).
Proof.
  intros Hc st st' (Hb & Hn & Hg). unfold sdk_call.
  destruct (Hc _ _ Hb) as [E S].
  destruct (sdk c (backend st)) as [r1 b1], (sdk c (backend st')) as [r2 b2].
  cbn in E, S. subst r2.
  destruct r1; cbn; repeat split; auto.
Qed.

Lemma related_when c m : related m -> related (when c m).
Proof. intros H. destruct c; [exact H | apply related_ret]. Qed.

Lemma related_get_cluster_name : related get_cluster_name.
Proof.
  intros st st' (Hb & Hn & Hg). unfold get_cluster_name. cbn.
  rewrite Hn. repeat split; auto.
Qed.

Lemma related_get_cluster_global_id : related get_cluster_global_id.
Proof.
  intros st st' (Hb & Hn & Hg). unfold get_cluster_global_id. cbn.
  rewrite Hg. repeat split; auto.
Qed.

Lemma related_set_cluster_name v : related (set_cluster_name v).
Proof. intros st st' (Hb & Hn & Hg). cbn. repeat split; auto. Qed.

Lemma related_set_cluster_global_id v : related (set_cluster_global_id v).
Proof. intros st st' (Hb & Hn & Hg). cbn. repeat split; auto. Qed.

Ltac rel :=
  repeat (intros;
          match goal with
          | |- related (bind _ _) => apply related_bind
          | |- related (ret _) => apply related_ret
          | |- related (lift _) => apply related_lift
          | |- related (fail_json _ _) => apply related_fail_json
          | |- related (try_except _ _) => apply related_try_except
          | |- related (sdk_call _) => apply related_sdk_call
          | |- related (when _ _) => apply related_when
          | |- related get_cluster_name => apply related_get_cluster_name
          | |- related get_cluster_global_id =>
              apply related_get_cluster_global_id
          | |- related (set_cluster_name _) => apply related_set_cluster_name
          | |- related (set_cluster_global_id _) =>
              apply related_set_cluster_global_id
          | |- related (if ?c then _ else _) => destruct c
          | |- related (match ?x with _ => _ end) => destruct x
          end).

(** The calls that read clusters and remote systems, and those that read
    rules. *)
Definition is_env_read (c : call) : bool :=
  match c with
  | GetClusterList | GetRemoteSystemByName _ _ | GetRemoteSystemDetails _ =>
      true
  | _ => false
  end.

Definition is_rule_read (c : call) : bool :=
  match c with
  | GetReplicationRuleByName _ | GetReplicationRuleDetails _ => true
  | _ => false
  end.

Hypothesis env_reads : forall c, is_env_read c = true -> compatible c.

Lemma related_cluster_block : related cluster_block.
Proof. unfold cluster_block, get_clusters. rel. apply env_reads. reflexivity. Qed.

Lemma related_get_remote_system_details rs address :
  related (get_remote_system_details rs address).
Proof.
  unfold get_remote_system_details. rel; apply env_reads; reflexivity.
Qed.

Lemma related_remote_system_block p : related (remote_system_block p).
Proof.
  unfold remote_system_block. rel.
  apply related_get_remote_system_details.
Qed.

Hypothesis rule_reads : forall c, is_rule_read c = true -> compatible c.

Lemma related_get_replication_rule_details n i :
  related (get_replication_rule_details n i).
Proof.
  unfold get_replication_rule_details. rel; apply rule_reads; reflexivity.
Qed.

Lemma related_lookup_block p : related (lookup_block p).
Proof.
  unfold lookup_block. rel. apply related_get_replication_rule_details.
Qed.

Lemma related_show_output rid address : related (show_output rid address).
Proof.
  unfold show_output. rel.
  - apply related_get_replication_rule_details.
  - apply related_get_remote_system_details.
Qed.

Lemma related_output_block p ch ch' d rid st st' r s1 :
  sim st st' ->
  output_block p ch d rid st = (Return r, s1) ->
  exists s2,
    output_block p ch' d rid st'
    = (Return {| changed := ch';
                 replication_rule_details := replication_rule_details r |},
       s2) /\
    sim s1 s2.
Proof.
  intros Hs H. unfold output_block in *.
  apply bind_Return in H as (d' & sx & H1 & H2).
  unfold ret in H2. inversion H2; subst. cbn.
  assert (related (if is_present p && truthy d
                   then show_output rid (remote_system_address p)
                   else ret d)) as Hrel.
  { destruct (is_present p && truthy d);
      [apply related_show_output | apply related_ret]. }
  destruct (Hrel st st' Hs) as [E S]. rewrite H1 in E, S. cbn in E, S.
  unfold bind.
  destruct ((if is_present p && truthy d
             then show_output rid (remote_system_address p)
             else ret d) st') as [o2 s2].
  cbn in E, S. subst o2. exists s2. split; [reflexivity | exact S].
Qed.

End Related.

Lemma resolve_eq p st sa rsid sb d rid rn sc :
  cluster_block st = (Return tt, sa) ->
  remote_system_block p sa = (Return rsid, sb) ->
  lookup_block p sb = (Return (d, rid, rn), sc) ->
  resolve p st = (Return (rsid, d, rid, rn), sc).
Proof.
  intros H1 H2 H3. unfold resolve, bind. rewrite H1, H2, H3. reflexivity.
Qed.

Lemma resolve_Return p st rsid d rid rn sc :
  resolve p st = (Return (rsid, d, rid, rn), sc) ->
  exists sa sb,
    cluster_block st = (Return tt, sa) /\
    remote_system_block p sa = (Return rsid, sb) /\
    lookup_block p sb = (Return (d, rid, rn), sc).
Proof.
  unfold resolve. intros H.
  apply bind_Return in H as ([] & sa & H1 & H).
  apply bind_Return in H as (rsid' & sb & H2 & H).
  apply bind_Return in H as ([[d' rid'] rn'] & sc' & H3 & H).
  unfold ret in H. inversion H; subst. eauto.
Qed.

Lemma when_Return c m st u st' :
  when c m st = (Return u, st') ->
  (forall s, exists msg codes s', m s = (FailJson msg codes, s')) ->
  c = false /\ st' = st.
Proof.
  unfold when. destruct c; intros H Hm.
  - destruct (Hm st) as (msg & codes & s' & E). congruence.
  - unfold ret in H. inversion H. auto.
Qed.

(** The create block, when it is entered and returns. *)
Lemma create_block_Return p rsid d rid rn st ch d1 rid1 s3 :
  create_block p rsid d rid rn st = (Return (ch, d1, rid1), s3) ->
  truthy d = false -> state p = VStr "present" ->
  truthy rid = false /\
  (exists s, rn = VStr s /\ strip s <> "") /\
  is_none (new_name p) = true /\
  create_replication_rule rn (rpo p) rsid (alert_threshold p) st
  = (Return (ch, d1), s3) /\
  py_item d1 "id" = inr rid1.
Proof.
  intros H Hd Hs.
  assert (is_present p = true) as Hp
    by (unfold is_present; rewrite Hs; reflexivity).
  unfold create_block in H. rewrite Hd, Hp in H. cbn [negb andb] in H.
  assert (forall A msg, forall s : mstate,
             exists m c s', @fail_json A msg None s = (FailJson m c, s'))
    as Hfail by (intros; unfold fail_json; eauto).
  apply bind_Return in H as ([] & s1 & H1 & H).
  apply when_Return in H1 as [Hrid ->]; [|apply Hfail].
  apply bind_Return in H as (blank & s2 & H2 & H).
  apply bind_Return in H as ([] & s3' & H3 & H).
  apply when_Return in H3 as [-> ->]; [|apply Hfail].
  apply bind_Return in H as ([] & s4 & H4 & H).
  apply when_Return in H4 as [_ ->]; [|apply Hfail].
  apply bind_Return in H as ([] & s5 & H5 & H).
  apply when_Return in H5 as [Hnn ->]; [|apply Hfail].
  apply bind_Return in H as ([ch' d1'] & s6 & H6 & H).
  apply bind_Return in H as (rid1' & s7 & H7 & H).
  unfold ret in H. inversion H; subst; clear H.
  unfold lift in H7. destruct (py_item d1 "id") eqn:Hi; inversion H7; subst.
  assert ((exists s, rn = VStr s /\ strip s <> "") /\ s2 = st) as [Hname ->].
  { destruct (is_none rn) eqn:Hn.
    - unfold ret in H2. inversion H2.
    - apply bind_Return in H2 as (stripped & sx & Hx & Hy).
      unfold lift in Hx. destruct rn; cbn in Hx; inversion Hx; subst.
      unfold ret in Hy. inversion Hy as [[Hb Hst]]. cbn in Hb.
      split; [|reflexivity].
      exists s. split; [reflexivity|].
      intros E. rewrite E in Hb. discriminate. }
  split; [exact Hrid|]. split; [exact Hname|].
  split; [|split; [exact H6 | reflexivity]].
  unfold is_not_none in Hnn. apply negb_false_iff in Hnn. exact Hnn.
Qed.

(** The blocks after the create block when there is a rule and the state is
    present. *)
Lemma after_create_existing p rsid ch d rid name st :
  truthy d = true -> state p = VStr "present" -> desired_name p d name ->
  (' (changed0, rep_rule_details) <- delete_block p ch d rid ;;
   ' (changed1, rep_rule_details0) <-
     update_block p rsid changed0 rep_rule_details rid ;;
   output_block p changed1 rep_rule_details0 rid) st =
  match modify_replication_rule_required d
          (new_rep_rule_dict name (rpo p) rsid (alert_threshold p)) with
  | inr true =>
      (' (changed, rep_rule_details) <-
         modify_replication_rule rid (new_name p) (rpo p) rsid
           (alert_threshold p) ;;
       output_block p changed rep_rule_details rid) st
  | inr false => output_block p ch d rid st
  | inl e => (Raise e, st)
  end.
Proof.
  intros Hd Hs Hn.
  assert (is_present p = true) as Hp
    by (unfold is_present; rewrite Hs; reflexivity).
  assert (is_absent p = false) as Ha by (apply present_not_absent; exact Hp).
  unfold delete_block, update_block, bind, lift, ret.
  repeat first [rewrite Hd | rewrite Hp | rewrite Ha | progress cbn [negb andb]].
  destruct Hn as [[Hnn ->] | [Hnn Hi]]; rewrite Hnn; [|rewrite Hi].
  - destruct (modify_replication_rule_required _ _) as [e | []]; reflexivity.
  - destruct (modify_replication_rule_required _ _) as [e | []]; reflexivity.
Qed.


(** ** Further properties of the module *)

(** The rule the lookup found completes the id and the name the request
    left out. *)
Lemma resolve_found p st rsid d rid rn st1 :
  resolve p st = (Return (rsid, d, rid, rn), st1) ->
  truthy d = true ->
  (if truthy (replication_rule_id p) then rid = replication_rule_id p
   else py_item d "id" = inr rid) /\
  (if truthy (replication_rule_name p) then rn = replication_rule_name p
   else py_item d "name" = inr rn).
Proof.
  intros H Hd.
  apply resolve_Return in H as (sa & sb & _ & _ & H).
  unfold lookup_block in H.
  apply bind_Return in H as (d' & s1 & H1 & H).
  apply bind_Return in H as (rid' & s2 & H2 & H).
  apply bind_Return in H as (rn' & s3 & H3 & H).
  unfold ret in H. inversion H; subst; clear H.
  rewrite Hd in H2, H3. cbn [andb] in H2, H3.
  split.
  - destruct (truthy (replication_rule_id p)); cbn [negb] in H2.
    + unfold ret in H2. inversion H2. reflexivity.
    + unfold lift in H2. destruct (py_item d "id"); inversion H2. reflexivity.
  - destruct (truthy (replication_rule_name p)); cbn [negb] in H3.
    + unfold ret in H3. inversion H3. reflexivity.
    + unfold lift in H3. destruct (py_item d "name"); inversion H3. reflexivity.
Qed.

(** X1: with state absent and a rule found, the invocation makes one delete
    call, for the id given or else the id of the rule found.  When the call
    returns the invocation reports changed true and no rule, without a
    further call; when it raises, the module fails with the message of the
    delete, which carries the id, the cluster name and id and the error. *)
Theorem existing_rule_is_deleted p b rsid d rid rname st1 r b1 :
  resolve p (initial b) = (Return (rsid, d, rid, rname), st1) ->
  truthy d = true ->
  state p = VStr "absent" ->
  sdk (DeleteReplicationRule rid) (backend st1) = (r, b1) ->
  (if truthy (replication_rule_id p) then rid = replication_rule_id p
   else py_item d "id" = inr rid) /\
  main p b =
    (match r with
     | Returns _ =>
         Return {| changed := true; replication_rule_details := VNone |}
     | Raises e =>
         FailJson
           (msg_delete_failed rid (cluster_name st1) (cluster_global_id st1) e)
           (Some e)
     end,
     after_call st1 b1 (DeleteReplicationRule rid) r).
Proof.
  intros Hr Hd Hs Hsdk.
  split; [exact (proj1 (resolve_found _ _ _ _ _ _ _ Hr Hd))|].
  assert (is_absent p = true) as Ha
    by (unfold is_absent; rewrite Hs; reflexivity).
  assert (is_present p = false) as Hp
    by (unfold is_present; rewrite Hs; reflexivity).
  unfold main, perform_module_operation.
  rewrite (bind_eq_Return _ _ _ _ _ Hr).
  unfold reconcile, create_block, delete_block, delete_replication_rule,
    update_block, output_block, try_except, bind, ret, sdk_call, fail_json,
    get_cluster_name, get_cluster_global_id, after_call.
  repeat first [rewrite Hd | rewrite Ha | rewrite Hp | rewrite Hsdk
                | progress cbn [negb andb truthy] ].
  destruct r; cbn; rewrite ?Hp; reflexivity.
Qed.


(** X2: with state present, a rule found and a desired set that differs
    from it, the invocation makes one modify call.  The call carries the id
    in hand, [new_name] as it was given (None when the rule is not renamed)
    and every other desired attribute as it was given, set or not.  When the
    call raises, the module fails with the message of the modify; when it
    returns, its answer takes the place of the rule: an empty answer is
    reported as it is, with changed true and no further call, and any other
    answer is shown by a fresh fetch.  An invocation that returns reports
    changed true. *)
Theorem differing_rule_is_modified p b rsid d rid rname st1 name r b1 :
  resolve p (initial b) = (Return (rsid, d, rid, rname), st1) ->
  truthy d = true ->
  state p = VStr "present" ->
  desired_name p d name ->
  modify_replication_rule_required d
    (new_rep_rule_dict name (rpo p) rsid (alert_threshold p)) = inr true ->
  sdk (ModifyReplicationRule rid (new_name p) (rpo p) rsid (alert_threshold p))
    (backend st1) = (r, b1) ->
  let st2 :=
    after_call st1 b1
      (ModifyReplicationRule rid (new_name p) (rpo p) rsid (alert_threshold p))
      r in
  match r with
  | Raises e =>
      main p b =
        (FailJson
           (msg_modify_failed rid (cluster_name st1) (cluster_global_id st1) e)
           (Some e), st2)
  | Returns resp =>
      main p b = output_block p true resp rid st2 /\
      (truthy resp = false ->
       main p b =
         (Return {| changed := true; replication_rule_details := resp |},
          st2)) /\
      (forall x, fst (main p b) = Return x -> changed x = true)
  end.
Proof.
  intros Hr Hd Hs Hn Hm Hsdk st2.
  assert (is_present p = true) as Hp
    by (unfold is_present; rewrite Hs; reflexivity).
  assert (main p b =
          (' (changed, rep_rule_details) <-
             modify_replication_rule rid (new_name p) (rpo p) rsid
               (alert_threshold p) ;;
           output_block p changed rep_rule_details rid) st1) as Hmain.
  { unfold main, perform_module_operation.
    rewrite (bind_eq_Return _ _ _ _ _ Hr).
    rewrite (reconcile_existing p rsid d rid rname name st1 Hd Hs Hn), Hm.
    reflexivity. }
  rewrite Hmain.
  unfold modify_replication_rule, try_except, bind, sdk_call, ret, fail_json,
    get_cluster_name, get_cluster_global_id.
  rewrite Hsdk. destruct r as [resp | e]; [|reflexivity].
  fold st2. change (after_call st1 b1 _ _) with st2.
  split; [reflexivity|]. split.
  - intros Hf. unfold output_block, bind, ret. rewrite Hf, Hp. reflexivity.
  - intros x Hx.
    destruct (output_block p true resp rid _) as [o st'] eqn:E.
    cbn in Hx. subst o. apply output_block_Return in E as [E _]. exact E.
Qed.


(** X3: on the create path with inputs that pass the checks, an error of the
    create call ends the invocation with the message of the create, which
    carries the cluster name and id and the error.  So does an error of the
    fetch that reads the created rule back, a "404" included: the module
    then reports the creation as failed although the create call
    returned. *)
Theorem create_failures_are_fatal p b rsid d rid rname st1 r b1 :
  resolve p (initial b) = (Return (rsid, d, rid, rname), st1) ->
  truthy d = false ->
  state p = VStr "present" ->
  create_inputs_ok p ->
  let c :=
    CreateReplicationRule (replication_rule_name p) (rpo p) rsid
      (alert_threshold p) in
  sdk c (backend st1) = (r, b1) ->
  let st2 := after_call st1 b1 c r in
  let failed e :=
    FailJson (msg_create_failed (cluster_name st1) (cluster_global_id st1) e)
      (Some e) in
  match r with
  | Raises e => main p b = (failed e, st2)
  | Returns resp =>
      forall i e b2,
        py_get resp "id" = inr i ->
        sdk (GetReplicationRuleDetails i) b1 = (Raises e, b2) ->
        main p b =
          (failed e,
           after_call st2 b2 (GetReplicationRuleDetails i) (Raises e))
  end.
Proof.
  intros Hr Hd Hs Hok c Hsdk st2 failed.
  destruct (resolve_Return_falsy _ _ _ _ _ _ _ Hr Hd) as [Hrid Hrn].
  assert (rname = VNone \/ exists s, rname = VStr s) as Hty.
  { destruct Hok as (_ & (s & Hn & _) & _). right. exists s. congruence. }
  destruct (create_block_checks p rsid d rid rname st1 Hd Hs Hrid Hrn Hty)
    as [_ Hc].
  specialize (Hc Hok).
  destruct Hok as (_ & _ & _ & _ & Hrpo).
  unfold main, perform_module_operation.
  rewrite (bind_eq_Return _ _ _ _ _ Hr).
  unfold reconcile. rewrite bind_run, Hc. subst rname. fold c.
  unfold create_replication_rule, try_except, bind, when, sdk_call, lift, ret,
    fail_json, get_cluster_name, get_cluster_global_id.
  rewrite Hrpo. cbn [negb]. fold c. rewrite Hsdk.
  destruct r as [resp | e]; [|reflexivity].
  intros i e b2 Hi Hsdk2. rewrite Hi. cbn [backend]. rewrite Hsdk2.
  reflexivity.
Qed.


(** X4: showing a rule, with state present and a rule in hand.  When the
    fetch of the rule answers "404" the lookup yields None and the
    subscript on it raises a TypeError that no handler catches: the
    invocation ends on that exception, not on a failure message.  The same
    happens, without a further call, when the rule fetched has None as its
    [remote_system_id]: no remote system is looked up and the subscript for
    its name is on None. *)
Theorem shown_rule_must_exist p changed d rid st r b1 :
  state p = VStr "present" ->
  truthy d = true ->
  sdk (GetReplicationRuleDetails rid) (backend st) = (r, b1) ->
  (exists e, r = Raises e /\ is_not_found e = true) \/
  (exists d', r = Returns (VDict d') /\
              dict_get d' "remote_system_id" = Some VNone) ->
  output_block p changed d rid st =
    (Raise TypeError, after_call st b1 (GetReplicationRuleDetails rid) r).
Proof.
  intros Hs Hd Hsdk Hr.
  assert (is_present p = true) as Hp
    by (unfold is_present; rewrite Hs; reflexivity).
  unfold output_block, show_output, get_replication_rule_details,
    get_remote_system_details, try_except, bind, sdk_call, lift, ret,
    fail_json, get_cluster_name, after_call.
  rewrite Hp, Hd. cbn [andb truthy]. rewrite Hsdk.
  destruct Hr as [(e & -> & Hnf) | (d' & -> & Hrs)].
  - rewrite Hnf. reflexivity.
  - assert (exists found, and_len (Nat.ltb 0) (VDict d') = inr found)
      as [found ->].
    { unfold and_len. destruct (truthy (VDict d')); cbn; eauto. }
    destruct found; cbn; rewrite Hrs; reflexivity.
Qed.


(** Whether a record of calls holds a create, a modify or a delete. *)
Definition mutated (t : list event) : bool := existsb is_mutating (calls t).

Lemma mutated_app t1 t2 : mutated (t1 ++ t2) = mutated t1 || mutated t2.
Proof. unfold mutated. rewrite calls_app. apply existsb_app. Qed.

Lemma no_mutation_mutated t : no_mutation (calls t) = true -> mutated t = false.
Proof.
  unfold mutated, no_mutation. induction (calls t) as [|c l IH]; cbn.
  - reflexivity.
  - destruct (is_mutating c); cbn; [discriminate | exact IH].
Qed.

Lemma create_block_changed p rsid d rid rname :
  appends
    (fun o t => forall x, o = Return x -> fst (fst x) = mutated t)
    (create_block p rsid d rid rname).
Proof.
  intros st. unfold create_block, create_replication_rule.
  run_all; run_solve; intros x Hx; inversion Hx; reflexivity.
Qed.

Lemma delete_block_changed p ch d rid :
  appends
    (fun o t => forall x, o = Return x -> fst x = ch || mutated t)
    (delete_block p ch d rid).
Proof.
  intros st. unfold delete_block, delete_replication_rule.
  run_all; run_solve; intros x Hx; inversion Hx; cbn;
    rewrite ?orb_true_r, ?orb_false_r; reflexivity.
Qed.

Lemma update_block_changed p rsid ch d rid :
  appends
    (fun o t => forall x, o = Return x -> fst x = ch || mutated t)
    (update_block p rsid ch d rid).
Proof.
  intros st. unfold update_block, modify_replication_rule.
  run_all; run_solve; intros x Hx; inversion Hx; cbn;
    rewrite ?orb_true_r, ?orb_false_r; reflexivity.
Qed.

(** X5: an invocation that succeeds reports changed true exactly when it
    made a create, a modify or a delete call. *)
Theorem changed_iff_mutation p b r st' :
  main p b = (Return r, st') ->
  changed r = mutated (log st').
Proof.
  unfold main, perform_module_operation. intros H.
  apply bind_Return in H as ([[[rsid d] rid] rn] & st1 & Hres & H).
  destruct (resolve_no_mutation p (initial b)) as (t0 & E0 & H0).
  rewrite Hres in E0. cbn [snd initial log app] in E0.
  unfold reconcile in H.
  apply bind_Return in H as ([[ch1 d1] rid1] & st2 & Hc & H).
  apply bind_Return in H as ([ch2 d2] & st3 & Hd & H).
  apply bind_Return in H as ([ch3 d3] & st4 & Hu & Ho).
  destruct (create_block_changed p rsid d rid rn st1) as (t1 & E1 & H1).
  rewrite Hc in E1, H1. cbn [fst snd] in E1, H1.
  specialize (H1 _ eq_refl). cbn [fst] in H1.
  destruct (delete_block_changed p ch1 d1 rid1 st2) as (t2 & E2 & H2).
  rewrite Hd in E2, H2. cbn [fst snd] in E2, H2.
  specialize (H2 _ eq_refl). cbn [fst] in H2.
  destruct (update_block_changed p rsid ch2 d2 rid1 st3) as (t3 & E3 & H3).
  rewrite Hu in E3, H3. cbn [fst snd] in E3, H3.
  specialize (H3 _ eq_refl). cbn [fst] in H3.
  destruct (output_block_calls p ch3 d3 rid1 st4) as (t4 & E4 & H4 & _).
  rewrite Ho in E4. cbn [fst snd] in E4.
  apply output_block_Return in Ho as [-> _].
  rewrite E4, E3, E2, E1, E0, !mutated_app.
  rewrite (no_mutation_mutated _ H0).
  rewrite (no_mutation_mutated _ (output_phase_calls_no_mutation _ H4)).
  rewrite H3, H2, H1, orb_false_r. reflexivity.
Qed.


(** The calls a state admits: a create or a modify with state present, a
    delete with state absent, and every call that only reads. *)
Definition allowed_by_state (p : params) (c : call) : bool :=
  match c with
  | CreateReplicationRule _ _ _ _ => is_present p
  | ModifyReplicationRule _ _ _ _ _ => is_present p
  | DeleteReplicationRule _ => is_absent p
  | _ => true
  end.

Definition all_allowed (p : params) {A} (o : outcome A) (t : list event)
  : Prop :=
  forallb (allowed_by_state p) (calls t) = true.

Lemma all_allowed_bind p {A C} (m : M A) (f : A -> M C) :
  appends (all_allowed p) m ->
  (forall a, appends (all_allowed p) (f a)) ->
  appends (all_allowed p) (bind m f).
Proof.
  intros Hm Hf.
  apply (appends_bind m f (all_allowed p) (fun _ => all_allowed p));
    auto.
  intros a t1 o t2 H1 H2. unfold all_allowed in *.
  rewrite calls_app, forallb_app, H1, H2. reflexivity.
Qed.

Lemma no_mutation_allowed p t :
  no_mutation t = true -> forallb (allowed_by_state p) t = true.
Proof.
  unfold no_mutation. induction t as [|c t IH]; cbn; [reflexivity|].
  intros H. apply andb_true_iff in H as [Hc Ht]. rewrite (IH Ht).
  destruct c; cbn in *; try discriminate; reflexivity.
Qed.

Ltac allowed_leaf :=
  unfold all_allowed; cbn;
  repeat match goal with
         | H : _ && _ = true |- _ => apply andb_true_iff in H; destruct H
         end;
  repeat match goal with
         | H : is_present _ = true |- _ => rewrite H
         | H : is_absent _ = true |- _ => rewrite H
         end;
  reflexivity.

Lemma create_block_allowed p rsid d rid rname :
  appends (all_allowed p) (create_block p rsid d rid rname).
Proof.
  intros st. unfold create_block, create_replication_rule.
  run_all; run_solve; allowed_leaf.
Qed.

Lemma delete_block_allowed p ch d rid :
  appends (all_allowed p) (delete_block p ch d rid).
Proof.
  intros st. unfold delete_block, delete_replication_rule.
  run_all; run_solve; allowed_leaf.
Qed.

Lemma update_block_allowed p rsid ch d rid :
  appends (all_allowed p) (update_block p rsid ch d rid).
Proof.
  intros st. unfold update_block, modify_replication_rule.
  run_all; run_solve; allowed_leaf.
Qed.

Lemma output_block_allowed p ch d rid :
  appends (all_allowed p) (output_block p ch d rid).
Proof.
  eapply appends_weaken; [apply output_block_calls|].
  intros o t [H _]. apply no_mutation_allowed.
  apply output_phase_calls_no_mutation. exact H.
Qed.

Lemma resolve_allowed p : appends (all_allowed p) (resolve p).
Proof.
  intros st. destruct (resolve_no_mutation p st) as (t & E & H).
  exists t. split; [exact E|]. apply no_mutation_allowed. exact H.
Qed.

(** X6: the state decides which changes an invocation can make.  A create
    or a modify call is made only with state present and a delete call only
    with state absent; with any other state no call changes the array. *)
Theorem state_selects_the_mutation p b :
  forallb (allowed_by_state p) (calls (log (snd (main p b)))) = true.
Proof.
  assert (appends (all_allowed p) (perform_module_operation p)) as H.
  { unfold perform_module_operation.
    apply all_allowed_bind; [apply resolve_allowed|].
    intros [[[rsid d] rid] rn]. unfold reconcile.
    apply all_allowed_bind; [apply create_block_allowed|].
    intros [[ch1 d1] rid1].
    apply all_allowed_bind; [apply delete_block_allowed|].
    intros [ch2 d2].
    apply all_allowed_bind; [apply update_block_allowed|].
    intros [ch3 d3]. apply output_block_allowed. }
  destruct (H (initial b)) as (t & E & Ht).
  unfold main. rewrite E. exact Ht.
Qed.









(** The strings [str.strip()] empties: those made of whitespace only. *)
Definition blank (s : string) : bool :=
  forallb is_space (list_ascii_of_string s).

Lemma lstrip_blank s : blank s = true -> lstrip s = "".
Proof.
  unfold blank. induction s as [|c s IH]; cbn; [reflexivity|].
  intros H. apply andb_true_iff in H as [Hc Hs]. rewrite Hc. auto.
Qed.

Lemma rstrip_empty s : rstrip s = "" -> blank s = true.
Proof.
  unfold blank. induction s as [|c s IH]; cbn; [reflexivity|].
  destruct (rstrip s) eqn:E; [|discriminate].
  destruct (is_space c); [|discriminate].
  intros _. cbn. apply IH. reflexivity.
Qed.

Lemma lstrip_head s :
  blank s = true \/ exists c r, lstrip s = String c r /\ is_space c = false.
Proof.
  unfold blank. induction s as [|c s IH]; cbn; [auto|].
  destruct (is_space c) eqn:E; [exact IH|].
  right. exists c, s. auto.
Qed.

Lemma strip_blank s : strip s = "" <-> blank s = true.
Proof.
  unfold strip. split.
  - intros H.
    destruct (lstrip_head s) as [E | (c & r & E & Hc)]; [exact E|].
    rewrite E in H. apply rstrip_empty in H. unfold blank in H. cbn in H.
    rewrite Hc in H. discriminate.
  - intros H. rewrite (lstrip_blank _ H). reflexivity.
Qed.

(** X8: the checks of the create path, in the order the module makes them.
    With no rule found and state present, a request that gives
    replication_rule_id fails with "name is required" whatever else it
    gives; otherwise one whose name is missing or made of whitespace only
    fails with "Invalid rep_rule_name"; otherwise one without remote_system
    fails with "remote_system is required"; otherwise one with new_name
    fails with "Renaming ... is invalid during creation"; otherwise one
    without rpo fails with "rpo is required".  Each failure comes after the
    lookups and before any other call. *)
Theorem create_checks_in_order p b rsid d rid rname st1 :
  resolve p (initial b) = (Return (rsid, d, rid, rname), st1) ->
  truthy d = false ->
  state p = VStr "present" ->
  let fails msg := main p b = (FailJson msg None, st1) in
  (truthy (replication_rule_id p) = true -> fails msg_name_required) /\
  (truthy (replication_rule_id p) = false ->
   (replication_rule_name p = VNone \/
    exists s, replication_rule_name p = VStr s /\ blank s = true) ->
   fails msg_invalid_name) /\
  (truthy (replication_rule_id p) = false ->
   forall s, replication_rule_name p = VStr s -> blank s = false ->
     (truthy (remote_system p) = false -> fails msg_remote_system_required) /\
     (truthy (remote_system p) = true -> new_name p <> VNone ->
      fails msg_new_name_at_creation) /\
     (truthy (remote_system p) = true -> new_name p = VNone ->
      truthy (rpo p) = false -> fails msg_rpo_required)).
Proof.
  intros Hr Hd Hs fails.
  destruct (resolve_Return_falsy _ _ _ _ _ _ _ Hr Hd) as [Hrid Hrn].
  subst rid rname.
  assert (is_present p = true) as Hp
    by (unfold is_present; rewrite Hs; reflexivity).
  assert (forall msg,
             create_block p rsid d (replication_rule_id p)
               (replication_rule_name p) st1 = (FailJson msg None, st1) ->
             fails msg) as Hfails.
  { intros msg Hc. unfold fails, main, perform_module_operation.
    rewrite (bind_eq_Return _ _ _ _ _ Hr).
    unfold reconcile. rewrite bind_run, Hc. reflexivity. }
  split; [|split].
  - intros Hid. apply Hfails.
    unfold create_block, bind, when, lift, ret, fail_json.
    rewrite Hd, Hp, Hid. reflexivity.
  - intros Hid Hn. apply Hfails.
    unfold create_block, bind, when, lift, ret, fail_json.
    rewrite Hd, Hp, Hid. cbn [negb andb].
    destruct Hn as [Hn | (s & Hn & Hb)]; rewrite Hn; [reflexivity|].
    cbn [is_none py_strip py_eqb].
    apply strip_blank in Hb. rewrite Hb. reflexivity.
  - intros Hid s Hn Hb.
    assert (String.eqb (strip s) "" = false) as Hne.
    { apply string_eqb_false_iff. intros E. apply strip_blank in E.
      congruence. }
    split; [|split].
    + intros Hrs. apply Hfails.
      unfold create_block, bind, when, lift, ret, fail_json.
      rewrite Hd, Hp, Hid, Hn. cbn [negb andb is_none py_strip py_eqb].
      rewrite Hne, Hrs. reflexivity.
    + intros Hrs Hnn. apply Hfails.
      unfold create_block, bind, when, lift, ret, fail_json.
      rewrite Hd, Hp, Hid, Hn. cbn [negb andb is_none py_strip py_eqb].
      rewrite Hne, Hrs. cbn [negb].
      apply is_not_none_true in Hnn. rewrite Hnn. reflexivity.
    + intros Hrs Hnn Hrpo. apply Hfails.
      unfold create_block, bind, when, lift, ret, fail_json.
      rewrite Hd, Hp, Hid, Hn. cbn [negb andb is_none py_strip py_eqb].
      rewrite Hne, Hrs, Hnn. cbn [negb is_not_none is_none].
      unfold create_replication_rule, try_except, bind, when, fail_json.
      rewrite Hrpo. reflexivity.
Qed.


(** A computation that leaves the two instance attributes as they are. *)
Definition keeps_names {A} (m : M A) : Prop :=
  forall st,
    cluster_name (snd (m st)) = cluster_name st /\
    cluster_global_id (snd (m st)) = cluster_global_id st.

Lemma keeps_names_bind {A C} (m : M A) (f : A -> M C) :
  keeps_names m -> (forall a, keeps_names (f a)) -> keeps_names (bind m f).
Proof.
  intros Hm Hf st. unfold bind.
  destruct (Hm st) as [H1 H2].
  destruct (m st) as [[a | e | msg codes] st1]; cbn [snd] in *; auto.
  destruct (Hf a st1) as [H3 H4]. split; congruence.
Qed.

Lemma remote_system_block_keeps_names p : keeps_names (remote_system_block p).
Proof.
  intros st. unfold remote_system_block, get_remote_system_details.
  run_all; split; reflexivity.
Qed.

Lemma lookup_block_keeps_names p : keeps_names (lookup_block p).
Proof.
  intros st. unfold lookup_block, get_replication_rule_details.
  run_all; split; reflexivity.
Qed.

Lemma create_block_keeps_names p rsid d rid rname :
  keeps_names (create_block p rsid d rid rname).
Proof.
  intros st. unfold create_block, create_replication_rule.
  run_all; split; reflexivity.
Qed.

Lemma delete_block_keeps_names p ch d rid :
  keeps_names (delete_block p ch d rid).
Proof.
  intros st. unfold delete_block, delete_replication_rule.
  run_all; split; reflexivity.
Qed.

Lemma update_block_keeps_names p rsid ch d rid :
  keeps_names (update_block p rsid ch d rid).
Proof.
  intros st. unfold update_block, modify_replication_rule.
  run_all; split; reflexivity.
Qed.

Lemma output_block_keeps_names p ch d rid :
  keeps_names (output_block p ch d rid).
Proof.
  intros st.
  unfold output_block, show_output, get_replication_rule_details,
    get_remote_system_details.
  run_all; split; reflexivity.
Qed.

Lemma reconcile_keeps_names p rsid d rid rname :
  keeps_names (reconcile p rsid d rid rname).
Proof.
  unfold reconcile.
  apply keeps_names_bind; [apply create_block_keeps_names|].
  intros [[ch1 d1] rid1].
  apply keeps_names_bind; [apply delete_block_keeps_names|].
  intros [ch2 d2].
  apply keeps_names_bind; [apply update_block_keeps_names|].
  intros [ch3 d3]. apply output_block_keeps_names.
Qed.

Lemma cluster_block_Return st :
  forall sa,
    cluster_block st = (Return tt, sa) ->
    exists l b0 c0,
      sdk GetClusterList (backend st) = (Returns l, b0) /\
      py_index l 0 = inr c0 /\
      py_item c0 "name" = inr (cluster_name sa) /\
      py_item c0 "id" = inr (cluster_global_id sa).
Proof.
  unfold cluster_block, get_clusters.
  run_all; intros sa H; inversion H; subst; clear H; cbn.
  do 3 eexists. repeat split; eauto.
Qed.

(** X9: the cluster an invocation names.  Once the lookups are done, the
    cluster name and the cluster id the module holds are the [name] and the
    [id] of the first entry of the cluster list, whatever else the list
    holds, and they stay so until the invocation ends: these are the values
    the failure messages of create, modify and delete carry. *)
Theorem first_cluster_names_the_array p b rsid d rid rname st1 :
  resolve p (initial b) = (Return (rsid, d, rid, rname), st1) ->
  exists l b0 c0,
    sdk GetClusterList b = (Returns l, b0) /\
    py_index l 0 = inr c0 /\
    py_item c0 "name" = inr (cluster_name st1) /\
    py_item c0 "id" = inr (cluster_global_id st1) /\
    cluster_name (snd (main p b)) = cluster_name st1 /\
    cluster_global_id (snd (main p b)) = cluster_global_id st1.
Proof.
  intros Hr.
  destruct (resolve_Return _ _ _ _ _ _ _ Hr) as (sa & sb & Hc & Hrs & Hl).
  apply cluster_block_Return in Hc as (l & b0 & c0 & Hsdk & Hi & Hn & Hg).
  destruct (remote_system_block_keeps_names p sa) as [N1 G1].
  destruct (lookup_block_keeps_names p sb) as [N2 G2].
  rewrite Hrs in N1, G1. rewrite Hl in N2, G2. cbn [snd] in *.
  exists l, b0, c0. cbn [initial backend] in Hsdk.
  split; [exact Hsdk|]. split; [exact Hi|].
  split; [congruence|]. split; [congruence|].
  unfold main, perform_module_operation.
  rewrite (bind_eq_Return _ _ _ _ _ Hr).
  apply reconcile_keeps_names.
Qed.


(** X10: resolution of a remote system given by id.  A token that
    [name_or_id] does not class as a name is fetched once by id, the address
    is not used, and the answer is the remote system as it comes; an error
    of the fetch, a "404" included, ends the invocation with "Failed to get
    the remote system".  A token that is None or empty is resolved to None
    without a call. *)
Theorem remote_system_by_id rs address st :
  (truthy rs = false ->
   get_remote_system_details rs address st = (Return VNone, st)) /\
  (truthy rs = true ->
   py_eqb (name_or_id rs) (VStr "NAME") = false ->
   forall r b1,
     sdk (GetRemoteSystemDetails rs) (backend st) = (r, b1) ->
     get_remote_system_details rs address st =
       (match r with
        | Returns v => Return v
        | Raises e => FailJson (msg_remote_system_failed e) (Some e)
        end,
        after_call st b1 (GetRemoteSystemDetails rs) r)).
Proof.
  split.
  - intros Hf.
    unfold get_remote_system_details, try_except, ret.
    destruct (is_not_none rs && py_eqb (name_or_id rs) (VStr "NAME"));
      destruct (is_not_none rs && negb (py_eqb (name_or_id rs) (VStr "NAME")));
      rewrite ?Hf; reflexivity.
  - intros Ht Hn r b1 Hsdk.
    assert (is_not_none rs = true) as Hnn
      by (destruct rs; auto; discriminate).
    unfold get_remote_system_details, try_except, bind, sdk_call, ret,
      fail_json, after_call.
    rewrite Hnn, Hn. cbn [andb negb truthy]. rewrite Ht, Hsdk.
    destruct r; reflexivity.
Qed.


Lemma remote_system_block_not_given p st rsid st' :
  remote_system_block p st = (Return rsid, st') ->
  truthy (remote_system p) = false ->
  rsid = VNone /\ st' = st.
Proof.
  unfold remote_system_block, ret. intros H Hf. rewrite Hf in H.
  inversion H. auto.
Qed.

Lemma py_neb_VStr_same s : py_neb (VStr s) (VStr s) = false.
Proof. unfold py_neb. cbn. rewrite String.eqb_refl. reflexivity. Qed.

(** X11: a request with state present that gives no attribute to set (no
    new_name, rpo, alert_threshold or remote_system) never modifies the rule
    it finds: the desired set holds the rule's own name and None for the
    rest, the comparison passes over the None entries, and the invocation
    goes straight on to show the rule, with no create, modify or delete
    call. *)
Theorem request_without_attributes_only_reads p b rsid d rid rname st1 s :
  resolve p (initial b) = (Return (rsid, VDict d, rid, rname), st1) ->
  state p = VStr "present" ->
  dict_get d "name" = Some (VStr s) ->
  new_name p = VNone ->
  rpo p = VNone ->
  alert_threshold p = VNone ->
  truthy (remote_system p) = false ->
  rsid = VNone /\
  modify_replication_rule_required (VDict d)
    (new_rep_rule_dict (VStr s) VNone VNone VNone) = inr false /\
  main p b = output_block p false (VDict d) rid st1 /\
  mutating_calls (log (snd (main p b))) = [].
Proof.
  intros Hr Hs Hname Hnn Hrpo Hat Hrs.
  assert (rsid = VNone) as ->.
  { destruct (resolve_Return _ _ _ _ _ _ _ Hr) as (sa & sb & _ & H & _).
    apply (remote_system_block_not_given _ _ _ _ H Hrs). }
  assert (truthy (VDict d) = true) as Ht
    by (destruct d; [discriminate | reflexivity]).
  assert (desired_name p (VDict d) (VStr s)) as Hn.
  { right. rewrite Hnn. split; [reflexivity|]. cbn. rewrite Hname.
    reflexivity. }
  assert (modify_replication_rule_required (VDict d)
            (new_rep_rule_dict (VStr s) VNone VNone VNone) = inr false) as Hf.
  { cbn [modify_replication_rule_required].
    destruct (modify_required_loop _ _ _) eqn:E; [|reflexivity].
    exfalso. apply modify_required_loop_true in E as (key & _ & Hk).
    destruct Hk as (cur & new & Hc & Hp & Hne & Hneq).
    unfold new_rep_rule_dict in Hp. cbn [dict_get] in Hp.
    destruct (String.eqb "name" key) eqn:E1.
    - apply String.eqb_eq in E1. subst key. inversion Hp; subst new.
      rewrite Hname in Hc. inversion Hc; subst cur.
      rewrite py_neb_VStr_same in Hneq. discriminate.
    - destruct (String.eqb "rpo" key); [congruence|].
      destruct (String.eqb "remote_system_id" key); [congruence|].
      destruct (String.eqb "alert_threshold" key); [congruence|].
      discriminate. }
  assert (main p b = output_block p false (VDict d) rid st1) as Hm.
  { unfold main, perform_module_operation.
    rewrite (bind_eq_Return _ _ _ _ _ Hr).
    rewrite (reconcile_existing p VNone (VDict d) rid rname (VStr s) st1
               Ht Hs Hn).
    rewrite Hrpo, Hat, Hf. reflexivity. }
  split; [reflexivity|]. split; [exact Hf|]. split; [exact Hm|].
  rewrite Hm.
  destruct (output_block_calls p false (VDict d) rid st1) as (t & E & Ho & _).
  destruct (resolve_no_mutation p (initial b)) as (t0 & E0 & H0).
  rewrite Hr in E0. cbn in E0. rewrite E, E0.
  rewrite mutating_calls_app.
  rewrite (no_mutation_mutating_calls _ H0).
  apply no_mutation_mutating_calls.
  apply output_phase_calls_no_mutation. exact Ho.
Qed.

Lemma dict_get_set_other {V} (d : list (string * V)) key k v :
  k <> key -> dict_get (dict_set d key v) k = dict_get d k.
Proof.
  intros Hne. induction d as [|[k' w] d IH]; cbn.
  - destruct (String.eqb key k) eqn:E; [|reflexivity].
    apply String.eqb_eq in E. congruence.
  - destruct (String.eqb k' key) eqn:E; cbn.
    + apply String.eqb_eq in E. subst k'.
      destruct (String.eqb key k) eqn:E'; [|reflexivity].
      apply String.eqb_eq in E'. congruence.
    + destruct (String.eqb k' k); [reflexivity | exact IH].
Qed.

Lemma dict_get_set_same {V} (d : list (string * V)) key v :
  dict_get (dict_set d key v) key = Some v.
Proof.
  induction d as [|[k' w] d IH]; cbn.
  - rewrite String.eqb_refl. reflexivity.
  - destruct (String.eqb k' key) eqn:E; cbn; rewrite E; [reflexivity | exact IH].
Qed.

(** X12: the comparison runs over the keys of the current rule, so an
    attribute the array does not report is never a reason to modify,
    whatever value the request gives for it. *)
Theorem unreported_attribute_is_ignored d passed key v :
  dict_get d key = None ->
  modify_replication_rule_required (VDict d) (dict_set passed key v)
  = modify_replication_rule_required (VDict d) passed.
Proof.
  intros Hd. cbn [modify_replication_rule_required]. f_equal.
  induction (dict_keys d) as [|k keys IH]; cbn [modify_required_loop];
    [reflexivity|].
  rewrite IH. destruct (String.eqb k key) eqn:E.
  - apply String.eqb_eq in E. subst k. rewrite Hd.
    destruct (dict_get (dict_set passed key v) key);
      destruct (dict_get passed key); reflexivity.
  - apply string_eqb_false_iff in E.
    rewrite (dict_get_set_other passed key k v E). reflexivity.
Qed.


(** X13: the lookup of a rule.  A name, when given, decides the lookup and
    the id is not used: an empty list of matches is no rule, with no second
    call, and otherwise the rule is what the fetch by the id of the first
    match returns, whatever the other matches are.  With no name the rule
    is what the fetch by the given id returns, an empty answer included
    (the answer being something [len] applies to, or false). *)
Theorem rule_lookup_by_name_or_id nm rid st :
  (truthy nm = true ->
   forall l b1,
     sdk (GetReplicationRuleByName nm) (backend st) = (Returns (VList l), b1) ->
     let st1 :=
       after_call st b1 (GetReplicationRuleByName nm) (Returns (VList l)) in
     (l = [] ->
      get_replication_rule_details nm rid st = (Return VNone, st1)) /\
     (forall x l' i v b2,
        l = x :: l' ->
        py_item x "id" = inr i ->
        sdk (GetReplicationRuleDetails i) b1 = (Returns v, b2) ->
        get_replication_rule_details nm rid st =
          (Return v,
           after_call st1 b2 (GetReplicationRuleDetails i) (Returns v)))) /\
  (truthy nm = false ->
   forall v b1,
     sdk (GetReplicationRuleDetails rid) (backend st) = (Returns v, b1) ->
     (truthy v = false \/ exists n, py_len v = inr n) ->
     get_replication_rule_details nm rid st =
       (Return v, after_call st b1 (GetReplicationRuleDetails rid) (Returns v))).
Proof.
  split.
  - intros Ht l b1 Hsdk st1.
    unfold get_replication_rule_details, try_except, bind, sdk_call, lift, ret.
    rewrite Ht, Hsdk. split.
    + intros ->. reflexivity.
    + intros x l' i v b2 -> Hi Hsdk2. cbn. rewrite Hi. cbn.
      rewrite Hsdk2. reflexivity.
  - intros Hf v b1 Hsdk Hlen.
    unfold get_replication_rule_details, try_except, bind, sdk_call, lift, ret.
    rewrite Hf, Hsdk.
    unfold and_len.
    destruct Hlen as [-> | [n Hn]]; [reflexivity|].
    rewrite Hn. destruct (truthy v); [destruct (0 <? n)%nat|]; reflexivity.
Qed.


(** X14: when the cluster lookup fails.  An error of the SDK's cluster list
    ends the invocation with "Failed to get the clusters" and the error,
    after that one call.  An answer that holds a first entry without a
    [name] is not caught by any handler: the invocation ends on the
    KeyError of the subscript. *)
Theorem cluster_lookup_failures p b r b' :
  sdk GetClusterList b = (r, b') ->
  let st' :=
    {| backend := b'; cluster_name := VStr " ";
       cluster_global_id := VStr " "; log := [(GetClusterList, r)] |} in
  (forall e, r = Raises e ->
     main p b = (FailJson (msg_clusters_failed e) (Some e), st')) /\
  (forall d l, r = Returns (VList (VDict d :: l)) ->
     dict_get d "name" = None ->
     main p b = (Raise KeyError, st')).
Proof.
  intros H st'.
  unfold main, perform_module_operation, resolve, cluster_block, get_clusters,
    try_except, bind, sdk_call, lift, fail_json, initial.
  cbn [backend]. rewrite H. split.
  - intros e ->. reflexivity.
  - intros d l -> Hd. cbn. rewrite Hd. reflexivity.
Qed.


(** The acting blocks with state absent: a delete when there is a rule. *)
Lemma reconcile_absent p rsid d rid rname st :
  state p = VStr "absent" ->
  reconcile p rsid d rid rname st =
  if truthy d
  then (ch <- delete_replication_rule rid ;;
        ret {| changed := ch; replication_rule_details := VNone |}) st
  else (Return {| changed := false; replication_rule_details := d |}, st).
Proof.
  intros Hs.
  assert (is_absent p = true) as Ha
    by (unfold is_absent; rewrite Hs; reflexivity).
  assert (is_present p = false) as Hp
    by (unfold is_present; rewrite Hs; reflexivity).
  unfold reconcile, create_block, delete_block, update_block, output_block.
  rewrite Hp, Ha, !andb_false_r. unfold bind at 1. unfold ret at 1.
  destruct (truthy d) eqn:Hd; cbn [andb].
  - unfold bind, ret.
    destruct (delete_replication_rule rid st) as [[ch | e | m c] s];
      cbn; rewrite ?Hp; reflexivity.
  - unfold bind, ret. rewrite ?Hd. cbn. rewrite ?Hd, ?Hp. reflexivity.
Qed.


(** X16: a create that succeeds.  On the create path with inputs that pass
    the checks, once the create call has returned the rule is fetched by the
    id of the answer, and what is fetched is the rule from then on: its own
    [id] is the id in hand, and it is compared with the request under its
    own name.  When it agrees the invocation goes on to show it with changed
    true; when it differs the modify call is made for it first. *)
Theorem created_rule_is_read_back
    p b rsid d rid rname st1 resp b1 i d1 b2 rid1 name :
  resolve p (initial b) = (Return (rsid, d, rid, rname), st1) ->
  truthy d = false ->
  state p = VStr "present" ->
  create_inputs_ok p ->
  let c :=
    CreateReplicationRule (replication_rule_name p) (rpo p) rsid
      (alert_threshold p) in
  sdk c (backend st1) = (Returns resp, b1) ->
  py_get resp "id" = inr i ->
  sdk (GetReplicationRuleDetails i) b1 = (Returns d1, b2) ->
  py_item d1 "id" = inr rid1 ->
  py_item d1 "name" = inr name ->
  let st3 :=
    after_call (after_call st1 b1 c (Returns resp)) b2
      (GetReplicationRuleDetails i) (Returns d1) in
  let passed := new_rep_rule_dict name (rpo p) rsid (alert_threshold p) in
  (modify_replication_rule_required d1 passed = inr false ->
   main p b = output_block p true d1 rid1 st3) /\
  (modify_replication_rule_required d1 passed = inr true ->
   main p b =
     (' (changed, rep_rule_details) <-
        modify_replication_rule rid1 VNone (rpo p) rsid (alert_threshold p) ;;
      output_block p changed rep_rule_details rid1) st3).
Proof.
  intros Hr Hd Hs Hok c Hsdk Hi Hsdk2 Hid Hname st3 passed.
  destruct (resolve_Return_falsy _ _ _ _ _ _ _ Hr Hd) as [Hrid Hrn].
  assert (rname = VNone \/ exists s, rname = VStr s) as Hty.
  { destruct Hok as (_ & (s & Hn & _) & _). right. exists s. congruence. }
  destruct (create_block_checks p rsid d rid rname st1 Hd Hs Hrid Hrn Hty)
    as [_ Hc].
  specialize (Hc Hok).
  destruct Hok as (_ & _ & _ & Hnn & Hrpo).
  assert (create_block p rsid d rid rname st1 = (Return (true, d1, rid1), st3))
    as Hcb.
  { rewrite Hc. subst rname.
    unfold create_replication_rule, try_except, bind, when, sdk_call, lift,
      ret, fail_json.
    rewrite Hrpo. cbn [negb]. fold c. rewrite Hsdk, Hi. cbn [backend].
    rewrite Hsdk2, Hid. reflexivity. }
  assert (desired_name p d1 name) as Hn.
  { right. rewrite Hnn. split; [reflexivity | exact Hname]. }
  assert (main p b =
          match modify_replication_rule_required d1 passed with
          | inr true =>
              (' (changed, rep_rule_details) <-
                 modify_replication_rule rid1 (new_name p) (rpo p) rsid
                   (alert_threshold p) ;;
               output_block p changed rep_rule_details rid1) st3
          | inr false => output_block p true d1 rid1 st3
          | inl e => (Raise e, st3)
          end) as Hm.
  { unfold main, perform_module_operation.
    rewrite (bind_eq_Return _ _ _ _ _ Hr).
    unfold reconcile. rewrite (bind_eq_Return _ _ _ _ _ Hcb).
    apply (after_create_existing p rsid true d1 rid1 name st3
             (py_item_truthy _ _ _ Hid) Hs Hn). }
  rewrite Hm, Hnn. split; intros ->; reflexivity.
Qed.


(** *** At most one change *)







End ReplicationRule.

(** ** The properties on the sample arrays *)

Import Sample.

Arguments Return {A} a.
Arguments Raise {A} e.
Arguments FailJson {A} msg codes.
Arguments backend {B} _.
Arguments cluster_name {B} _.
Arguments cluster_global_id {B} _.
Arguments log {B} _.
Arguments initial {B} b.
Arguments main {B} sdk name_or_id HTTP_ERR p b.
Arguments resolve {B} sdk name_or_id HTTP_ERR p _.
Arguments get_replication_rule_details {B} sdk HTTP_ERR
  rep_rule_name rep_rule_id _.
Arguments get_remote_system_details {B} sdk name_or_id
  remote_system remote_system_address _.
Arguments after_call {B} st b' c r.

(** An invocation against an array in memory, and against a scripted SDK. *)
Definition run_on_array (p : params) (a : Array.array) :=
  main (Array.sdk http_err) name_or_id_of_format http_err p a.

Definition run_scripted (answers : call -> result) (p : params) :=
  main (scripted answers) name_or_id_of_format http_err p tt.

(** C10 on an array without a cluster. *)
Lemma empty_cluster_list_witness :
  fst (run_on_array (by_name "A" "present") no_cluster)
  = FailJson msg_no_cluster None /\
  calls (log (snd (run_on_array (by_name "A" "present") no_cluster)))
  = [GetClusterList].
Proof.
  unfold run_on_array.
  rewrite (empty_cluster_list_fails_first _ (Array.sdk http_err)
             name_or_id_of_format http_err (by_name "A" "present")
             no_cluster no_cluster eq_refl).
  split; reflexivity.
Defined.

(** C3 on the sample array: the rule B does not exist. *)
Lemma absent_rule_witness :
  fst (run_on_array (by_name "B" "absent") array0)
  = Return {| changed := false; replication_rule_details := VNone |} /\
  mutating_calls (log (snd (run_on_array (by_name "B" "absent") array0))) = [].
Proof.
  pose proof
    (absent_rule_stays_absent _ (Array.sdk http_err) name_or_id_of_format
       http_err (by_name "B" "absent") array0 VNone VNone VNone (VStr "B")
       (snd (resolve (Array.sdk http_err) name_or_id_of_format http_err
               (by_name "B" "absent") (initial array0)))) as H.
  destruct H as [H1 H2]; [reflexivity | vm_compute; reflexivity | reflexivity |].
  unfold run_on_array. rewrite H1. split; [reflexivity | exact H2].
Defined.

(** A state in which the module holds the name and the id of the cluster of
    the sample array. *)
Definition with_cluster {B} (b : B) : mstate B :=
  {| backend := b; cluster_name := VStr "WN-D8977";
     cluster_global_id := VStr "0"; log := [] |}.

(** C4 with an SDK whose lookups fail: status 500 is fatal, and the message
    names the rule, the id, the cluster and the error; status 404 is an
    empty result. *)
Lemma lookup_not_found_witness :
  fst (get_replication_rule_details (scripted (failing_lookup "500")) http_err
         (VStr "A") VNone (with_cluster tt))
  = FailJson
      [Lit "Get details of replication rule name: "; Fmt (VStr "A");
       Lit " or ID "; Fmt VNone; Lit " on array name : ";
       Fmt (VStr "WN-D8977"); Lit " failed with error : ";
       FmtExc (PowerStoreException http_err (VStr "500")); Lit " "]
      (Some (PowerStoreException http_err (VStr "500"))) /\
  fst (get_replication_rule_details (scripted (failing_lookup "404")) http_err
         (VStr "A") VNone (with_cluster tt))
  = Return VNone.
Proof.
  split.
  - refine (proj2
      (lookup_not_found_is_empty _ (scripted (failing_lookup "500")) http_err
         (VStr "A") VNone (with_cluster tt) _ _
         [(GetReplicationRuleByName (VStr "A"),
           Raises (PowerStoreException http_err (VStr "500")))]
         (GetReplicationRuleByName (VStr "A"))
         (PowerStoreException http_err (VStr "500")) _ _ _) _).
    + vm_compute. reflexivity.
    + vm_compute. reflexivity.
    + left. reflexivity.
    + reflexivity.
  - refine (proj1
      (lookup_not_found_is_empty _ (scripted (failing_lookup "404")) http_err
         (VStr "A") VNone (with_cluster tt) _ _
         [(GetReplicationRuleByName (VStr "A"),
           Raises (PowerStoreException http_err (VStr "404")))]
         (GetReplicationRuleByName (VStr "A"))
         (PowerStoreException http_err (VStr "404")) _ _ _) _).
    + vm_compute. reflexivity.
    + vm_compute. reflexivity.
    + left. reflexivity.
    + reflexivity.
Defined.

(** C8 on the sample array, where two remote systems are named RS1: without
    an address the resolution fails on the ambiguity, with the address of the
    second one it is the second one. *)
Lemma remote_system_by_name_witness :
  fst (get_remote_system_details (Array.sdk http_err) name_or_id_of_format
         (VStr "RS1") VNone (initial array0))
  = FailJson msg_ambiguous_remote_system None /\
  fst (get_remote_system_details (Array.sdk http_err) name_or_id_of_format
         (VStr "RS1") (VStr "10.0.0.2") (initial array0))
  = Return (Array.remote_system_json rs1_second).
Proof.
  split.
  - pose proof
      (remote_system_by_name _ (Array.sdk http_err) name_or_id_of_format
         (VStr "RS1") VNone (initial array0)
         [Array.remote_system_json rs1_first;
          Array.remote_system_json rs1_second] array0
         eq_refl eq_refl eq_refl) as (_ & _ & H & _).
    rewrite H; [reflexivity | cbn; lia | reflexivity].
  - pose proof
      (remote_system_by_name _ (Array.sdk http_err) name_or_id_of_format
         (VStr "RS1") (VStr "10.0.0.2") (initial array0)
         [Array.remote_system_json rs1_first;
          Array.remote_system_json rs1_second] array0
         eq_refl eq_refl eq_refl) as (_ & _ & _ & H).
    destruct (H ltac:(cbn; lia) eq_refl
                [Array.remote_system_json rs1_second] array0 eq_refl)
      as [H1 _].
    rewrite (H1 _ eq_refl). reflexivity.
Defined.

(** C1 on the sample array: the rule A already has the requested recovery
    point objective and remote system. *)
Lemma reconciler_witness :
  mutating_calls
    (log (snd (run_on_array (with_rpo "A" "One_Hour" "RS2") array0))) = [] /\
  forall r,
    fst (run_on_array (with_rpo "A" "One_Hour" "RS2") array0) = Return r ->
    changed r = false.
Proof.
  pose proof
    (reconciler_modifies_iff_differs _ (Array.sdk http_err)
       name_or_id_of_format http_err (with_rpo "A" "One_Hour" "RS2") array0
       (VStr (Array.rs_id rs2))
       [("id", VStr (Array.rule_id rule_a)); ("name", VStr "A");
        ("rpo", VStr "One_Hour"); ("alert_threshold", VInt 60);
        ("remote_system_id", VStr (Array.rs_id rs2));
        ("is_replica", VBool false); ("policies", VList [])]
       (VStr (Array.rule_id rule_a)) (VStr "A")
       (snd (resolve (Array.sdk http_err) name_or_id_of_format http_err
               (with_rpo "A" "One_Hour" "RS2") (initial array0)))
       (VStr "A")) as H.
  destruct H as (Hiff & Hsame & _).
  - vm_compute. reflexivity.
  - discriminate.
  - reflexivity.
  - right. split; reflexivity.
  - destruct Hsame as (_ & _ & Hm & Hc).
    + intros Hd. apply Hiff in Hd. vm_compute in Hd. discriminate.
    + split; assumption.
Defined.

(** The rule an outcome reports. *)
Definition reported (o : outcome exit_result) : value :=
  match o with
  | Return r => replication_rule_details r
  | _ => VNone
  end.

(** On the sample array: the rule A is reported as read back, with one more
    entry for the name of its remote system. *)
Lemma reported_rule_on_sample :
  exists rid d nm,
    In (GetReplicationRuleDetails rid, Returns (VDict d))
      (log (snd (run_on_array (by_name "A" "present") array0))) /\
    reported (fst (run_on_array (by_name "A" "present") array0))
    = VDict (dict_set d "remote_system_name" nm).
Proof.
  pose proof
    (reported_rule_is_refetched _ (Array.sdk http_err) name_or_id_of_format
       http_err (by_name "A" "present") array0
       (match fst (run_on_array (by_name "A" "present") array0) with
        | Return r => r
        | _ => {| changed := true; replication_rule_details := VNone |}
        end)
       (snd (run_on_array (by_name "A" "present") array0))) as H.
  destruct H as (st0 & rid & d & b1 & rs_id & rs & nm & t_rs & H).
  - vm_compute. reflexivity.
  - reflexivity.
  - vm_compute. reflexivity.
  - cbv zeta in H.
    destruct H as (_ & _ & _ & _ & _ & Hd & Hlog & _).
    exists rid, d, nm. split.
    + rewrite Hlog. apply in_or_app. right. left. reflexivity.
    + exact Hd.
Defined.



(** C6 as stated fails: a request with a blank name fails on the check of
    the name, after the cluster lookup and the rule lookup were made. *)
Lemma validation_failure_after_calls :
  fst (run_on_array (by_name "   " "present") array0)
  = FailJson msg_invalid_name None /\
  calls (log (snd (run_on_array (by_name "   " "present") array0)))
  = [GetClusterList; GetReplicationRuleByName (VStr "   ")].
Proof. split; vm_compute; reflexivity. Defined.

(** C6 as the code has it, on a request with a blank name and a remote
    system: the failure comes after the cluster lookup, the lookup of the
    remote system and the lookup of the rule. *)
Lemma validation_failure_witness :
  fst (run_on_array (with_rpo "   " "One_Hour" "RS2") array0)
  = FailJson msg_invalid_name None /\
  calls (log (snd (run_on_array (with_rpo "   " "One_Hour" "RS2") array0)))
  = [GetClusterList; GetRemoteSystemByName (VStr "RS2") None;
     GetReplicationRuleByName (VStr "   ")] /\
  exists r0 t1 t2,
    log (snd (run_on_array (with_rpo "   " "One_Hour" "RS2") array0))
    = (GetClusterList, r0) :: t1 ++ t2 /\
    remote_system_phase (with_rpo "   " "One_Hour" "RS2") (calls t1) /\
    rule_lookup (with_rpo "   " "One_Hour" "RS2") (calls t2) /\
    mutating_calls
      (log (snd (run_on_array (with_rpo "   " "One_Hour" "RS2") array0)))
    = [].
Proof.
  split; [vm_compute; reflexivity|]. split; [vm_compute; reflexivity|].
  apply (validation_failure_follows_lookups _ (Array.sdk http_err)
           name_or_id_of_format http_err (with_rpo "   " "One_Hour" "RS2")
           array0).
  vm_compute. reflexivity.
Defined.


(** C2 as stated fails: a request that renames the rule A, looked up by
    name, changes the array the first time; repeated right after, it finds
    no rule named A any more, takes the create path and fails there. *)
Lemma second_rename_fails :
  (exists d,
     fst (run_on_array (rename "A" "B" "RS2") array0)
     = Return {| changed := true; replication_rule_details := d |}) /\
  fst (run_on_array (rename "A" "B" "RS2")
         (backend (snd (run_on_array (rename "A" "B" "RS2") array0))))
  = FailJson msg_new_name_at_creation None.
Proof.
  split; [eexists|]; vm_compute; reflexivity.
Defined.

(** ** Repeating a request against the array in memory *)

Arguments mstate B : clear implicits.
Arguments lookup_block {B} sdk HTTP_ERR p _.
Arguments cluster_block {B} sdk _.
Arguments remote_system_block {B} sdk name_or_id p _.
Arguments reconcile {B} sdk name_or_id HTTP_ERR p
  remote_system_id rep_rule_details rep_rule_id rep_rule_name _.
Arguments output_block {B} sdk name_or_id HTTP_ERR p changed
  rep_rule_details rep_rule_id _.
Arguments create_block {B} sdk p remote_system_id rep_rule_details
  rep_rule_id rep_rule_name _.
Arguments create_replication_rule {B} sdk rep_rule_name rpo
  remote_system_id alert_threshold _.
Arguments modify_replication_rule {B} sdk rep_rule_id new_name rpo
  remote_system_id alert_threshold _.
Arguments perform_module_operation {B} sdk name_or_id HTTP_ERR p _.

Arguments sim {B} Rb st st'.
Arguments compatible {B} sdk Rb c.
Arguments related {B} Rb {A} m.

Section Idempotence.

Import Array.

(** The value of [HTTP_ERR], shared by the SDK and the module; it is equal to
    itself, as every value without a float is. *)
Variable h : value.
Hypothesis h_refl : py_eqb h h = true.

Variable name_or_id : value -> value.

Let S := Array.sdk h.

(** Two arrays with the same clusters and remote systems. *)
Definition same_env (a a' : array) : Prop :=
  clusters a = clusters a' /\ remote_systems a = remote_systems a'.

Lemma read_leaves_array c a : is_mutating c = false -> snd (S c a) = a.
Proof.
  destruct c; cbn; try discriminate; intros _; try reflexivity.
  - destruct (find _ _); reflexivity.
  - destruct (find _ _); reflexivity.
Qed.

Lemma env_read_same_env c :
  is_env_read c = true -> compatible S same_env c.
Proof.
  intros Hc a a' [Hcl Hrs].
  destruct c; try discriminate; cbn; rewrite <- ?Hcl, <- ?Hrs.
  - repeat split; auto.
  - repeat split; auto.
  - destruct (find _ _); repeat split; auto.
Qed.

Lemma every_call_same_array c : compatible S eq c.
Proof. intros a a' <-. split; reflexivity. Qed.

(** The reads leave the array [a] as it is. *)
Definition stays (a : array) (b b' : array) : Prop := b = a /\ b' = a.

Lemma read_stays a c : is_mutating c = false -> compatible S (stays a) c.
Proof.
  intros Hc b b' [-> ->]. rewrite (read_leaves_array c a Hc).
  repeat split.
Qed.

Lemma env_read_stays a c : is_env_read c = true -> compatible S (stays a) c.
Proof. intros H. apply read_stays. destruct c; auto; discriminate. Qed.

Lemma rule_read_stays a c : is_rule_read c = true -> compatible S (stays a) c.
Proof. intros H. apply read_stays. destruct c; auto; discriminate. Qed.

Lemma sim_stays_refl (st : mstate array) : sim (stays (backend st)) st st.
Proof. repeat split. Qed.

(** The rule a lookup by name or by id finds. *)
Definition found_rule (n i : value) (l : list rule) : option rule :=
  if truthy n then
    match filter (has_name n) l with
    | r :: _ => find (has_id (VStr (rule_id r))) l
    | [] => None
    end
  else find (has_id i) l.

Lemma has_id_eq i r : has_id i r = true -> i = VStr (rule_id r).
Proof. apply py_eqb_VStr. Qed.

Lemma has_id_refl r : has_id (VStr (rule_id r)) r = true.
Proof. unfold has_id. cbn. apply String.eqb_refl. Qed.

Lemma find_has_id i l r :
  find (has_id i) l = Some r -> i = VStr (rule_id r) /\ In r l.
Proof.
  intros H. apply find_some in H as [Hin Hid].
  split; [apply has_id_eq; exact Hid | exact Hin].
Qed.

Lemma found_rule_id n i l r :
  found_rule n i l = Some r ->
  find (has_id (VStr (rule_id r))) l = Some r.
Proof.
  unfold found_rule. destruct (truthy n).
  - destruct (filter (has_name n) l) as [|rn rest]; [discriminate|].
    intros H. destruct (find_has_id _ _ _ H) as [E _]. rewrite <- E. exact H.
  - intros H. destruct (find_has_id _ _ _ H) as [E _]. rewrite <- E. exact H.
Qed.

Lemma find_replace i l r0 r' :
  find (has_id i) l = Some r0 -> has_id i r' = true ->
  find (has_id i) (replace_rule i r' l) = Some r'.
Proof.
  intros H Hr'. induction l as [|x l IH]; cbn in *; [discriminate|].
  destruct (has_id i x) eqn:E.
  - cbn. rewrite Hr'. reflexivity.
  - cbn. rewrite E. apply IH. exact H.
Qed.

Lemma head_replace n i l r0 r' :
  find (has_id i) l = Some r0 ->
  (exists rn rest, filter (has_name n) l = rn :: rest /\ has_id i rn = true) ->
  has_id i r' = true ->
  has_name n r' = has_name n r0 \/ has_name n r' = true ->
  exists rm rest',
    filter (has_name n) (replace_rule i r' l) = rm :: rest' /\
    has_id i rm = true.
Proof.
  intros Hf Hh Hr' Hn. induction l as [|x l IH]; cbn in *; [discriminate|].
  destruct Hh as (rn & rest & Hfl & Hrn).
  destruct (has_id i x) eqn:E.
  - inversion Hf; subst x. cbn.
    destruct (has_name n r') eqn:En'.
    + eauto.
    + destruct Hn as [Hn | Hn]; [|discriminate].
      rewrite <- Hn in Hfl. eauto.
  - cbn. destruct (has_name n x) eqn:En.
    + inversion Hfl; subst. congruence.
    + apply IH; eauto.
Qed.

Lemma found_rule_replace n i l r0 r' :
  found_rule n i l = Some r0 ->
  rule_id r' = rule_id r0 ->
  has_name n r' = has_name n r0 \/ has_name n r' = true ->
  found_rule n i (replace_rule (VStr (rule_id r0)) r' l) = Some r'.
Proof.
  intros Hf Hid Hn.
  assert (has_id (VStr (rule_id r0)) r' = true) as Hr'
    by (rewrite <- Hid; apply has_id_refl).
  pose proof (found_rule_id _ _ _ _ Hf) as Hfind.
  unfold found_rule in *. destruct (truthy n).
  - destruct (filter (has_name n) l) as [|rn rest] eqn:Hfl; [discriminate|].
    destruct (find_has_id _ _ _ Hf) as [E _].
    assert (rule_id rn = rule_id r0) as E' by congruence.
    destruct (head_replace n (VStr (rule_id r0)) l r0 r' Hfind) as
      (rm & rest' & Hfl' & Hm); auto.
    { exists rn, rest. split; [exact Hfl|]. rewrite <- E'. apply has_id_refl. }
    rewrite Hfl'. apply has_id_eq in Hm.
    assert (rule_id rm = rule_id r0) as Hm' by congruence.
    rewrite Hm'. eapply find_replace; eassumption.
  - destruct (find_has_id _ _ _ Hf) as [-> _].
    eapply find_replace; eassumption.
Qed.

Lemma string_length_append (s1 s2 : string) :
  String.length (s1 ++ s2) = (String.length s1 + String.length s2)%nat.
Proof. induction s1 as [|c s1 IH]; cbn; [reflexivity | rewrite IH; reflexivity]. Qed.

Lemma fresh_id_longer l r :
  In r l -> (String.length (rule_id r) < String.length (fresh_id l))%nat.
Proof.
  induction l as [|x l IH]; cbn; [contradiction|].
  rewrite string_length_append. intros [-> | Hin].
  - lia.
  - specialize (IH Hin). lia.
Qed.

Lemma fresh_id_not_found l : find (has_id (VStr (fresh_id l))) l = None.
Proof.
  destruct (find _ l) as [r|] eqn:E; [|reflexivity].
  destruct (find_has_id _ _ _ E) as [Hid Hin].
  pose proof (fresh_id_longer l r Hin) as Hlt.
  inversion Hid as [Hid']. rewrite Hid' in Hlt. lia.
Qed.

Lemma find_app_new i l r :
  find (has_id i) l = None -> has_id i r = true ->
  find (has_id i) (l ++ [r]) = Some r.
Proof.
  intros Hn Hr. induction l as [|x l IH]; cbn in *.
  - rewrite Hr. reflexivity.
  - destruct (has_id i x); [discriminate | auto].
Qed.

Lemma found_rule_None_by_name n i l :
  truthy n = true -> found_rule n i l = None -> filter (has_name n) l = [].
Proof.
  unfold found_rule. intros ->.
  destruct (filter (has_name n) l) as [|rn rest] eqn:Hfl; [reflexivity|].
  intros Hf. exfalso.
  assert (In rn l) as Hin.
  { apply (proj1 (filter_In (has_name n) rn l)). rewrite Hfl. left. reflexivity. }
  apply (find_none _ _ Hf) in Hin. rewrite has_id_refl in Hin. discriminate.
Qed.

Lemma found_rule_created n i l r :
  truthy n = true -> found_rule n i l = None ->
  has_name n r = true -> rule_id r = fresh_id l ->
  found_rule n i (l ++ [r]) = Some r.
Proof.
  intros Hn Hf Hr Hid.
  pose proof (found_rule_None_by_name n i l Hn Hf) as Hfl.
  unfold found_rule. rewrite Hn, filter_app, Hfl. cbn. rewrite Hr.
  apply find_app_new.
  - rewrite Hid. apply fresh_id_not_found.
  - apply has_id_refl.
Qed.

(** What the comparison of a rule of the array with a desired set
    computes. *)
Lemma required_on_rule r name rpo rs threshold :
  modify_replication_rule_required (rule_json r)
    (new_rep_rule_dict name rpo rs threshold)
  = inr (is_not_none name && py_neb (VStr (rule_name r)) name
         || is_not_none rpo && py_neb (VStr (rule_rpo r)) rpo
         || is_not_none threshold && py_neb (VInt (rule_threshold r)) threshold
         || is_not_none rs && py_neb (VStr (rule_remote r)) rs).
Proof.
  cbn.
  destruct (is_not_none name && py_neb (VStr (rule_name r)) name);
    destruct (is_not_none rpo && py_neb (VStr (rule_rpo r)) rpo);
    destruct (is_not_none threshold
              && py_neb (VInt (rule_threshold r)) threshold);
    destruct (is_not_none rs && py_neb (VStr (rule_remote r)) rs);
    reflexivity.
Qed.

Lemma py_neb_VStr_refl s : py_neb (VStr s) (VStr s) = false.
Proof. unfold py_neb. cbn. rewrite String.eqb_refl. reflexivity. Qed.

Lemma py_neb_VInt_refl z : py_neb (VInt z) (VInt z) = false.
Proof. unfold py_neb. cbn. rewrite Z.eqb_refl. reflexivity. Qed.

(** A rule just modified agrees with the attributes of the modify call. *)
Lemma modified_agrees r0 nn rpo rs threshold r' :
  modified r0 nn rpo rs threshold = Some r' ->
  rule_id r' = rule_id r0 /\
  (nn = VNone /\ rule_name r' = rule_name r0 \/ nn = VStr (rule_name r')) /\
  modify_replication_rule_required (rule_json r')
    (new_rep_rule_dict (if is_not_none nn then nn else VStr (rule_name r'))
       rpo rs threshold)
  = inr false.
Proof.
  unfold modified. intros H. rewrite required_on_rule.
  destruct nn; try discriminate;
    destruct rpo as [| | |oo| |]; try discriminate;
    try (destruct (rpo_minutes oo); try discriminate);
    destruct rs; try discriminate;
    destruct threshold as [| |zz| | |]; try discriminate;
    try (destruct (threshold_ok zz); try discriminate);
    inversion H; subst; cbn [rule_id rule_name rule_rpo rule_threshold
                               rule_remote is_not_none is_none negb andb];
    rewrite ?py_neb_VStr_refl, ?py_neb_VInt_refl; cbn; auto.
Qed.

(** A rule just created agrees with the attributes of the create call. *)
Lemma created_agrees i n rpo rs threshold r :
  created i n rpo rs threshold = Some r ->
  rule_id r = i /\ n = VStr (rule_name r) /\
  modify_replication_rule_required (rule_json r)
    (new_rep_rule_dict (VStr (rule_name r)) rpo rs threshold)
  = inr false.
Proof.
  unfold created. intros H. rewrite required_on_rule.
  destruct n; try discriminate;
    destruct rpo as [| | |oo| |]; try discriminate;
    destruct rs; try discriminate;
    destruct (rpo_minutes oo); try discriminate;
    destruct threshold as [| |zz| | |]; try discriminate;
    try (destruct (threshold_ok zz); try discriminate);
    inversion H; subst; cbn [rule_id rule_name rule_rpo rule_threshold
                               rule_remote is_not_none is_none negb andb];
    rewrite ?py_neb_VStr_refl, ?py_neb_VInt_refl; cbn; auto.
Qed.

(** The state [s] holds the array [a] and the cluster names of [st]. *)
Definition moved (st : mstate array) (a : array) (s : mstate array) : Prop :=
  backend s = a /\ cluster_name s = cluster_name st /\
  cluster_global_id s = cluster_global_id st.

Lemma truthy_rule_json r : truthy (rule_json r) = true.
Proof. reflexivity. Qed.

Lemma array_get_rule n i st :
  exists s,
    get_replication_rule_details S h n i st
    = (Return match found_rule n i (rules (backend st)) with
              | Some r => rule_json r
              | None => VNone
              end, s) /\
    moved st (backend st) s.
Proof.
  unfold get_replication_rule_details, found_rule, try_except, bind, sdk_call,
    lift, ret, get_cluster_name, fail_json, moved.
  unfold S. destruct (truthy n); cbn [Array.sdk backend].
  - destruct (filter (has_name n) (rules (backend st))) as [|rn rest]; cbn.
    + eexists. split; [reflexivity | repeat split].
    + destruct (find (has_id (VStr (rule_id rn))) (rules (backend st)));
        cbn; rewrite ?h_refl; cbn;
        eexists; (split; [reflexivity | repeat split]).
  - destruct (find (has_id i) (rules (backend st))); cbn; rewrite ?h_refl;
      cbn; eexists; (split; [reflexivity | repeat split]).
Qed.

Lemma array_lookup_block p st :
  exists s,
    lookup_block S h p st
    = (Return match found_rule (replication_rule_name p)
                      (replication_rule_id p) (rules (backend st)) with
              | Some r =>
                  (rule_json r,
                   if truthy (replication_rule_id p)
                   then replication_rule_id p else VStr (rule_id r),
                   if truthy (replication_rule_name p)
                   then replication_rule_name p else VStr (rule_name r))
              | None =>
                  (VNone, replication_rule_id p, replication_rule_name p)
              end, s) /\
    moved st (backend st) s.
Proof.
  destruct (array_get_rule (replication_rule_name p) (replication_rule_id p) st)
    as (s & Hs & Hm).
  unfold lookup_block. unfold bind at 1. rewrite Hs.
  destruct (found_rule _ _ _) as [r|].
  - rewrite truthy_rule_json. cbn [andb].
    unfold bind, lift, ret.
    destruct (truthy (replication_rule_id p)),
      (truthy (replication_rule_name p)); cbn;
      exists s; (split; [reflexivity | exact Hm]).
  - cbn. exists s. split; [reflexivity | exact Hm].
Qed.

Lemma array_modify rid nn rpo rs threshold st x s3 :
  modify_replication_rule S rid nn rpo rs threshold st = (Return x, s3) ->
  exists r0 r',
    find (has_id rid) (rules (backend st)) = Some r0 /\
    modified r0 nn rpo rs threshold = Some r' /\
    x = (true, rule_json r') /\
    moved st
      (with_rules (backend st) (replace_rule rid r' (rules (backend st)))) s3.
Proof.
  unfold modify_replication_rule, try_except, bind, sdk_call, ret,
    get_cluster_name, get_cluster_global_id, fail_json, moved.
  unfold S. cbn [Array.sdk backend].
  destruct (find (has_id rid) (rules (backend st))) as [r0|] eqn:Hf; cbn;
    [|discriminate].
  destruct (modified r0 nn rpo rs threshold) as [r'|] eqn:Hm; cbn;
    [|discriminate].
  intros H. inversion H; subst. exists r0, r'. repeat split; auto.
Qed.

Lemma array_create n rpo rs threshold st x s3 :
  create_replication_rule S n rpo rs threshold st = (Return x, s3) ->
  exists r,
    created (fresh_id (rules (backend st))) n rpo rs threshold = Some r /\
    x = (true, rule_json r) /\
    moved st (with_rules (backend st) (rules (backend st) ++ [r])) s3.
Proof.
  unfold create_replication_rule, try_except, bind, sdk_call, ret, when, lift,
    get_cluster_name, get_cluster_global_id, fail_json, moved.
  destruct (truthy rpo); cbn [negb]; [|cbn; discriminate].
  unfold S. cbn.
  destruct (created _ n rpo rs threshold) as [r|] eqn:Hc; cbn; [|discriminate].
  destruct (created_agrees _ _ _ _ _ _ Hc) as (Hid & _ & _).
  rewrite (find_app_new (VStr (fresh_id (rules (backend st))))
             (rules (backend st)) r).
  - cbn. intros H. inversion H; subst. exists r. repeat split; auto.
  - apply fresh_id_not_found.
  - rewrite <- Hid. apply has_id_refl.
Qed.

Lemma stays_backend {A} (m : M array A) a st :
  related (stays a) m -> backend st = a -> backend (snd (m st)) = a.
Proof.
  intros Hrel Hb.
  destruct (Hrel st st) as [_ [[Hs _] _]]; [|exact Hs].
  repeat split; exact Hb.
Qed.

Lemma cluster_block_stays a : related (stays a) (cluster_block S).
Proof. apply related_cluster_block. apply env_read_stays. Qed.

Lemma remote_system_block_stays a p :
  related (stays a) (remote_system_block S name_or_id p).
Proof. apply related_remote_system_block. apply env_read_stays. Qed.

Lemma output_block_stays p ch d rid st r s1 :
  output_block S name_or_id h p ch d rid st = (Return r, s1) ->
  backend s1 = backend st.
Proof.
  intros H.
  destruct (related_output_block _ S name_or_id h (stays (backend st))
              (env_read_stays _) (rule_read_stays _)
              p ch ch d rid st st r s1 (sim_stays_refl st) H)
    as (s2 & _ & [[Hb _] _]).
  exact Hb.
Qed.

(** The first two blocks of a second run give what they gave the first
    time, when the clusters and remote systems are the same. *)
Lemma prelude_second_run p a a1 sa rsid sb :
  same_env a a1 ->
  cluster_block S (initial a) = (Return tt, sa) ->
  remote_system_block S name_or_id p sa = (Return rsid, sb) ->
  backend sb = a /\
  exists sa' sb',
    cluster_block S (initial a1) = (Return tt, sa') /\
    remote_system_block S name_or_id p sa' = (Return rsid, sb') /\
    backend sb' = a1 /\
    cluster_name sb' = cluster_name sb /\
    cluster_global_id sb' = cluster_global_id sb.
Proof.
  intros Henv H1 H2.
  assert (backend sa = a) as Hsa.
  { pose proof (stays_backend (cluster_block S) a (initial a)
                  (cluster_block_stays a) eq_refl) as H.
    rewrite H1 in H. exact H. }
  assert (backend sb = a) as Hsb.
  { pose proof (stays_backend (remote_system_block S name_or_id p) a sa
                  (remote_system_block_stays a p) Hsa) as H.
    rewrite H2 in H. exact H. }
  split; [exact Hsb|].
  destruct (related_cluster_block _ S same_env env_read_same_env
              (initial a) (initial a1)) as [E1 S1].
  { repeat split; apply Henv. }
  rewrite H1 in E1, S1. cbn [fst snd] in E1, S1.
  destruct (cluster_block S (initial a1)) as [o1 sa'] eqn:H1'.
  cbn [fst snd] in E1, S1. subst o1.
  destruct (related_remote_system_block _ S name_or_id same_env
              env_read_same_env p sa sa' S1) as [E2 S2].
  rewrite H2 in E2, S2. cbn [fst snd] in E2, S2.
  destruct (remote_system_block S name_or_id p sa') as [o2 sb'] eqn:H2'.
  cbn [fst snd] in E2, S2. subst o2.
  exists sa', sb'.
  split; [first [reflexivity | exact H1']|].
  split; [first [reflexivity | exact H2']|].
  assert (backend sa' = a1) as Hsa'.
  { pose proof (stays_backend (cluster_block S) a1 (initial a1)
                  (cluster_block_stays a1) eq_refl) as H.
    rewrite H1' in H. exact H. }
  split.
  { pose proof (stays_backend (remote_system_block S name_or_id p) a1 sa'
                  (remote_system_block_stays a1 p) Hsa') as H.
    rewrite H2' in H. exact H. }
  destruct S2 as (_ & Hn & Hg). split; congruence.
Qed.

(** The end of a second run that finds the rule the first run left: the
    rule already agrees with the request and is shown as it was the first
    time. *)
Lemma second_run_shows_rule p a1 sa' rsid sb' r rid name ch s3 r1 st1 :
  cluster_block S (initial a1) = (Return tt, sa') ->
  remote_system_block S name_or_id p sa' = (Return rsid, sb') ->
  backend sb' = a1 ->
  found_rule (replication_rule_name p) (replication_rule_id p) (rules a1)
  = Some r ->
  (if truthy (replication_rule_id p)
   then replication_rule_id p else VStr (rule_id r)) = rid ->
  state p = VStr "present" ->
  desired_name p (rule_json r) name ->
  modify_replication_rule_required (rule_json r)
    (new_rep_rule_dict name (rpo p) rsid (alert_threshold p)) = inr false ->
  output_block S name_or_id h p ch (rule_json r) rid s3 = (Return r1, st1) ->
  backend s3 = a1 ->
  cluster_name s3 = cluster_name sb' ->
  cluster_global_id s3 = cluster_global_id sb' ->
  exists r2 st2,
    main S name_or_id h p a1 = (Return r2, st2) /\
    changed r2 = false /\
    backend st2 = backend st1 /\
    replication_rule_details r2 = replication_rule_details r1.
Proof.
  intros H1 H2 Hb Hf Hrid Hs Hn Hreq Hout Hb3 Hcn Hcg.
  destruct (array_lookup_block p sb') as (sc' & Hlk & Hmv & Hmn & Hmg).
  rewrite Hb, Hf in Hlk. rewrite Hrid in Hlk.
  pose proof (resolve_eq _ S name_or_id h p _ _ _ _ _ _ _ _ H1 H2 Hlk) as Hres.
  destruct (related_output_block _ S name_or_id h eq
              (fun c _ => every_call_same_array c)
              (fun c _ => every_call_same_array c)
              p ch false (rule_json r) rid s3 sc' r1 st1) as (s2 & Ho & Hsim).
  { repeat split; congruence. }
  { exact Hout. }
  exists {| changed := false;
            replication_rule_details := replication_rule_details r1 |}, s2.
  split; [|split; [reflexivity | split; [|reflexivity]]].
  - unfold main, perform_module_operation.
    rewrite (bind_eq_Return _ _ _ _ _ _ Hres).
    rewrite (reconcile_existing _ S name_or_id h p rsid (rule_json r) rid _
               name sc' (truthy_rule_json r) Hs Hn).
    rewrite Hreq. exact Ho.
  - destruct Hsim as [Hsb _]. symmetry. exact Hsb.
Qed.

Lemma same_env_with_rules a l : same_env a (with_rules a l).
Proof. split; reflexivity. Qed.

Lemma has_name_VNone r : has_name VNone r = false.
Proof. reflexivity. Qed.

(** C2, as the code has it, on the array in memory: a request with state
    present that succeeded, if it names the rule by id or does not rename it
    away from the name it is looked up by, succeeds again when it is repeated
    on the array it left, reports changed false and the same rule, and leaves
    the array as it is. *)
Theorem second_run_changes_nothing p a r1 st1 :
  state p = VStr "present" ->
  replication_rule_id p = VNone \/ replication_rule_name p = VNone ->
  replication_rule_name p = VNone \/ new_name p = VNone \/
  new_name p = replication_rule_name p ->
  main S name_or_id h p a = (Return r1, st1) ->
  exists r2 st2,
    main S name_or_id h p (backend st1) = (Return r2, st2) /\
    changed r2 = false /\
    backend st2 = backend st1 /\
    replication_rule_details r2 = replication_rule_details r1.
Proof.
  intros Hs Hex Hren Hm.
  pose proof Hm as Hm0.
  unfold main, perform_module_operation in Hm.
  apply bind_Return in Hm as ([[[rsid d] rid] rn] & sc & Hres & Hrec).
  apply resolve_Return in Hres as (sa & sb & H1 & H2 & Hlk).
  destruct (prelude_second_run p a a sa rsid sb (conj eq_refl eq_refl) H1 H2)
    as (Hsb & _).
  destruct (array_lookup_block p sb) as (sc0 & Hlk0 & Hmb & Hmn & Hmg).
  rewrite Hlk in Hlk0. rewrite Hsb in Hlk0, Hmb.
  injection Hlk0 as Hvals <-.
  destruct (found_rule (replication_rule_name p) (replication_rule_id p)
              (rules a)) as [rf|] eqn:Hfound.
  - (* the rule exists *)
    injection Hvals as -> Hrid Hrn.
    assert (rid = VStr (rule_id rf)) as Hrid'.
    { rewrite Hrid. destruct (truthy (replication_rule_id p)) eqn:Ht;
        [|reflexivity].
      destruct Hex as [Hex | Hex]; [rewrite Hex in Ht; discriminate|].
      unfold found_rule in Hfound. rewrite Hex in Hfound. cbn in Hfound.
      apply find_has_id in Hfound as [E _]. exact E. }
    set (name := if is_not_none (new_name p) then new_name p
                 else VStr (rule_name rf)).
    assert (desired_name p (rule_json rf) name) as Hn.
    { unfold desired_name, name. destruct (is_not_none (new_name p)); auto. }
    rewrite (reconcile_existing _ S name_or_id h p rsid (rule_json rf) rid rn
               name sc (truthy_rule_json rf) Hs Hn) in Hrec.
    destruct (modify_replication_rule_required (rule_json rf) _)
      as [e | [|]] eqn:Hreq; [discriminate | |].
    + (* modified the first time *)
      apply bind_Return in Hrec as ([ch d3] & s3 & Hmod & Hout).
      apply array_modify in Hmod
        as (r0 & r' & Hf0 & Hmd & Hx & Hb3 & Hn3 & Hg3).
      injection Hx as -> ->.
      rewrite Hmb in Hf0, Hb3.
      pose proof (found_rule_id _ _ _ _ Hfound) as Hfid.
      rewrite <- Hrid' in Hfid. rewrite Hfid in Hf0. injection Hf0 as <-.
      destruct (modified_agrees _ _ _ _ _ _ Hmd) as (Hid' & Hname' & Hconv).
      pose proof (output_block_stays _ _ _ _ _ _ _ Hout) as Hst1.
      rewrite Hb3 in Hst1. rewrite Hst1.
      set (a1 := with_rules a (replace_rule rid r' (rules a))) in *.
      destruct (prelude_second_run p a a1 sa rsid sb
                  (same_env_with_rules a _) H1 H2)
        as (_ & sa' & sb' & H1' & H2' & Hb' & Hn' & Hg').
      enough (exists r2 st2,
                 main S name_or_id h p a1 = (Return r2, st2) /\
                 changed r2 = false /\
                 backend st2 = backend st1 /\
                 replication_rule_details r2 = replication_rule_details r1)
        as (r2 & st2 & Hrun & Hch & Hbk & Hdt)
        by (exists r2, st2; rewrite Hst1 in Hbk; auto).
      eapply (second_run_shows_rule p a1 sa' rsid sb' r' rid
                (if is_not_none (new_name p) then new_name p
                 else VStr (rule_name r')) true s3 r1 st1);
        try eassumption; try congruence.
      * unfold a1. cbn [rules with_rules]. rewrite Hrid'.
        apply found_rule_replace; [exact Hfound | exact Hid' |].
        destruct Hname' as [[_ Hsame] | Hnew].
        -- left. unfold has_name. rewrite Hsame. reflexivity.
        -- destruct Hren as [Hren | [Hren | Hren]].
           ++ left. rewrite Hren. reflexivity.
           ++ congruence.
           ++ right. rewrite <- Hren, Hnew. unfold has_name. cbn.
              apply String.eqb_refl.
      * rewrite Hid'. symmetry. exact Hrid.
      * unfold desired_name. destruct (is_not_none (new_name p)); auto.
    + (* nothing to do the first time *)
      pose proof (output_block_stays _ _ _ _ _ _ _ Hrec) as Hst1.
      rewrite Hmb in Hst1. rewrite Hst1.
      exists r1, st1. split; [exact Hm0|].
      apply output_block_Return in Hrec as [Hch _].
      repeat split; auto.
  - (* the rule is created *)
    injection Hvals as -> -> ->.
    unfold reconcile in Hrec.
    apply bind_Return in Hrec as ([[ch d1] rid1] & s3 & Hc & Hrest).
    apply create_block_Return in Hc
      as (Hid & (nm & Hnm & Hblank) & Hnn & Hcr & Hitem);
      [|reflexivity | exact Hs].
    apply array_create in Hcr as (r & Hcd & Hx & Hb3 & Hn3 & Hg3).
    injection Hx as -> ->. rewrite Hmb in Hcd, Hb3.
    destruct (created_agrees _ _ _ _ _ _ Hcd) as (Hrid & Hrname & Hconv).
    cbn in Hitem. injection Hitem as <-.
    assert (desired_name p (rule_json r) (VStr (rule_name r))) as Hn.
    { right. unfold is_not_none. rewrite Hnn. split; reflexivity. }
    rewrite (after_create_existing _ S name_or_id h p rsid true (rule_json r)
               (VStr (rule_id r)) (VStr (rule_name r)) s3
               (truthy_rule_json r) Hs Hn) in Hrest.
    rewrite Hconv in Hrest.
    pose proof (output_block_stays _ _ _ _ _ _ _ Hrest) as Hst1.
    rewrite Hb3 in Hst1. rewrite Hst1.
    set (a1 := with_rules a (rules a ++ [r])) in *.
    destruct (prelude_second_run p a a1 sa rsid sb
                (same_env_with_rules a _) H1 H2)
      as (_ & sa' & sb' & H1' & H2' & Hb' & Hn' & Hg').
    enough (exists r2 st2,
               main S name_or_id h p a1 = (Return r2, st2) /\
               changed r2 = false /\
               backend st2 = backend st1 /\
               replication_rule_details r2 = replication_rule_details r1)
      as (r2 & st2 & Hrun & Hch & Hbk & Hdt)
      by (exists r2, st2; rewrite Hst1 in Hbk; auto).
    eapply (second_run_shows_rule p a1 sa' rsid sb' r (VStr (rule_id r))
              (VStr (rule_name r)) true s3 r1 st1);
      try eassumption; try congruence.
    + unfold a1. cbn [rules with_rules].
      apply found_rule_created; auto.
      * rewrite Hnm. cbn. destruct nm; [|reflexivity].
        exfalso. apply Hblank. reflexivity.
      * rewrite Hrname. unfold has_name. cbn. apply String.eqb_refl.
    + rewrite Hid. reflexivity.
Qed.

(** *** Deleting twice *)

Lemma remove_rule_In i l r : In r (remove_rule i l) -> In r l.
Proof.
  induction l as [|x l IH]; cbn [remove_rule]; [auto|].
  destruct (has_id i x); cbn [In]; intuition.
Qed.

Lemma removed_rule_is_gone l r :
  NoDup (map rule_id l) -> ~ In r (remove_rule (VStr (rule_id r)) l).
Proof.
  induction l as [|x l IH]; cbn [remove_rule map]; [auto|].
  intros Hnd. inversion Hnd as [|? ? Hx Hl]; subst.
  destruct (has_id (VStr (rule_id r)) x) eqn:E.
  - intros Hin. apply Hx. apply has_id_eq in E.
    replace (rule_id x) with (rule_id r) by congruence.
    apply in_map. exact Hin.
  - cbn. intros [-> | Hin].
    + rewrite has_id_refl in E. discriminate.
    + exact (IH Hl Hin).
Qed.

Lemma same_name_same_rule l r r' :
  NoDup (map rule_name l) -> In r l -> In r' l ->
  rule_name r = rule_name r' -> r = r'.
Proof.
  induction l as [|x l IH]; cbn; [contradiction|].
  intros Hnd Hr Hr' E. inversion Hnd as [|? ? Hx Hl]; subst.
  destruct Hr as [-> | Hr], Hr' as [-> | Hr'].
  - reflexivity.
  - exfalso. apply Hx. rewrite E. apply in_map. exact Hr'.
  - exfalso. apply Hx. rewrite <- E. apply in_map. exact Hr.
  - apply IH; assumption.
Qed.

(** With ids and names that are unique, the rule a lookup finds is not
    found again once it is removed. *)
Lemma found_rule_removed n i l rf :
  NoDup (map rule_id l) -> NoDup (map rule_name l) ->
  found_rule n i l = Some rf ->
  found_rule n i (remove_rule (VStr (rule_id rf)) l) = None.
Proof.
  intros Hid Hname Hf. unfold found_rule in *. destruct (truthy n).
  - destruct (filter (has_name n) l) as [|rn rest] eqn:Hfl; [discriminate|].
    destruct (find_has_id _ _ _ Hf) as [E _].
    assert (rule_id rf = rule_id rn) as Erf by congruence.
    rewrite Erf. clear E Erf Hf.
    destruct (filter (has_name n) (remove_rule (VStr (rule_id rn)) l))
      as [|r rest'] eqn:Hfl'; [reflexivity|].
    exfalso.
    assert (In rn l /\ has_name n rn = true) as [Hin Hn].
    { apply filter_In. rewrite Hfl. left. reflexivity. }
    assert (In r (remove_rule (VStr (rule_id rn)) l) /\ has_name n r = true)
      as [Hin' Hn'].
    { apply filter_In. rewrite Hfl'. left. reflexivity. }
    assert (r = rn) as ->.
    { apply (same_name_same_rule l); auto.
      - eapply remove_rule_In. exact Hin'.
      - apply py_eqb_VStr in Hn, Hn'. congruence. }
    exact (removed_rule_is_gone l rn Hid Hin').
  - destruct (find_has_id _ _ _ Hf) as [-> _].
    destruct (find (has_id (VStr (rule_id rf)))
                (remove_rule (VStr (rule_id rf)) l)) as [r|] eqn:E;
      [|reflexivity].
    exfalso. destruct (find_has_id _ _ _ E) as [E' Hin].
    assert (rule_id rf = rule_id r) as Erf by congruence.
    rewrite Erf in Hin.
    exact (removed_rule_is_gone l r Hid Hin).
Qed.

Lemma array_delete rid st rf :
  find (has_id rid) (rules (backend st)) = Some rf ->
  exists s,
    @delete_replication_rule array S rid st = (Return true, s) /\
    moved st
      (with_rules (backend st) (remove_rule rid (rules (backend st)))) s.
Proof.
  intros Hf.
  unfold delete_replication_rule, try_except, bind, sdk_call, ret, moved.
  unfold S. cbn [Array.sdk backend]. rewrite Hf. cbn.
  eexists. split; [reflexivity | repeat split].
Qed.

(** The run that finds no rule to delete. *)
Lemma absent_run_finds_nothing p a1 sa' rsid sb' :
  state p = VStr "absent" ->
  cluster_block S (initial a1) = (Return tt, sa') ->
  remote_system_block S name_or_id p sa' = (Return rsid, sb') ->
  backend sb' = a1 ->
  found_rule (replication_rule_name p) (replication_rule_id p) (rules a1)
  = None ->
  exists st2,
    main S name_or_id h p a1
    = (Return {| changed := false; replication_rule_details := VNone |},
       st2) /\
    backend st2 = a1.
Proof.
  intros Hs H1 H2 Hb Hf.
  destruct (array_lookup_block p sb') as (sc' & Hlk & Hmv & _).
  rewrite Hb, Hf in Hlk. rewrite Hb in Hmv.
  pose proof (resolve_eq _ S name_or_id h p _ _ _ _ _ _ _ _ H1 H2 Hlk) as Hres.
  exists sc'. split; [|exact Hmv].
  unfold main, perform_module_operation.
  rewrite (bind_eq_Return _ _ _ _ _ _ Hres).
  rewrite (reconcile_absent _ S name_or_id h p _ _ _ _ _ Hs). reflexivity.
Qed.

(** X15, on the array in memory with rule ids and rule names that are
    unique: a request with state absent that succeeded, repeated on the
    array it left, finds no rule, succeeds with changed false and leaves
    the array as it is. *)
Theorem second_delete_changes_nothing p a r1 st1 :
  state p = VStr "absent" ->
  replication_rule_id p = VNone \/ replication_rule_name p = VNone ->
  NoDup (map rule_id (rules a)) ->
  NoDup (map rule_name (rules a)) ->
  main S name_or_id h p a = (Return r1, st1) ->
  replication_rule_details r1 = VNone /\
  found_rule (replication_rule_name p) (replication_rule_id p)
    (rules (backend st1)) = None /\
  exists st2,
    main S name_or_id h p (backend st1)
    = (Return {| changed := false; replication_rule_details := VNone |},
       st2) /\
    backend st2 = backend st1.
Proof.
  intros Hs Hex Hid Hname Hm.
  unfold main, perform_module_operation in Hm.
  apply bind_Return in Hm as ([[[rsid d] rid] rn] & sc & Hres & Hrec).
  apply resolve_Return in Hres as (sa & sb & H1 & H2 & Hlk).
  destruct (prelude_second_run p a a sa rsid sb (conj eq_refl eq_refl) H1 H2)
    as (Hsb & _).
  destruct (array_lookup_block p sb) as (sc0 & Hlk0 & Hmb & Hmn & Hmg).
  rewrite Hlk in Hlk0. rewrite Hsb in Hlk0, Hmb.
  injection Hlk0 as Hvals <-.
  rewrite (reconcile_absent _ S name_or_id h p _ _ _ _ _ Hs) in Hrec.
  destruct (found_rule (replication_rule_name p) (replication_rule_id p)
              (rules a)) as [rf|] eqn:Hfound.
  - (* the rule is deleted *)
    injection Hvals as -> Hrid Hrn.
    assert (rid = VStr (rule_id rf)) as Hrid'.
    { rewrite Hrid. destruct (truthy (replication_rule_id p)) eqn:Ht;
        [|reflexivity].
      destruct Hex as [Hex | Hex]; [rewrite Hex in Ht; discriminate|].
      unfold found_rule in Hfound. rewrite Hex in Hfound. cbn in Hfound.
      apply find_has_id in Hfound as [E _]. exact E. }
    rewrite truthy_rule_json in Hrec.
    pose proof (found_rule_id _ _ _ _ Hfound) as Hfid.
    rewrite <- Hrid', <- Hmb in Hfid.
    destruct (array_delete rid sc rf Hfid) as (s3 & Hdel & Hb3 & Hn3 & Hg3).
    unfold bind in Hrec. rewrite Hdel in Hrec. unfold ret in Hrec.
    injection Hrec as <- <-. rewrite Hmb in Hb3.
    cbn [replication_rule_details]. rewrite Hb3.
    set (a1 := with_rules a (remove_rule rid (rules a))) in *.
    assert (found_rule (replication_rule_name p) (replication_rule_id p)
              (rules a1) = None) as Hgone.
    { unfold a1. cbn [rules with_rules]. rewrite Hrid'.
      apply found_rule_removed; assumption. }
    split; [reflexivity|]. split; [exact Hgone|].
    destruct (prelude_second_run p a a1 sa rsid sb
                (same_env_with_rules a _) H1 H2)
      as (_ & sa' & sb' & H1' & H2' & Hb' & _).
    exact (absent_run_finds_nothing p a1 sa' rsid sb' Hs H1' H2' Hb' Hgone).
  - (* there was no rule *)
    injection Hvals as -> -> ->. cbn [truthy] in Hrec.
    injection Hrec as <- <-. cbn [replication_rule_details]. rewrite Hmb.
    split; [reflexivity|]. split; [exact Hfound|].
    destruct (prelude_second_run p a a sa rsid sb (conj eq_refl eq_refl) H1 H2)
      as (_ & sa' & sb' & H1' & H2' & Hb' & _).
    exact (absent_run_finds_nothing p a sa' rsid sb' Hs H1' H2' Hb' Hfound).
Qed.


End Idempotence.

(** C2 on the sample array: the request that creates the rule B, repeated. *)
Lemma second_run_witness :
  exists r2 st2,
    run_on_array (with_rpo "B" "One_Hour" "RS2")
      (backend (snd (run_on_array (with_rpo "B" "One_Hour" "RS2") array0)))
    = (Return r2, st2) /\
    changed r2 = false /\
    backend st2
    = backend (snd (run_on_array (with_rpo "B" "One_Hour" "RS2") array0)).
Proof.
  destruct
    (second_run_changes_nothing http_err eq_refl name_or_id_of_format
       (with_rpo "B" "One_Hour" "RS2") array0
       (match fst (run_on_array (with_rpo "B" "One_Hour" "RS2") array0) with
        | Return r => r
        | _ => {| changed := false; replication_rule_details := VNone |}
        end)
       (snd (run_on_array (with_rpo "B" "One_Hour" "RS2") array0)))
    as (r2 & st2 & Hrun & Hch & Hbk & _).
  - reflexivity.
  - left. reflexivity.
  - right. left. reflexivity.
  - vm_compute. reflexivity.
  - exists r2, st2. repeat split; assumption.
Defined.

(** ** The further properties on the sample arrays *)

(** What the lookups of a request give on an array, and where they end. *)
Definition resolved (p : params) (a : Array.array) :=
  resolve (Array.sdk http_err) name_or_id_of_format http_err p (initial a).

(** X1 on the sample array: the rule A, named with state absent, is
    deleted by the id the lookup found. *)
Lemma existing_rule_is_deleted_witness :
  fst (run_on_array (by_name "A" "absent") array0)
  = Return {| changed := true; replication_rule_details := VNone |} /\
  calls (log (snd (run_on_array (by_name "A" "absent") array0)))
  = [GetClusterList; GetReplicationRuleByName (VStr "A");
     GetReplicationRuleDetails (VStr (Array.rule_id rule_a));
     DeleteReplicationRule (VStr (Array.rule_id rule_a))].
Proof.
  destruct
    (existing_rule_is_deleted _ (Array.sdk http_err) name_or_id_of_format
       http_err (by_name "A" "absent") array0 VNone (Array.rule_json rule_a)
       (VStr (Array.rule_id rule_a)) (VStr "A")
       (snd (resolved (by_name "A" "absent") array0))
       (Returns VNone) (Array.with_rules array0 []))
    as [_ H].
  - vm_compute. reflexivity.
  - reflexivity.
  - reflexivity.
  - vm_compute. reflexivity.
  - unfold run_on_array. rewrite H. split; vm_compute; reflexivity.
Defined.

(** X2 on the sample array: the rule A has the objective One_Hour, the
    request asks for One_Day, and the rule is modified. *)
Lemma differing_rule_is_modified_witness :
  mutating_calls
    (log (snd (run_on_array (with_rpo "A" "One_Day" "RS2") array0)))
  = [ModifyReplicationRule (VStr (Array.rule_id rule_a)) VNone
       (VStr "One_Day") (VStr (Array.rs_id rs2)) VNone] /\
  forall x,
    fst (run_on_array (with_rpo "A" "One_Day" "RS2") array0) = Return x ->
    changed x = true.
Proof.
  pose proof
    (differing_rule_is_modified _ (Array.sdk http_err) name_or_id_of_format
       http_err (with_rpo "A" "One_Day" "RS2") array0
       (VStr (Array.rs_id rs2)) (Array.rule_json rule_a)
       (VStr (Array.rule_id rule_a)) (VStr "A")
       (snd (resolved (with_rpo "A" "One_Day" "RS2") array0))
       (VStr "A")
       (fst (Array.sdk http_err
               (ModifyReplicationRule (VStr (Array.rule_id rule_a)) VNone
                  (VStr "One_Day") (VStr (Array.rs_id rs2)) VNone) array0))
       (snd (Array.sdk http_err
               (ModifyReplicationRule (VStr (Array.rule_id rule_a)) VNone
                  (VStr "One_Day") (VStr (Array.rs_id rs2)) VNone) array0)))
    as H.
  cbv zeta in H.
  assert (forall x,
             fst (run_on_array (with_rpo "A" "One_Day" "RS2") array0)
             = Return x -> changed x = true) as Hc.
  { refine (proj2 (proj2 (H _ _ _ _ _ _))).
    - vm_compute. reflexivity.
    - reflexivity.
    - reflexivity.
    - right. split; reflexivity.
    - vm_compute. reflexivity.
    - vm_compute. reflexivity. }
  split; [vm_compute; reflexivity | exact Hc].
Defined.

(** An SDK in front of an array that accepts a create call and then does
    not know the rule it created. *)
Definition forgetful (c : call) : result :=
  match c with
  | GetClusterList => Returns (VList [Array.cluster_json ("0", "WN-D8977")])
  | GetRemoteSystemByName _ _ => Returns (VList [Array.remote_system_json rs2])
  | GetRemoteSystemDetails _ => Returns (Array.remote_system_json rs2)
  | GetReplicationRuleByName _ => Returns (VList [])
  | GetReplicationRuleDetails _ =>
      Raises (PowerStoreException http_err (VStr "404"))
  | CreateReplicationRule _ _ _ _ => Returns (VDict [("id", VStr "1")])
  | ModifyReplicationRule _ _ _ _ _ => Returns VNone
  | DeleteReplicationRule _ => Returns VNone
  end.

(** An SDK whose every call fails. *)
Definition unreachable (c : call) : result :=
  Raises (PowerStoreException http_err (VStr "500")).

(** X3 with the SDK that forgets the rule it created: the create call is
    made and returns, the fetch of the created rule answers "404", and the
    module reports that the creation failed. *)
Lemma create_failures_witness :
  fst (run_scripted forgetful (with_rpo "B" "One_Hour" "RS2"))
  = FailJson
      (msg_create_failed (VStr "WN-D8977") (VStr "0")
         (PowerStoreException http_err (VStr "404")))
      (Some (PowerStoreException http_err (VStr "404"))) /\
  mutating_calls (log (snd (run_scripted forgetful
                              (with_rpo "B" "One_Hour" "RS2"))))
  = [CreateReplicationRule (VStr "B") (VStr "One_Hour")
       (VStr (Array.rs_id rs2)) VNone].
Proof.
  pose proof
    (create_failures_are_fatal _ (scripted forgetful) name_or_id_of_format
       http_err (with_rpo "B" "One_Hour" "RS2") tt
       (VStr (Array.rs_id rs2)) VNone VNone (VStr "B")
       (snd (resolve (scripted forgetful) name_or_id_of_format http_err
               (with_rpo "B" "One_Hour" "RS2") (initial tt)))
       (Returns (VDict [("id", VStr "1")])) tt) as H.
  cbv zeta in H.
  assert (run_scripted forgetful (with_rpo "B" "One_Hour" "RS2")
          = (FailJson
               (msg_create_failed (VStr "WN-D8977") (VStr "0")
                  (PowerStoreException http_err (VStr "404")))
               (Some (PowerStoreException http_err (VStr "404"))),
             snd (run_scripted forgetful (with_rpo "B" "One_Hour" "RS2"))))
    as Hrun.
  { unfold run_scripted at 1.
    rewrite (H ltac:(vm_compute; reflexivity) eq_refl eq_refl
               ltac:(repeat split; try reflexivity;
                     exists "B"; split; [reflexivity | discriminate])
               eq_refl
               (VStr "1") (PowerStoreException http_err (VStr "404")) tt
               eq_refl eq_refl).
    vm_compute. reflexivity. }
  rewrite Hrun. split; [reflexivity | vm_compute; reflexivity].
Defined.

(** X4 with the same SDK: showing a rule that is gone ends on the
    TypeError. *)
Lemma shown_rule_witness :
  fst (output_block (scripted forgetful) name_or_id_of_format http_err
         (by_name "A" "present") false (Array.rule_json rule_a)
         (VStr (Array.rule_id rule_a)) (initial tt))
  = Raise TypeError.
Proof.
  rewrite (shown_rule_must_exist _ (scripted forgetful) name_or_id_of_format
             http_err (by_name "A" "present") false (Array.rule_json rule_a)
             (VStr (Array.rule_id rule_a)) (initial tt)
             (Raises (PowerStoreException http_err (VStr "404"))) tt
             eq_refl eq_refl eq_refl).
  - reflexivity.
  - left. eexists. split; reflexivity.
Defined.

(** X5 on the sample array: the request that creates the rule B reports
    changed true, and its record holds the create call. *)
Lemma changed_iff_mutation_witness :
  exists r st',
    run_on_array (with_rpo "B" "One_Hour" "RS2") array0 = (Return r, st') /\
    changed r = true /\ mutated (log st') = true.
Proof.
  destruct (run_on_array (with_rpo "B" "One_Hour" "RS2") array0)
    as [o st'] eqn:E.
  assert (exists r, o = Return r /\ changed r = true) as (r & -> & Hc).
  { apply (f_equal fst) in E. vm_compute in E. subst o. eexists.
    split; reflexivity. }
  exists r, st'. split; [reflexivity|]. split; [exact Hc|].
  rewrite <- Hc. symmetry.
  exact (changed_iff_mutation _ (Array.sdk http_err) name_or_id_of_format
           http_err (with_rpo "B" "One_Hour" "RS2") array0 r st' E).
Defined.

(** X8 on the sample array: a request for a new rule with a name of
    blanks fails on the check of the name, although it lacks a remote system
    and an rpo as well. *)
Lemma create_checks_witness :
  fst (run_on_array (by_name "   " "present") array0)
  = FailJson msg_invalid_name None.
Proof.
  destruct
    (create_checks_in_order _ (Array.sdk http_err) name_or_id_of_format
       http_err (by_name "   " "present") array0 VNone VNone VNone
       (VStr "   ") (snd (resolved (by_name "   " "present") array0)))
    as (_ & H & _).
  - vm_compute. reflexivity.
  - reflexivity.
  - reflexivity.
  - unfold run_on_array. rewrite H.
    + reflexivity.
    + reflexivity.
    + right. exists "   ". split; reflexivity.
Defined.

(** X9 on the sample array: the cluster the invocation names is the one
    cluster of the array. *)
Lemma first_cluster_witness :
  cluster_name (snd (run_on_array (by_name "A" "present") array0))
  = VStr "WN-D8977" /\
  cluster_global_id (snd (run_on_array (by_name "A" "present") array0))
  = VStr "0".
Proof.
  destruct
    (first_cluster_names_the_array _ (Array.sdk http_err)
       name_or_id_of_format http_err (by_name "A" "present") array0
       VNone (Array.rule_json rule_a) (VStr (Array.rule_id rule_a)) (VStr "A")
       (snd (resolved (by_name "A" "present") array0)))
    as (l & b0 & c0 & _ & _ & _ & _ & Hn & Hg).
  - vm_compute. reflexivity.
  - unfold run_on_array. rewrite Hn, Hg. split; vm_compute; reflexivity.
Defined.

(** X10 on the sample array: a remote system given by its id is fetched by
    that id, and an id the array does not know is a failure. *)
Lemma remote_system_by_id_witness :
  fst (get_remote_system_details (Array.sdk http_err) name_or_id_of_format
         (VStr (Array.rs_id rs2)) VNone (initial array0))
  = Return (Array.remote_system_json rs2) /\
  fst (get_remote_system_details (Array.sdk http_err) name_or_id_of_format
         (VStr unknown_remote) VNone (initial array0))
  = FailJson (msg_remote_system_failed (Array.not_found http_err))
      (Some (Array.not_found http_err)).
Proof.
  split.
  - rewrite (proj2 (remote_system_by_id _ (Array.sdk http_err)
                      name_or_id_of_format (VStr (Array.rs_id rs2)) VNone
                      (initial array0))
               eq_refl eq_refl (Returns (Array.remote_system_json rs2)) array0
               eq_refl).
    reflexivity.
  - rewrite (proj2 (remote_system_by_id _ (Array.sdk http_err)
                      name_or_id_of_format (VStr unknown_remote) VNone
                      (initial array0))
               eq_refl eq_refl (Raises (Array.not_found http_err)) array0
               eq_refl).
    reflexivity.
Defined.

(** X11 on the sample array: a request that only names the rule A reads
    it and changes nothing. *)
Lemma request_without_attributes_witness :
  mutating_calls (log (snd (run_on_array (by_name "A" "present") array0)))
  = [].
Proof.
  refine
    (proj2 (proj2 (proj2
       (request_without_attributes_only_reads _ (Array.sdk http_err)
          name_or_id_of_format http_err (by_name "A" "present") array0 VNone
          [("id", VStr (Array.rule_id rule_a)); ("name", VStr "A");
           ("rpo", VStr "One_Hour"); ("alert_threshold", VInt 60);
           ("remote_system_id", VStr (Array.rs_id rs2));
           ("is_replica", VBool false); ("policies", VList [])]
          (VStr (Array.rule_id rule_a)) (VStr "A")
          (snd (resolved (by_name "A" "present") array0)) "A"
          _ eq_refl eq_refl eq_refl eq_refl eq_refl eq_refl)))).
  vm_compute. reflexivity.
Defined.

(** X12 on a rule whose object has no alert threshold: asking for one
    does not make a modification necessary. *)
Lemma unreported_attribute_witness :
  modify_replication_rule_required
    (VDict [("id", VStr "1"); ("name", VStr "A"); ("rpo", VStr "One_Hour")])
    (new_rep_rule_dict (VStr "A") (VStr "One_Hour") VNone (VInt 30))
  = inr false.
Proof.
  change (new_rep_rule_dict (VStr "A") (VStr "One_Hour") VNone (VInt 30))
    with (dict_set (new_rep_rule_dict (VStr "A") (VStr "One_Hour") VNone VNone)
            "alert_threshold" (VInt 30)).
  rewrite (unreported_attribute_is_ignored
             [("id", VStr "1"); ("name", VStr "A"); ("rpo", VStr "One_Hour")]
             (new_rep_rule_dict (VStr "A") (VStr "One_Hour") VNone VNone)
             "alert_threshold" (VInt 30) eq_refl).
  reflexivity.
Defined.

(** X13 on the sample array: the rule A is found by its name, whatever id
    comes with it, and no rule is named B. *)
Lemma rule_lookup_witness :
  fst (get_replication_rule_details (Array.sdk http_err) http_err
         (VStr "A") (VStr "no such id") (initial array0))
  = Return (Array.rule_json rule_a) /\
  fst (get_replication_rule_details (Array.sdk http_err) http_err
         (VStr "B") VNone (initial array0))
  = Return VNone.
Proof.
  split.
  - destruct
      (proj1 (rule_lookup_by_name_or_id _ (Array.sdk http_err) http_err
                (VStr "A") (VStr "no such id") (initial array0))
         eq_refl [Array.rule_brief rule_a] array0 eq_refl) as [_ H].
    rewrite (H (Array.rule_brief rule_a) [] (VStr (Array.rule_id rule_a))
               (Array.rule_json rule_a) array0 eq_refl eq_refl eq_refl).
    reflexivity.
  - destruct
      (proj1 (rule_lookup_by_name_or_id _ (Array.sdk http_err) http_err
                (VStr "B") VNone (initial array0))
         eq_refl [] array0 eq_refl) as [H _].
    rewrite (H eq_refl). reflexivity.
Defined.

(** X14 with an SDK that cannot be reached: the invocation fails on the
    cluster lookup, its only call. *)
Lemma cluster_lookup_failures_witness :
  fst (run_scripted unreachable (by_name "A" "present"))
  = FailJson
      (msg_clusters_failed (PowerStoreException http_err (VStr "500")))
      (Some (PowerStoreException http_err (VStr "500"))) /\
  calls (log (snd (run_scripted unreachable (by_name "A" "present"))))
  = [GetClusterList].
Proof.
  destruct
    (cluster_lookup_failures _ (scripted unreachable) name_or_id_of_format
       http_err (by_name "A" "present") tt
       (Raises (PowerStoreException http_err (VStr "500"))) tt eq_refl)
    as [H _].
  unfold run_scripted. rewrite (H _ eq_refl). split; reflexivity.
Defined.

(** The arguments of [exit_json] in an outcome that is a success. *)
Definition reported_result (x : outcome exit_result * mstate Array.array)
  : exit_result :=
  match fst x with
  | Return r => r
  | _ => {| changed := false; replication_rule_details := VNone |}
  end.

(** X15 on the sample array: the rule A is deleted, and the same request
    again changes nothing. *)
Lemma second_delete_witness :
  changed (reported_result (run_on_array (by_name "A" "absent") array0))
  = true /\
  exists st2,
    run_on_array (by_name "A" "absent")
      (backend (snd (run_on_array (by_name "A" "absent") array0)))
    = (Return {| changed := false; replication_rule_details := VNone |},
       st2) /\
    backend st2 = backend (snd (run_on_array (by_name "A" "absent") array0)).
Proof.
  split; [vm_compute; reflexivity|].
  destruct
    (second_delete_changes_nothing http_err eq_refl name_or_id_of_format
       (by_name "A" "absent") array0
       (reported_result (run_on_array (by_name "A" "absent") array0))
       (snd (run_on_array (by_name "A" "absent") array0)))
    as (_ & _ & st2 & Hrun & Hbk).
  - reflexivity.
  - left. reflexivity.
  - vm_compute. repeat constructor; cbn; intuition discriminate.
  - vm_compute. repeat constructor; cbn; intuition discriminate.
  - vm_compute. reflexivity.
  - exists st2. split; assumption.
Defined.

(** The rule the sample array holds once a rule B is created on it. *)
Definition rule_b : Array.rule :=
  {| Array.rule_id := Array.fresh_id [rule_a]; Array.rule_name := "B";
     Array.rule_rpo := "One_Hour"; Array.rule_threshold := 60;
     Array.rule_remote := Array.rs_id rs2 |}.

(** X16 on the sample array: the rule B is created, read back, found to
    agree with the request and shown. *)
Lemma created_rule_witness :
  exists st3,
    run_on_array (with_rpo "B" "One_Hour" "RS2") array0
    = output_block (Array.sdk http_err) name_or_id_of_format http_err
        (with_rpo "B" "One_Hour" "RS2") true (Array.rule_json rule_b)
        (VStr (Array.rule_id rule_b)) st3 /\
    mutating_calls (log st3)
    = [CreateReplicationRule (VStr "B") (VStr "One_Hour")
         (VStr (Array.rs_id rs2)) VNone].
Proof.
  pose proof
    (created_rule_is_read_back _ (Array.sdk http_err) name_or_id_of_format
       http_err (with_rpo "B" "One_Hour" "RS2") array0
       (VStr (Array.rs_id rs2)) VNone VNone (VStr "B")
       (snd (resolved (with_rpo "B" "One_Hour" "RS2") array0))
       (VDict [("id", VStr (Array.rule_id rule_b))])
       (Array.with_rules array0 [rule_a; rule_b])
       (VStr (Array.rule_id rule_b)) (Array.rule_json rule_b)
       (Array.with_rules array0 [rule_a; rule_b])
       (VStr (Array.rule_id rule_b)) (VStr "B")) as H.
  cbv zeta in H.
  destruct H as [H _].
  - vm_compute. reflexivity.
  - reflexivity.
  - reflexivity.
  - repeat split; try reflexivity.
    exists "B". split; [reflexivity | discriminate].
  - vm_compute. reflexivity.
  - reflexivity.
  - vm_compute. reflexivity.
  - reflexivity.
  - reflexivity.
  - eexists. split.
    + unfold run_on_array. apply H. vm_compute. reflexivity.
    + vm_compute. reflexivity.
Defined.


